(** * Matching and scoring engine of the resume generator

    A shallow embedding of [src/matcher] (technology matcher, job
    normalizer, scorers, selector) and of the types it works on, followed
    by the properties the specification states about them.

    Conventions of the embedding:
    - a JavaScript [number] that holds a score, a weight or a ratio is a
      rational [Q] (exact arithmetic); a number that holds a calendar year
      is a [Z]; a number that holds a count or a list length is a [nat];
    - [NaN] is modelled only where the code can produce it from a string
      ([parseInt]), as [None] of an [option];
    - a string is a [string] of 8-bit characters; [toLowerCase],
      [toUpperCase], [trim] and the regular-expression classes [\d], [\s],
      [\b] act on the ASCII range, so a property that rests on the case of
      letters is stated for ASCII strings;
    - an optional field ([f?: T]) is an [option T];
    - [new Date().getFullYear()] is the explicit parameter [now];
    - where a result depends on the rounding of IEEE doubles, the
      expression of the code is evaluated again on binary64 floats (the
      definitions named [...Double]), and the statement is made about
      that value. *)

From Stdlib Require Import Bool Arith ZArith QArith Qround Qminmax Lia Lqa.
From Stdlib Require Import List String Ascii DecimalString.
From Stdlib Require Import Sorting.Sorted Sorting.Permutation.
From Stdlib Require Import Floats.
Import ListNotations.

Set Warnings "-inexact-float".

Local Open Scope string_scope.
Local Open Scope list_scope.

(* ================================================================= *)
(** ** JavaScript string primitives *)

Module Js.

Definition isUpper (c : ascii) : bool :=
  let n := nat_of_ascii c in (65 <=? n)%nat && (n <=? 90)%nat.

Definition isLower (c : ascii) : bool :=
  let n := nat_of_ascii c in (97 <=? n)%nat && (n <=? 122)%nat.

Definition isDigit (c : ascii) : bool :=
  let n := nat_of_ascii c in (48 <=? n)%nat && (n <=? 57)%nat.

(** [\s]: tab, line feed, vertical tab, form feed, carriage return, space. *)
Definition isSpace (c : ascii) : bool :=
  let n := nat_of_ascii c in
  ((9 <=? n)%nat && (n <=? 13)%nat) || (n =? 32)%nat.

(** [\w]: letters, digits and the underscore. *)
Definition isWordChar (c : ascii) : bool :=
  isUpper c || isLower c || isDigit c || (nat_of_ascii c =? 95)%nat.

Definition lowerChar (c : ascii) : ascii :=
  if isUpper c then ascii_of_nat (nat_of_ascii c + 32) else c.

Definition upperChar (c : ascii) : ascii :=
  if isLower c then ascii_of_nat (nat_of_ascii c - 32) else c.

Fixpoint mapChars (f : ascii -> ascii) (s : string) : string :=
  match s with
  | EmptyString => EmptyString
  | String c r => String (f c) (mapChars f r)
  end.

Definition toLowerCase : string -> string := mapChars lowerChar.
Definition toUpperCase : string -> string := mapChars upperChar.

Fixpoint trimStart (s : string) : string :=
  match s with
  | String c r => if isSpace c then trimStart r else s
  | EmptyString => EmptyString
  end.

Fixpoint trimEnd (s : string) : string :=
  match s with
  | EmptyString => EmptyString
  | String c r =>
      match trimEnd r with
      | EmptyString => if isSpace c then EmptyString else String c EmptyString
      | r' => String c r'
      end
  end.

Definition trim (s : string) : string := trimEnd (trimStart s).

(** [s.startsWith(p)] *)
Fixpoint startsWith (p s : string) : bool :=
  match p, s with
  | EmptyString, _ => true
  | String a p', String b s' => Ascii.eqb a b && startsWith p' s'
  | String _ _, EmptyString => false
  end.

(** [s.includes(sub)] *)
Fixpoint includes (s sub : string) : bool :=
  startsWith sub s ||
  match s with
  | EmptyString => false
  | String _ r => includes r sub
  end.

Fixpoint filterChars (keep : ascii -> bool) (s : string) : string :=
  match s with
  | EmptyString => EmptyString
  | String c r => if keep c then String c (filterChars keep r) else filterChars keep r
  end.

(** [s.charAt(0).toUpperCase() + s.slice(1)] *)
Definition capitalize (s : string) : string :=
  match s with
  | EmptyString => EmptyString
  | String c r => String (upperChar c) r
  end.

(** [arr.includes(x)] on an array of strings *)
Definition arrIncludes (arr : list string) (x : string) : bool :=
  existsb (String.eqb x) arr.

(** [arr.join(sep)] *)
Fixpoint join (sep : string) (arr : list string) : string :=
  match arr with
  | [] => ""
  | [x] => x
  | x :: rest => x ++ sep ++ join sep rest
  end.

(** [s.split('-')[0]]: the characters before the first occurrence of [d]. *)
Fixpoint beforeFirst (d : ascii) (s : string) : string :=
  match s with
  | EmptyString => EmptyString
  | String c r => if Ascii.eqb c d then EmptyString else String c (beforeFirst d r)
  end.

Definition digitVal (c : ascii) : Z := Z.of_nat (nat_of_ascii c - 48).

Fixpoint digitsPrefix (s : string) (acc : option Z) : option Z :=
  match s with
  | String c r =>
      if isDigit c
      then digitsPrefix r (Some (10 * match acc with Some a => a | None => 0 end + digitVal c)%Z)
      else acc
  | EmptyString => acc
  end.

(** [parseInt(s, 10)]: leading white space is skipped, an optional sign is
    read, then the longest run of decimal digits; [None] is [NaN]. *)
Definition parseInt (s : string) : option Z :=
  match trimStart s with
  | String "-" r => option_map Z.opp (digitsPrefix r None)
  | String "+" r => digitsPrefix r None
  | r => digitsPrefix r None
  end.

End Js.

(* ================================================================= *)
(** ** technology-matcher.ts *)

(** The alias table, in the order of the source ([Object.entries] walks the
    keys in insertion order). *)
Definition TECH_ALIASES : list (string * list string) :=
  [ ("JavaScript", ["JS"; "javascript"; "es6"; "ecmascript"; "es2015"; "es2020"]);
    ("TypeScript", ["TS"; "typescript"]);
    ("React Native", ["react-native"; "RN"; "reactnative"]);
    ("React", ["reactjs"; "react.js"]);
    ("Node.js", ["nodejs"; "node"; "node.js"]);
    ("Next.js", ["nextjs"; "next.js"; "next"]);
    ("Swift", ["swift"; "ios"]);
    ("Kotlin", ["kotlin"; "android"]);
    ("Objective-C", ["objc"; "objective-c"; "obj-c"]);
    ("PostgreSQL", ["postgres"; "postgresql"; "psql"; "pg"]);
    ("MongoDB", ["mongo"; "mongodb"]);
    ("MySQL", ["mysql"]);
    ("Redis", ["redis"]);
    ("Docker", ["docker"; "containers"]);
    ("Kubernetes", ["k8s"; "kubernetes"; "kube"]);
    ("AWS", ["aws"; "amazon web services"; "s3"; "ec2"; "lambda"]);
    ("GCP", ["gcp"; "google cloud"; "google cloud platform"]);
    ("Azure", ["azure"; "microsoft azure"]);
    ("GitHub Actions", ["github actions"; "gha"; "github-actions"]);
    ("GitLab CI", ["gitlab ci"; "gitlab-ci"; "gitlab pipelines"]);
    ("CircleCI", ["circleci"; "circle ci"; "circle-ci"]);
    ("Fastlane", ["fastlane"]);
    ("Firebase", ["firebase"; "firestore"]);
    ("GraphQL", ["graphql"; "gql"]);
    ("REST", ["rest"; "restful"; "rest api"]);
    ("UIKit", ["uikit"; "ui kit"]);
    ("SwiftUI", ["swiftui"; "swift ui"]);
    ("Jetpack Compose", ["jetpack compose"; "compose"; "android compose"]);
    ("Jest", ["jest"]);
    ("Cypress", ["cypress"]);
    ("XCTest", ["xctest"; "xcode testing"]);
    ("Expo", ["expo"; "expo-cli"; "eas"]);
    ("NestJS", ["nestjs"; "nest.js"; "nest"]);
    ("Fastify", ["fastify"]);
    ("Express", ["express"; "expressjs"; "express.js"]);
    ("Python", ["python"; "py"; "python3"]);
    ("Go", ["golang"; "go"]);
    ("Rust", ["rust"; "rustlang"]);
    ("Ruby", ["ruby"; "rails"; "ruby on rails"]);
    ("Java", ["java"; "jvm"]);
    ("SQLite", ["sqlite"; "sqlite3"]);
    ("Supabase", ["supabase"]);
    ("Heroku", ["heroku"]);
    ("Dokku", ["dokku"]);
    ("Ansible", ["ansible"]);
    ("Terraform", ["terraform"; "tf"]) ].

(** The canonical names are the keys of the table. *)
Definition canonicalNames : list string := map fst TECH_ALIASES.

Definition normalizeTechName (tech : string) : string :=
  let lower := Js.trim (Js.toLowerCase tech) in
  match
    find (fun entry : string * list string =>
            let (canonical, aliases) := entry in
            Js.arrIncludes aliases lower || String.eqb (Js.toLowerCase canonical) lower)
         TECH_ALIASES
  with
  | Some (canonical, _) => canonical
  | None => Js.capitalize tech
  end.

(** The class [[.\-_\s]] removed by [techMatches]. *)
Definition isSeparator (c : ascii) : bool :=
  Ascii.eqb c "." || Ascii.eqb c "-" || Ascii.eqb c "_" || Js.isSpace c.

Definition techMatches (tech1 tech2 : string) : bool :=
  let norm1 := Js.toLowerCase (normalizeTechName tech1) in
  let norm2 := Js.toLowerCase (normalizeTechName tech2) in
  if String.eqb norm1 norm2 then true
  else if Js.includes norm1 norm2 || Js.includes norm2 norm1 then true
  else
    let clean1 := Js.filterChars (fun c => negb (isSeparator c)) norm1 in
    let clean2 := Js.filterChars (fun c => negb (isSeparator c)) norm2 in
    String.eqb clean1 clean2.

Record MatchingTechs := {
  matched : list string;
  missing : list string
}.

Definition findMatchingTechs (candidateTechs requiredTechs : list string) : MatchingTechs :=
  fold_left
    (fun acc required =>
       let found := existsb (fun c => techMatches c required) candidateTechs in
       if found
       then {| matched := matched acc ++ [normalizeTechName required]; missing := missing acc |}
       else {| matched := matched acc; missing := missing acc ++ [normalizeTechName required] |})
    requiredTechs
    {| matched := []; missing := [] |}.


Record Skill := {
  skill_name : string;
  skill_level : string;
  skill_yearsUsed : Q;
  skill_lastUsed : Z;
  skill_wantToUse : bool;
  skill_keywords : option (list string)
}.

(** [categories] is walked with [Object.values]: the category names, in
    insertion order, each with its skills. *)
Record SkillsData := {
  categories : list (string * list Skill);
  featured : list string;
  deprecated : list string
}.

Definition getAllSkills (skills : SkillsData) : list Skill :=
  flat_map snd (categories skills).

Record MatchingSkills := {
  ms_required : list Skill;
  ms_preferred : list Skill;
  ms_other : list Skill
}.

(** [techMatches(skill.name, t) || skill.keywords?.some((k) => techMatches(k, t))] *)
Definition skillMatchesTech (skill : Skill) (t : string) : bool :=
  techMatches (skill_name skill) t ||
  match skill_keywords skill with
  | Some ks => existsb (fun k => techMatches k t) ks
  | None => false
  end.

Definition findMatchingSkills (skills : SkillsData) (requiredTechs preferredTechs : list string)
  : MatchingSkills :=
  fold_left
    (fun acc skill =>
       let matchesRequired := existsb (skillMatchesTech skill) requiredTechs in
       let matchesPreferred := existsb (skillMatchesTech skill) preferredTechs in
       if matchesRequired then
         {| ms_required := ms_required acc ++ [skill];
            ms_preferred := ms_preferred acc; ms_other := ms_other acc |}
       else if matchesPreferred then
         {| ms_required := ms_required acc;
            ms_preferred := ms_preferred acc ++ [skill]; ms_other := ms_other acc |}
       else
         {| ms_required := ms_required acc;
            ms_preferred := ms_preferred acc; ms_other := ms_other acc ++ [skill] |})
    (getAllSkills skills)
    {| ms_required := []; ms_preferred := []; ms_other := [] |}.

(** Numbers: a count and [arr.length] as rationals, [Math.min], [Math.max],
    [Math.round]. *)
Definition Qnat (n : nat) : Q := inject_Z (Z.of_nat n).

Definition Qlen {A} (l : list A) : Q := Qnat (List.length l).

Definition mathMin (a b : Q) : Q := if Qle_bool a b then a else b.
Definition mathMax (a b : Q) : Q := if Qle_bool a b then b else a.

(** [Math.round] rounds to the nearest integer, halves towards plus infinity. *)
Definition mathRound (x : Q) : Z := Qfloor (x + (1 # 2))%Q.

Record TechCoverage := {
  requiredCoverage : Q;
  preferredCoverage : Q;
  overallCoverage : Q;
  matchedRequired : list string;
  matchedPreferred : list string
}.

Definition calculateTechCoverage (candidateTechs requiredTechs preferredTechs : list string)
  : TechCoverage :=
  let reqResult := findMatchingTechs candidateTechs requiredTechs in
  let prefResult := findMatchingTechs candidateTechs preferredTechs in
  let requiredCoverage :=
    if (0 <? List.length requiredTechs)%nat
    then (Qlen (matched reqResult) / Qlen requiredTechs)%Q else 1%Q in
  let preferredCoverage :=
    if (0 <? List.length preferredTechs)%nat
    then (Qlen (matched prefResult) / Qlen preferredTechs)%Q else 1%Q in
  let overallCoverage := (requiredCoverage * 0.7 + preferredCoverage * 0.3)%Q in
  {| requiredCoverage := requiredCoverage;
     preferredCoverage := preferredCoverage;
     overallCoverage := overallCoverage;
     matchedRequired := matched reqResult;
     matchedPreferred := matched prefResult |}.

Definition isDeprecated (tech : string) (skills : SkillsData) : bool :=
  existsb (fun d => techMatches d tech) (deprecated skills).

Definition isFeatured (tech : string) (skills : SkillsData) : bool :=
  existsb (fun f => techMatches f tech) (featured skills).

(* ================================================================= *)
(** ** types/job.ts, types/analyzer.ts, types/matcher.ts *)

Record Company := {
  co_name : string;
  co_industry : option string;
  co_size : option string;
  co_stage : option string;
  co_description : option string;
  co_website : option string;
  co_location : option string
}.

Record Project := {
  proj_name : string;
  proj_description : option string;
  proj_role : option string;
  proj_duration : option string;
  proj_technologies : option (list string);
  proj_impact : option string;
  proj_teamSize : option nat;
  proj_challenges : option (list string);
  proj_solutions : option (list string)
}.

Record Achievement := {
  ach_description : string;
  ach_impact : option string;
  ach_metrics : option string;
  ach_category : option string;
  ach_quantifiable : option bool
}.

Record Keywords := {
  kw_jobTitles : option (list string);
  kw_domains : option (list string);
  kw_buzzwords : option (list string);
  kw_certifications : option (list string)
}.

Record RelevanceWeights := {
  rw_mobile : option Q;
  rw_web : option Q;
  rw_backend : option Q;
  rw_frontend : option Q;
  rw_fullstack : option Q;
  rw_leadership : option Q;
  rw_startup : option Q;
  rw_enterprise : option Q
}.

(** [NormalizedJob]. The level is kept as the string found in the record:
    the type [RoleLevel] is not checked at run time. [durationMonths], which
    no scorer or selector reads, is not carried. *)
Record NormalizedJob := {
  job_companyName : string;
  job_companyDescription : option string;
  job_companyInfo : option Company;
  job_title : string;
  job_level : option string;
  job_location : string;
  job_startDate : string;
  job_endDate : option string;
  job_technologies : list string;
  job_projects : list Project;
  job_achievements : list Achievement;
  job_responsibilities : list string;
  job_relevanceWeights : option RelevanceWeights;
  job_keywords : option Keywords;
  job_workStyle : option string
}.

Record JobRequirements := {
  req_title : string;
  req_seniority : string;
  req_department : option string;
  req_companyName : option string;
  req_companyType : option string;
  req_domain : option string;
  req_location : option string;
  req_workArrangement : option string;
  req_requiredTechnologies : list string;
  req_preferredTechnologies : list string;
  req_yearsExperience : option Q;
  req_keyResponsibilities : list string;
  req_leadershipRequired : bool;
  req_teamSize : option string;
  req_mentorshipExpected : bool;
  req_keywords : list string;
  req_buzzwords : list string
}.

Record Weights := {
  w_technology : Q;
  w_domain : Q;
  w_seniority : Q;
  w_recency : Q;
  w_relevance : Q
}.

Record MatchConfig := {
  weights : Weights;
  recencyDecay : Q;
  minProjectsToShow : nat;
  maxProjectsToShow : nat;
  minAchievementsToShow : nat;
  maxAchievementsToShow : nat;
  minSkillsToShow : nat;
  maxSkillsToShow : nat
}.

Definition DEFAULT_MATCH_CONFIG : MatchConfig :=
  {| weights :=
       {| w_technology := 0.35; w_domain := 0.20; w_seniority := 0.15;
          w_recency := 0.15; w_relevance := 0.15 |};
     recencyDecay := 0.1;
     minProjectsToShow := 2;
     maxProjectsToShow := 5;
     minAchievementsToShow := 3;
     maxAchievementsToShow := 8;
     minSkillsToShow := 8;
     maxSkillsToShow := 15 |}.

Record Scores := {
  technologyMatch : Q;
  domainMatch : Q;
  seniorityMatch : Q;
  recency : option Q;
  relevanceWeight : Q
}.

(** [recency] and [totalScore] are [None] when they are [NaN]. *)
Record JobScore := {
  jobId : string;
  js_companyName : string;
  js_title : string;
  scores : Scores;
  totalScore : option Q;
  matchedTechnologies : list string;
  missingTechnologies : list string;
  matchedKeywords : list string
}.

Record ScoredProject := {
  sp_project : Project;
  sp_score : Q;
  sp_matchedTechnologies : list string;
  sp_relevanceReason : string
}.

Record ScoredAchievement := {
  sa_achievement : Achievement;
  sa_score : Q;
  sa_relevanceReason : string
}.

Record ScoredSkill := {
  ss_skill : Skill;
  ss_score : Q;
  isRequired : bool;
  isPreferred : bool
}.

(* ================================================================= *)
(** ** Regular expressions used by the scorers and the normalizer *)

Module Re.

(** [/\d+%?/.test(s)]: some digit occurs. *)
Fixpoint hasNumber (s : string) : bool :=
  match s with
  | EmptyString => false
  | String c r => Js.isDigit c || hasNumber r
  end.

(** [/\d+%/.test(s)]: some digit is directly followed by a percent sign. *)
Fixpoint hasPercentage (s : string) : bool :=
  match s with
  | String c ((String d _) as r) =>
      (Js.isDigit c && Ascii.eqb d "%") || hasPercentage r
  | _ => false
  end.

(** A word boundary after the first [n] characters of [s]. *)
Definition boundaryAfter (n : nat) (s : string) : bool :=
  match String.get n s with
  | None => true
  | Some c => negb (Js.isWordChar c)
  end.

(** [/\b(w1|w2|...)\b/.test(s)] for alternatives that begin and end with a
    word character; [prevIsWord] tells whether the character before [s] is
    a word character. *)
Fixpoint hasWord (alternatives : list string) (prevIsWord : bool) (s : string) : bool :=
  (negb prevIsWord &&
   existsb (fun w => Js.startsWith w s && boundaryAfter (String.length w) s) alternatives)
  ||
  match s with
  | EmptyString => false
  | String c r => hasWord alternatives (Js.isWordChar c) r
  end.

(** [/\b(led|managed|mentored|coached|hired|built team)\b/i.test(s)] *)
Definition hasLeadershipVerb (s : string) : bool :=
  hasWord ["led"; "managed"; "mentored"; "coached"; "hired"; "built team"]
          false (Js.toLowerCase s).

(** [/^\d{4}-\d{2}/.test(s)] *)
Definition startsYearMonth (s : string) : bool :=
  match s with
  | String a (String b (String c (String d (String e (String f (String g _)))))) =>
      Js.isDigit a && Js.isDigit b && Js.isDigit c && Js.isDigit d &&
      Ascii.eqb e "-" && Js.isDigit f && Js.isDigit g
  | _ => false
  end.

(** [/^\d{4}$/.test(s)] *)
Definition isYear (s : string) : bool :=
  match s with
  | String a (String b (String c (String d EmptyString))) =>
      Js.isDigit a && Js.isDigit b && Js.isDigit c && Js.isDigit d
  | _ => false
  end.

(** [s.match(/\d{4}/)]: the first run of four digits. *)
Fixpoint firstYear (s : string) : option string :=
  match s with
  | EmptyString => None
  | String _ r =>
      if isYear (String.substring 0 4 s) then Some (String.substring 0 4 s)
      else firstYear r
  end.

(** [s.split(/\s+/)]: [cur] is the part being read, [inSpace] tells whether
    the previous character was white space. *)
Fixpoint splitSpacesFrom (s cur : string) (inSpace : bool) : list string :=
  match s with
  | EmptyString => [cur]
  | String c r =>
      if Js.isSpace c
      then if inSpace then splitSpacesFrom r cur true
           else cur :: splitSpacesFrom r EmptyString true
      else splitSpacesFrom r (cur ++ String c EmptyString)%string false
  end.

Definition splitSpaces (s : string) : list string := splitSpacesFrom s EmptyString false.

End Re.

(* ================================================================= *)
(** ** types/job.ts: the raw job records *)

(** A truthy optional string: present and not empty. *)
Definition truthy (o : option string) : option string :=
  match o with
  | Some s => if String.eqb s "" then None else Some s
  | None => None
  end.

(** [table[key]] for an object literal used as a table (own keys only). *)
Fixpoint lookup {V} (table : list (string * V)) (key : string) : option V :=
  match table with
  | [] => None
  | (k, v) :: rest => if String.eqb k key then Some v else lookup rest key
  end.


Record Role := {
  role_title : string;
  role_level : option string;
  role_type : option string;
  role_department : option string;
  role_reportingTo : option string;
  role_teamSize : option nat;
  role_directReports : option nat
}.

Record Duration := {
  dur_start : string;
  dur_end : option string;
  dur_totalMonths : option Q
}.

Record Responsibilities := {
  resp_primary : option (list string);
  resp_secondary : option (list string);
  resp_leadership : option (list string);
  resp_technical : option (list string);
  resp_business : option (list string)
}.

Record Technologies := {
  tech_languages : option (list string);
  tech_frameworks : option (list string);
  tech_databases : option (list string);
  tech_cloud : option (list string);
  tech_devops : option (list string);
  tech_tools : option (list string);
  tech_mobile : option (list string);
  tech_testing : option (list string)
}.

Record JobContext := {
  ctx_businessContext : option string;
  ctx_challenges : option (list string);
  ctx_constraints : option (list string);
  ctx_stakeholders : option (list string);
  ctx_methodology : option string;
  ctx_workStyle : option string
}.

(** What [typeof] can answer. *)
Inductive JsType :=
| TUndefined | TObject | TBoolean | TNumber | TBigint | TString | TSymbol | TFunction.

Definition JsType_eqb (a b : JsType) : bool :=
  match a, b with
  | TUndefined, TUndefined | TObject, TObject | TBoolean, TBoolean
  | TNumber, TNumber | TBigint, TBigint | TString, TString
  | TSymbol, TSymbol | TFunction, TFunction => true
  | _, _ => false
  end.

(** The [company] property of a record read from a job file: the two
    documented shapes, and what else JSON can put there. *)
Inductive CompanyField :=
| CompanyString (name : string)
| CompanyObject (company : Company)
| CompanyNull
| CompanyUndefined
| CompanyBoolean (b : bool)
| CompanyNumber (n : Q).

Definition typeofCompany (c : CompanyField) : JsType :=
  match c with
  | CompanyString _ => TString
  | CompanyObject _ => TObject
  | CompanyNull => TObject
  | CompanyUndefined => TUndefined
  | CompanyBoolean _ => TBoolean
  | CompanyNumber _ => TNumber
  end.

(** A job record as the normalizer reads it. [EnhancedJob] and [BasicJob]
    give different types to [technologies] and [achievements]; each path of
    the normalizer reads them at its own type, so the record carries one
    field per reading. [role] and [duration] are optional here because a
    record of unknown shape may lack them. [skills] and [clients] are never
    read by the matcher. *)
Record Job := {
  company : CompanyField;
  (* read by normalizeEnhancedJob *)
  role : option Role;
  duration : option Duration;
  responsibilities : option Responsibilities;
  projects : option (list Project);
  technologies : option Technologies;
  achievements : option (list Achievement);
  context : option JobContext;
  keywords : option Keywords;
  relevanceWeights : option RelevanceWeights;
  (* read by normalizeBasicJob *)
  companyDescription : option string;
  position : string;
  location : option string;
  startDate : option string;
  endDate : option string;
  basicTechnologies : option (list string);
  basicAchievements : option (list string);
  description : option (list string)
}.

Definition isEnhancedJob (job : Job) : bool :=
  JsType_eqb (typeofCompany (company job)) TObject.

Definition isBasicJob (job : Job) : bool :=
  JsType_eqb (typeofCompany (company job)) TString.

(* ================================================================= *)
(** ** normalizer.ts *)

(** What a call can throw: the normalizer's own error, or the [TypeError]
    of reading a property of [null] or [undefined]. *)
Inductive JsError :=
| UnknownJobFormat
| TypeError.

Inductive Result (A : Type) :=
| Ok (value : A)
| Throw (error : JsError).
Arguments Ok {A} value.
Arguments Throw {A} error.

Definition bind {A B} (r : Result A) (k : A -> Result B) : Result B :=
  match r with
  | Ok a => k a
  | Throw e => Throw e
  end.

Notation "x <- r ;; k" := (bind r (fun x => k))
  (at level 61, r at next level, right associativity).

(** Reading a property of a value that may be [undefined]. *)
Definition deref {A} (o : option A) : Result A :=
  match o with
  | Some a => Ok a
  | None => Throw TypeError
  end.

(** [jobs.map(f)] where [f] may throw. *)
Fixpoint mapM {A B} (f : A -> Result B) (l : list A) : Result (list B) :=
  match l with
  | [] => Ok []
  | a :: rest => b <- f a ;; bs <- mapM f rest ;; Ok (b :: bs)
  end.

(** [new Set()], [add] in order, [Array.from]: first occurrences, in order. *)
Definition setAdd (seen : list string) (x : string) : list string :=
  if Js.arrIncludes seen x then seen else (seen ++ [x])%list.

Definition orEmpty {A} (o : option (list A)) : list A :=
  match o with Some l => l | None => [] end.

Definition collectTechnologies (job : Job) : list string :=
  let techs := @nil string in
  let techs :=
    match technologies job with
    | Some t =>
        fold_left setAdd
          (List.concat
             (flat_map (fun arr : option (list string) =>
                          match arr with Some a => [a] | None => [] end)
                [ tech_languages t; tech_frameworks t; tech_databases t; tech_cloud t;
                  tech_devops t; tech_tools t; tech_mobile t; tech_testing t ]))
          techs
    | None => techs
    end in
  fold_left
    (fun techs p => fold_left setAdd (orEmpty (proj_technologies p)) techs)
    (orEmpty (projects job))
    techs.

Definition normalizeAchievements (achievements : option (list Achievement)) : list Achievement :=
  match achievements with
  | None => []
  | Some l =>
      map (fun a =>
             {| ach_description := ach_description a;
                ach_impact := ach_impact a;
                ach_metrics := ach_metrics a;
                ach_category := ach_category a;
                ach_quantifiable :=
                  Some (match ach_quantifiable a with
                        | Some q => q
                        | None => Re.hasNumber (ach_description a)
                        end) |})
          l
  end.

Definition collectResponsibilities (resp : option Responsibilities) : list string :=
  match resp with
  | None => []
  | Some r =>
      (orEmpty (resp_primary r) ++ orEmpty (resp_secondary r) ++ orEmpty (resp_leadership r) ++
       orEmpty (resp_technical r) ++ orEmpty (resp_business r))%list
  end.

Definition months : list (string * string) :=
  [ ("january", "01"); ("february", "02"); ("march", "03"); ("april", "04");
    ("may", "05"); ("june", "06"); ("july", "07"); ("august", "08");
    ("september", "09"); ("october", "10"); ("november", "11"); ("december", "12");
    ("jan", "01"); ("feb", "02"); ("mar", "03"); ("apr", "04");
    ("jun", "06"); ("jul", "07"); ("aug", "08"); ("sep", "09"); ("oct", "10");
    ("nov", "11"); ("dec", "12") ].

Definition normalizeDate (dateStr : string) : string :=
  if String.eqb dateStr "" then ""
  else if Re.startsYearMonth dateStr then String.substring 0 7 dateStr
  else
    let parts := Re.splitSpaces (Js.toLowerCase dateStr) in
    match
      match parts with
      | [month; year] =>
          match lookup months month with
          | Some monthNum =>
              if negb (String.eqb year "") && Re.isYear year
              then Some (year ++ "-" ++ monthNum)%string
              else None
          | None => None
          end
      | _ => None
      end
    with
    | Some normalized => normalized
    | None =>
        match Re.firstYear dateStr with
        | Some yearMatch => (yearMatch ++ "-01")%string
        | None => dateStr
        end
    end.

(** [normalizeEnhancedJob], called behind [isEnhancedJob]: the company is
    an object or [null]. [job.company.name], [job.role.title] and
    [job.duration.start] read a property of a value that may be missing. *)
Definition normalizeEnhancedJob (job : Job) : Result NormalizedJob :=
  let technologies := collectTechnologies job in
  let achievements := normalizeAchievements (achievements job) in
  let responsibilities := collectResponsibilities (responsibilities job) in
  company <- deref (match company job with CompanyObject c => Some c | _ => None end) ;;
  role <- deref (role job) ;;
  duration <- deref (duration job) ;;
  Ok {| job_companyName := co_name company;
        job_companyDescription := co_description company;
        job_companyInfo := Some company;
        job_title := role_title role;
        job_level := role_level role;
        job_location := match co_location company with Some l => l | None => "Remote" end;
        job_startDate := dur_start duration;
        job_endDate := dur_end duration;
        job_technologies := technologies;
        job_projects := orEmpty (projects job);
        job_achievements := achievements;
        job_responsibilities := responsibilities;
        job_relevanceWeights := relevanceWeights job;
        job_keywords := keywords job;
        job_workStyle := match context job with Some c => ctx_workStyle c | None => None end |}.

(** [job.company] read as the string it is behind [isBasicJob]. *)
Definition companyAsString (c : CompanyField) : string :=
  match c with
  | CompanyString name => name
  | _ => ""
  end.

Definition normalizeBasicJob (job : Job) : NormalizedJob :=
  let achievements :=
    map (fun desc =>
           {| ach_description := desc;
              ach_impact := None;
              ach_metrics := None;
              ach_category := None;
              ach_quantifiable := Some (Re.hasNumber desc) |})
        (orEmpty (basicAchievements job)) in
  let startDate :=
    match startDate job with
    | Some s => s
    | None => match duration job with Some d => dur_start d | None => "" end
    end in
  let endDate :=
    match endDate job with
    | Some e => Some e
    | None => match duration job with Some d => dur_end d | None => None end
    end in
  {| job_companyName := companyAsString (company job);
     job_companyDescription := companyDescription job;
     job_companyInfo := None;
     job_title := position job;
     job_level := None;
     job_location := match location job with Some l => l | None => "" end;
     job_startDate := normalizeDate startDate;
     job_endDate := option_map normalizeDate (truthy endDate);
     job_technologies := orEmpty (basicTechnologies job);
     job_projects := [];
     job_achievements := achievements;
     job_responsibilities := orEmpty (description job);
     job_relevanceWeights := None;
     job_keywords := None;
     job_workStyle := None |}.

Definition normalizeJob (job : Job) : Result NormalizedJob :=
  if isEnhancedJob job then normalizeEnhancedJob job
  else if isBasicJob job then Ok (normalizeBasicJob job)
  else Throw UnknownJobFormat.

(** [getAllTechnologies] *)
Definition getAllTechnologies (jobs : list NormalizedJob) : list string :=
  fold_left (fun techs job => fold_left setAdd (job_technologies job) techs) jobs [].


(** [getJobEndYear]: the current year if the job is ongoing, otherwise
    [parseInt] of the text before the first dash ([None] is [NaN]). The
    fallback after [??] is never taken: [split] returns at least one part. *)
Definition getJobEndYear (now : Z) (job : NormalizedJob) : option Z :=
  match truthy (job_endDate job) with
  | None => Some now
  | Some endDate => Js.parseInt (Js.beforeFirst "-" endDate)
  end.

(* ================================================================= *)
(** ** scorers.ts *)

Local Open Scope Q_scope.

Definition scoreTechnologyMatch (job : NormalizedJob) (requirements : JobRequirements) : Q :=
  let allRequired :=
    (req_requiredTechnologies requirements ++
     filter (fun k => negb (Js.arrIncludes (req_buzzwords requirements) k))
            (req_keywords requirements))%list in
  let reqMatched := matched (findMatchingTechs (job_technologies job) allRequired) in
  if (List.length allRequired =? 0)%nat then 0.5
  else
    let score := Qlen reqMatched / Qlen allRequired in
    let prefMatched :=
      matched (findMatchingTechs (job_technologies job) (req_preferredTechnologies requirements)) in
    let score :=
      if (0 <? List.length (req_preferredTechnologies requirements))%nat
      then score + (Qlen prefMatched / Qlen (req_preferredTechnologies requirements)) * 0.2
      else score in
    mathMin 1 score.

(** [w ?? 0] *)
Definition orZero (w : option Q) : Q :=
  match w with Some q => q | None => 0 end.

Definition optEq (o : option string) (s : string) : bool :=
  match o with Some x => String.eqb x s | None => false end.

Definition scoreDomainMatch (job : NormalizedJob) (requirements : JobRequirements) : Q :=
  let score := 0.5 in
  let score :=
    match truthy (match job_companyInfo job with Some c => co_industry c | None => None end),
          truthy (req_domain requirements) with
    | Some industry, Some domain =>
        let jobIndustry := Js.toLowerCase industry in
        let reqDomain := Js.toLowerCase domain in
        if Js.includes jobIndustry reqDomain || Js.includes reqDomain jobIndustry
        then score + 0.3 else score
    | _, _ => score
    end in
  let score :=
    match job_relevanceWeights job with
    | Some weights =>
        let domain := req_domain requirements in
        let companyType := req_companyType requirements in
        let score :=
          if optEq domain "fintech" || optEq domain "crypto"
          then score + orZero (rw_mobile weights) * 0.1 else score in
        let score :=
          if optEq companyType "startup" || optEq companyType "scaleup"
          then score + orZero (rw_startup weights) * 0.15 else score in
        let score :=
          if optEq companyType "enterprise" || optEq companyType "faang"
          then score + orZero (rw_enterprise weights) * 0.15 else score in
        if req_leadershipRequired requirements
        then score + orZero (rw_leadership weights) * 0.1 else score
    | None => score
    end in
  let score :=
    match (match job_keywords job with Some k => kw_domains k | None => None end),
          truthy (req_domain requirements) with
    | Some domains, Some domain =>
        if existsb (fun d => Js.includes (Js.toLowerCase d) (Js.toLowerCase domain)) domains
        then score + 0.2 else score
    | _, _ => score
    end in
  mathMin 1 score.

Definition levelOrder : list string :=
  ["junior"; "mid"; "senior"; "staff"; "lead"; "principal"; "manager"; "director"].

(** [arr.indexOf(x)]: the first index of [x], or [-1]. *)
Fixpoint indexOf (arr : list string) (x : string) : Z :=
  match arr with
  | [] => -1
  | y :: rest =>
      if String.eqb y x then 0%Z
      else let i := indexOf rest x in
           if (i =? -1)%Z then (-1)%Z else (i + 1)%Z
  end.

Definition scoreSeniorityMatch (job : NormalizedJob) (requirements : JobRequirements) : Q :=
  let jobLevel := match job_level job with Some l => l | None => "mid"%string end in
  let reqLevel := req_seniority requirements in
  let jobIndex := indexOf levelOrder jobLevel in
  let reqIndex := indexOf levelOrder reqLevel in
  if (jobIndex =? -1)%Z || (reqIndex =? -1)%Z then 0.5
  else if (jobIndex =? reqIndex)%Z then 1.0
  else if (jobIndex =? reqIndex + 1)%Z then 0.9
  else if (jobIndex =? reqIndex - 1)%Z then 0.7
  else if (jobIndex <? reqIndex - 1)%Z
       then mathMax 0.3 (0.7 - inject_Z (reqIndex - jobIndex - 1) * 0.15)
  else 0.8.

(** [Math.max] on doubles: [NaN] if an argument is, and [+0] above [-0]. *)
Definition mathMaxDouble (a b : float) : float :=
  if PrimFloat.is_nan a || PrimFloat.is_nan b then PrimFloat.nan
  else if PrimFloat.ltb a b then b
  else if PrimFloat.ltb b a then a
  else if PrimFloat.is_zero a then PrimFloat.add a b
  else a.

(** An integer as a double (the indices are small). *)
Definition doubleOfZ (z : Z) : float :=
  if (z <? 0)%Z then PrimFloat.opp (PrimFloat.of_uint63 (Uint63.of_Z (- z)))
  else PrimFloat.of_uint63 (Uint63.of_Z z).

(** [scoreSeniorityMatch] with the arithmetic of the code: the indices are
    integers, the score is a double. *)
Definition scoreSeniorityMatchDouble (job : NormalizedJob) (requirements : JobRequirements)
  : float :=
  let jobLevel := match job_level job with Some l => l | None => "mid"%string end in
  let reqLevel := req_seniority requirements in
  let jobIndex := indexOf levelOrder jobLevel in
  let reqIndex := indexOf levelOrder reqLevel in
  if (jobIndex =? -1)%Z || (reqIndex =? -1)%Z then 0.5%float
  else if (jobIndex =? reqIndex)%Z then 1.0%float
  else if (jobIndex =? reqIndex + 1)%Z then 0.9%float
  else if (jobIndex =? reqIndex - 1)%Z then 0.7%float
  else if (jobIndex <? reqIndex - 1)%Z
       then mathMaxDouble 0.3%float
              (PrimFloat.sub 0.7%float
                 (PrimFloat.mul (doubleOfZ (reqIndex - jobIndex - 1)) 0.15%float))
  else 0.8%float.

Definition scoreRecency (now : Z) (job : NormalizedJob) (config : MatchConfig) : option Q :=
  let currentYear := now in
  match getJobEndYear now job with
  | None => None
  | Some jobEndYear =>
      let yearsAgo := (currentYear - jobEndYear)%Z in
      if (yearsAgo <=? 2)%Z then Some 1.0
      else
        let decay := recencyDecay config * inject_Z (yearsAgo - 2) in
        Some (mathMax 0.2 (1 - decay))
  end.

(** [if (w) { score += w; factors++; }]: a weight counts when it is present
    and not zero. *)
Definition addWeight (w : option Q) (acc : Q * nat) : Q * nat :=
  match w with
  | Some q => if Qeq_bool q 0 then acc else (fst acc + q, S (snd acc))
  | None => acc
  end.

Definition mobileTechnologies : list string :=
  ["Swift"; "Kotlin"; "iOS"; "Android"; "React Native"].

Definition scoreRelevanceWeights (job : NormalizedJob) (requirements : JobRequirements) : Q :=
  match job_relevanceWeights job with
  | None => 0.5
  | Some weights =>
      let acc := (0, 0%nat) in
      let acc :=
        if existsb (fun t => Js.arrIncludes mobileTechnologies t)
                   (req_requiredTechnologies requirements)
        then addWeight (rw_mobile weights) acc else acc in
      let acc :=
        if req_leadershipRequired requirements
           || String.eqb (req_seniority requirements) "lead"
           || String.eqb (req_seniority requirements) "manager"
        then addWeight (rw_leadership weights) acc else acc in
      let acc :=
        if optEq (req_companyType requirements) "startup"
           || optEq (req_companyType requirements) "scaleup"
        then addWeight (rw_startup weights) acc
        else if optEq (req_companyType requirements) "enterprise"
                || optEq (req_companyType requirements) "faang"
        then addWeight (rw_enterprise weights) acc
        else acc in
      let (score, factors) := acc in
      if (factors =? 0)%nat then 0.5
      else score / inject_Z (Z.of_nat factors)
  end.

Definition scoreJob (now : Z) (job : NormalizedJob) (requirements : JobRequirements)
    (config : MatchConfig) : JobScore :=
  let techScore := scoreTechnologyMatch job requirements in
  let domainScore := scoreDomainMatch job requirements in
  let seniorityScore := scoreSeniorityMatch job requirements in
  let recencyScore := scoreRecency now job config in
  let relevanceScore := scoreRelevanceWeights job requirements in
  let totalScore :=
    option_map
      (fun recencyScore =>
         techScore * w_technology (weights config) +
         domainScore * w_domain (weights config) +
         seniorityScore * w_seniority (weights config) +
         recencyScore * w_recency (weights config) +
         relevanceScore * w_relevance (weights config))
      recencyScore in
  let allRequired :=
    (req_requiredTechnologies requirements ++ req_preferredTechnologies requirements)%list in
  let found := findMatchingTechs (job_technologies job) allRequired in
  let matchedKeywords :=
    filter
      (fun k =>
         existsb (fun t => techMatches t k) (job_technologies job) ||
         existsb (fun r => Js.includes (Js.toLowerCase r) (Js.toLowerCase k))
                 (job_responsibilities job))
      (req_keywords requirements) in
  {| jobId := job_companyName job ++ "-" ++ job_startDate job;
     js_companyName := job_companyName job;
     js_title := job_title job;
     scores :=
       {| technologyMatch := techScore;
          domainMatch := domainScore;
          seniorityMatch := seniorityScore;
          recency := recencyScore;
          relevanceWeight := relevanceScore |};
     totalScore := totalScore;
     matchedTechnologies := matched found;
     missingTechnologies := missing found;
     matchedKeywords := matchedKeywords |}.

(** The weighted total of [scoreJob] with the arithmetic of the code: five
    products of doubles, added from left to right. *)
Definition weightedTotalDouble
    (techScore domainScore seniorityScore recencyScore relevanceScore : float)
    (technology domain seniority recency relevance : float) : float :=
  PrimFloat.add
    (PrimFloat.add
       (PrimFloat.add
          (PrimFloat.add (PrimFloat.mul techScore technology)
                         (PrimFloat.mul domainScore domain))
          (PrimFloat.mul seniorityScore seniority))
       (PrimFloat.mul recencyScore recency))
    (PrimFloat.mul relevanceScore relevance).

(** [`${n}`] for a count. *)
Definition showNat (n : nat) : string := NilZero.string_of_uint (Nat.to_uint n).

(** [reasons.join('; ') || fallback] *)
Definition joinReasons (reasons : list string) (fallback : string) : string :=
  let joined := Js.join "; " reasons in
  if String.eqb joined "" then fallback else joined.

Definition scoreProject (project : Project) (requirements : JobRequirements) : ScoredProject :=
  let score := 0.5 in
  let matchedTechnologies := @nil string in
  let reasons := @nil string in
  (* Technology match *)
  let '(score, matchedTechnologies, reasons) :=
    match proj_technologies project with
    | Some technologies =>
        let found :=
          matched (findMatchingTechs technologies
                     (req_requiredTechnologies requirements ++
                      req_preferredTechnologies requirements)%list) in
        let matchedTechnologies := (matchedTechnologies ++ found)%list in
        if (0 <? List.length found)%nat
        then (score + Qlen found * 0.1, matchedTechnologies,
              (reasons ++ [("Uses " ++ Js.join ", " found)%string])%list)
        else (score, matchedTechnologies, reasons)
    | None => (score, matchedTechnologies, reasons)
    end in
  (* Impact keywords *)
  let '(score, reasons) :=
    match truthy (proj_impact project) with
    | Some impact =>
        let impactLower := Js.toLowerCase impact in
        let '(score, reasons) :=
          if existsb (fun k => Js.includes impactLower (Js.toLowerCase k))
                     (req_keywords requirements)
          then (score + 0.15, (reasons ++ ["Relevant impact"%string])%list)
          else (score, reasons) in
        if Re.hasPercentage impact
        then (score + 0.1, (reasons ++ ["Quantified impact"%string])%list)
        else (score, reasons)
    | None => (score, reasons)
    end in
  (* Leadership match *)
  let '(score, reasons) :=
    match proj_teamSize project with
    | Some teamSize =>
        if req_leadershipRequired requirements && (0 <? teamSize)%nat && (1 <? teamSize)%nat
        then (score + 0.1, (reasons ++ [("Led team of " ++ showNat teamSize)%string])%list)
        else (score, reasons)
    | None => (score, reasons)
    end in
  {| sp_project := project;
     sp_score := mathMin 1 score;
     sp_matchedTechnologies := matchedTechnologies;
     sp_relevanceReason := joinReasons reasons "General relevance" |}.

Definition achievementCategories : list string := ["performance"; "quality"; "business"].

Definition scoreAchievement (achievement : Achievement) (requirements : JobRequirements)
  : ScoredAchievement :=
  let score := 0.5 in
  let reasons := @nil string in
  let descLower := Js.toLowerCase (ach_description achievement) in
  (* Keyword match *)
  let matchedKeywords :=
    filter (fun k => Js.includes descLower (Js.toLowerCase k)) (req_keywords requirements) in
  let '(score, reasons) :=
    if (0 <? List.length matchedKeywords)%nat
    then (score + Qlen matchedKeywords * 0.1,
          (reasons ++ [("Mentions " ++ Js.join ", " matchedKeywords)%string])%list)
    else (score, reasons) in
  (* Quantifiable achievements *)
  let '(score, reasons) :=
    if match ach_quantifiable achievement with Some b => b | None => false end
       || Re.hasNumber (ach_description achievement)
    then (score + 0.2, (reasons ++ ["Quantified result"%string])%list)
    else (score, reasons) in
  (* Category alignment *)
  let '(score, reasons) :=
    match truthy (ach_category achievement) with
    | Some category =>
        let '(score, reasons) :=
          if req_leadershipRequired requirements && String.eqb category "team"
          then (score + 0.15, (reasons ++ ["Team achievement"%string])%list)
          else (score, reasons) in
        if Js.arrIncludes achievementCategories category
        then (score + 0.1, (reasons ++ [(category ++ " achievement")%string])%list)
        else (score, reasons)
    | None => (score, reasons)
    end in
  (* Leadership keywords *)
  let '(score, reasons) :=
    if req_leadershipRequired requirements
       && Re.hasLeadershipVerb (ach_description achievement)
    then (score + 0.15, (reasons ++ ["Leadership demonstrated"%string])%list)
    else (score, reasons) in
  (* Impact mention *)
  let '(score, reasons) :=
    match truthy (ach_impact achievement) with
    | Some _ => (score + 0.1, (reasons ++ ["Has impact statement"%string])%list)
    | None => (score, reasons)
    end in
  {| sa_achievement := achievement;
     sa_score := mathMin 1 score;
     sa_relevanceReason := joinReasons reasons "General achievement" |}.

(* ================================================================= *)
(** ** selector.ts *)

(** [Array.prototype.sort(compare)]: a stable sort; [compare a b > 0] puts
    [a] after [b]. *)
Section Sort.
Context {A : Type} (compare : A -> A -> Q).

Definition after (a b : A) : bool := negb (Qle_bool (compare a b) 0).

Fixpoint insertSorted (x : A) (l : list A) : list A :=
  match l with
  | [] => [x]
  | y :: rest => if after x y then y :: insertSorted x rest else x :: l
  end.

Definition jsSort (l : list A) : list A := fold_right insertSorted [] l.
End Sort.

(** [arr.slice(0, count)] for a count. *)
Definition slice0 {A} (count : nat) (arr : list A) : list A := firstn count arr.

Definition Qgt_bool (a b : Q) : bool := negb (Qle_bool a b).

Definition allScoredProjects (jobs : list NormalizedJob) (requirements : JobRequirements)
  : list ScoredProject :=
  flat_map (fun job => map (fun project => scoreProject project requirements) (job_projects job))
           jobs.

Definition selectProjects (jobs : list NormalizedJob) (requirements : JobRequirements)
    (config : MatchConfig) : list ScoredProject :=
  let allProjects := allScoredProjects jobs requirements in
  let sorted := jsSort (fun a b => sp_score b - sp_score a) allProjects in
  let count :=
    Nat.min
      (Nat.max (minProjectsToShow config)
               (List.length (filter (fun p => Qgt_bool (sp_score p) 0.5) sorted)))
      (maxProjectsToShow config) in
  slice0 count sorted.

Definition allScoredAchievements (jobs : list NormalizedJob) (requirements : JobRequirements)
  : list ScoredAchievement :=
  flat_map (fun job =>
              map (fun achievement => scoreAchievement achievement requirements)
                  (job_achievements job))
           jobs.

Definition selectAchievements (jobs : list NormalizedJob) (requirements : JobRequirements)
    (config : MatchConfig) : list ScoredAchievement :=
  let allAchievements := allScoredAchievements jobs requirements in
  let sorted := jsSort (fun a b => sa_score b - sa_score a) allAchievements in
  let count :=
    Nat.min
      (Nat.max (minAchievementsToShow config)
               (List.length (filter (fun a => Qgt_bool (sa_score a) 0.5) sorted)))
      (maxAchievementsToShow config) in
  slice0 count sorted.

(** [levelScores[skill.level] ?? 0] *)
Definition levelScores : list (string * Q) :=
  [ ("expert"%string, 0.25); ("advanced"%string, 0.15);
    ("intermediate"%string, 0.1); ("beginner"%string, 0.05) ].


Definition calculateSkillScore (now : Z) (skill : Skill) (skills : SkillsData)
    (isRequired isPreferred : bool) : Q :=
  let score := 0 in
  (* Base score from requirement match *)
  let score :=
    if isRequired then score + 0.4
    else if isPreferred then score + 0.25
    else score in
  (* Level bonus *)
  let score := score + orZero (lookup levelScores (skill_level skill)) in
  (* Recency bonus *)
  let currentYear := now in
  let yearsAgo := (currentYear - skill_lastUsed skill)%Z in
  let score :=
    if (yearsAgo =? 0)%Z then score + 0.15
    else if (yearsAgo <=? 2)%Z then score + 0.1
    else if (yearsAgo <=? 5)%Z then score + 0.05
    else score in
  (* Featured bonus *)
  let score := if isFeatured (skill_name skill) skills then score + 0.1 else score in
  (* Want to use bonus *)
  let score := if skill_wantToUse skill then score + 0.05 else score in
  (* Experience bonus *)
  let score :=
    if Qle_bool 5 (skill_yearsUsed skill) then score + 0.1
    else if Qle_bool 3 (skill_yearsUsed skill) then score + 0.05
    else score in
  mathMin 1 score.

(** The comparator of [selectSkills]. *)
Definition compareSkills (a b : ScoredSkill) : Q :=
  if isRequired a && negb (isRequired b) then -1
  else if negb (isRequired a) && isRequired b then 1
  else if isPreferred a && negb (isPreferred b) then -1
  else if negb (isPreferred a) && isPreferred b then 1
  else ss_score b - ss_score a.

(** The candidates of [selectSkills] before they are sorted: the required
    skills, the preferred ones, then the other skills that are not
    deprecated and are featured, expert or wanted. *)
Definition scoredSkillCandidates (now : Z) (skills : SkillsData) (requirements : JobRequirements)
  : list ScoredSkill :=
  let found :=
    findMatchingSkills skills (req_requiredTechnologies requirements)
                       (req_preferredTechnologies requirements) in
  let required :=
    map (fun skill =>
           {| ss_skill := skill;
              ss_score := calculateSkillScore now skill skills true false;
              isRequired := true; isPreferred := false |})
        (ms_required found) in
  let preferred :=
    map (fun skill =>
           {| ss_skill := skill;
              ss_score := calculateSkillScore now skill skills false true;
              isRequired := false; isPreferred := true |})
        (ms_preferred found) in
  let other :=
    flat_map
      (fun skill =>
         if isDeprecated (skill_name skill) skills then []
         else if isFeatured (skill_name skill) skills
                 || String.eqb (skill_level skill) "expert"
                 || skill_wantToUse skill
         then [ {| ss_skill := skill;
                   ss_score := calculateSkillScore now skill skills false false;
                   isRequired := false; isPreferred := false |} ]
         else [])
      (ms_other found) in
  (required ++ preferred ++ other)%list.

Definition selectSkills (now : Z) (skills : SkillsData) (requirements : JobRequirements)
    (config : MatchConfig) : list ScoredSkill :=
  let scoredSkills := jsSort compareSkills (scoredSkillCandidates now skills requirements) in
  let count :=
    Nat.min
      (Nat.max (minSkillsToShow config)
               (List.length (filter (fun s => isRequired s || isPreferred s) scoredSkills)))
      (maxSkillsToShow config) in
  slice0 count scoredSkills.

Record Coverage := {
  tech : string;
  covered : bool;
  source : option string
}.

(** The body of the two [map] calls of [analyzeTechnologyCoverage]. *)
Definition coverageOf (matchedSkills : list Skill) (jobs : list NormalizedJob) (t : string)
  : Coverage :=
  match find (fun s => techMatches (skill_name s) t) matchedSkills with
  | Some skillMatch =>
      {| tech := t; covered := true; source := Some ("skill: " ++ skill_name skillMatch)%string |}
  | None =>
      match find (fun job => existsb (fun jt => techMatches jt t) (job_technologies job)) jobs with
      | Some job =>
          {| tech := t; covered := true; source := Some ("job: " ++ job_companyName job)%string |}
      | None => {| tech := t; covered := false; source := None |}
      end
  end.

Record TechnologyCoverage := {
  tc_required : list Coverage;
  tc_preferred : list Coverage;
  coveragePercent : Z
}.

(** [n || 1] for a length. *)
Definition orOne (n : nat) : nat := if (n =? 0)%nat then 1%nat else n.

Definition analyzeTechnologyCoverage (skills : SkillsData) (jobs : list NormalizedJob)
    (requirements : JobRequirements) : TechnologyCoverage :=
  let found :=
    findMatchingSkills skills (req_requiredTechnologies requirements)
                       (req_preferredTechnologies requirements) in
  let reqSkills := ms_required found in
  let prefSkills := ms_preferred found in
  let requiredCoverage := map (coverageOf reqSkills jobs) (req_requiredTechnologies requirements) in
  let preferredCoverage := map (coverageOf prefSkills jobs) (req_preferredTechnologies requirements) in
  let reqCovered := List.length (filter covered requiredCoverage) in
  let prefCovered := List.length (filter covered preferredCoverage) in
  let reqTotal := orOne (List.length requiredCoverage) in
  let prefTotal := orOne (List.length preferredCoverage) in
  let coveragePercent :=
    mathRound (((Qnat reqCovered / Qnat reqTotal) * 0.7 +
                (Qnat prefCovered / Qnat prefTotal) * 0.3) * 100) in
  {| tc_required := requiredCoverage;
     tc_preferred := preferredCoverage;
     coveragePercent := coveragePercent |}.

Inductive Fit := excellent | good | moderate | weak.

Record Summary := {
  overallFit : Fit;
  strengths : list string;
  gaps : list string;
  recommendations : list string
}.

(** [a > b] where [a] may be [NaN]. *)
Definition optGt (a : option Q) (b : Q) : bool :=
  match a with Some x => Qgt_bool x b | None => false end.

Definition generateMatchSummary (coveragePercent : Z) (scoredJobs : list JobScore)
    (requirements : JobRequirements) : Summary :=
  let overallFit :=
    if (85 <=? coveragePercent)%Z then excellent
    else if (70 <=? coveragePercent)%Z then good
    else if (50 <=? coveragePercent)%Z then moderate
    else weak in
  (* strengths *)
  let strengths := @nil string in
  let allMatched :=
    fold_left (fun set j => fold_left setAdd (matchedTechnologies j) set) scoredJobs [] in
  let strengths :=
    if (5 <=? List.length allMatched)%nat
    then (strengths ++
          [("Strong technology match (" ++ showNat (List.length allMatched)
            ++ " skills aligned)")%string])%list
    else strengths in
  let strengths :=
    if existsb (fun j => optGt (totalScore j) 0.8) scoredJobs
    then (strengths ++ ["Highly relevant work experience"%string])%list
    else strengths in
  let strengths :=
    if req_leadershipRequired requirements
    then (strengths ++ ["Leadership experience available"%string])%list
    else strengths in
  (* gaps *)
  let gaps := @nil string in
  let allMissing :=
    fold_left (fun set j => fold_left setAdd (missingTechnologies j) set) scoredJobs [] in
  let gaps :=
    if (0 <? List.length allMissing)%nat
    then (gaps ++
          [("Missing technologies: " ++ Js.join ", " (slice0 3 allMissing))%string])%list
    else gaps in
  (* recommendations *)
  let recommendations := @nil string in
  let recommendations :=
    if (coveragePercent <? 70)%Z
    then (recommendations ++ ["Highlight transferable skills and learning agility"%string])%list
    else recommendations in
  let recommendations :=
    if (3 <? List.length allMissing)%nat
    then (recommendations ++ ["Consider addressing gaps in cover letter"%string])%list
    else recommendations in
  let recommendations :=
    match overallFit with
    | excellent =>
        (recommendations ++ ["Strong fit - emphasize achievements and impact"%string])%list
    | _ => recommendations
    end in
  {| overallFit := overallFit;
     strengths := strengths;
     gaps := gaps;
     recommendations := recommendations |}.

(* ================================================================= *)
(** ** index.ts: the orchestrator *)

Record MatchResult := {
  mr_requirements : JobRequirements;
  rankedJobs : list JobScore;
  selectedProjects : list ScoredProject;
  selectedAchievements : list ScoredAchievement;
  selectedSkills : list ScoredSkill;
  technologyCoverage : TechnologyCoverage;
  summary : Summary
}.

(** [Partial<MatchConfig>] *)
Record PartialConfig := {
  pc_weights : option Weights;
  pc_recencyDecay : option Q;
  pc_minProjectsToShow : option nat;
  pc_maxProjectsToShow : option nat;
  pc_minAchievementsToShow : option nat;
  pc_maxAchievementsToShow : option nat;
  pc_minSkillsToShow : option nat;
  pc_maxSkillsToShow : option nat
}.

Record MatchOptions := {
  opt_config : option PartialConfig;
  opt_minJobScore : option Q;
  opt_includeBreakdown : option bool
}.

Definition noOptions : MatchOptions :=
  {| opt_config := None; opt_minJobScore := None; opt_includeBreakdown := None |}.

Definition orElse {A} (o : option A) (d : A) : A :=
  match o with Some a => a | None => d end.

(** [{ ...DEFAULT_MATCH_CONFIG, ...options.config }]. A field of
    [PartialConfig] is [None] when the configuration leaves it out. A field
    that is present with the value [undefined] also overrides the default in
    the spread; this record cannot tell it from a field left out, so the
    embedding covers the options whose fields are left out or hold a
    value. *)
Definition mergeConfig (partial : option PartialConfig) : MatchConfig :=
  match partial with
  | None => DEFAULT_MATCH_CONFIG
  | Some c =>
      let d := DEFAULT_MATCH_CONFIG in
      {| weights := orElse (pc_weights c) (weights d);
         recencyDecay := orElse (pc_recencyDecay c) (recencyDecay d);
         minProjectsToShow := orElse (pc_minProjectsToShow c) (minProjectsToShow d);
         maxProjectsToShow := orElse (pc_maxProjectsToShow c) (maxProjectsToShow d);
         minAchievementsToShow := orElse (pc_minAchievementsToShow c) (minAchievementsToShow d);
         maxAchievementsToShow := orElse (pc_maxAchievementsToShow c) (maxAchievementsToShow d);
         minSkillsToShow := orElse (pc_minSkillsToShow c) (minSkillsToShow d);
         maxSkillsToShow := orElse (pc_maxSkillsToShow c) (maxSkillsToShow d) |}
  end.

(** The comparator [b.totalScore - a.totalScore]; a [NaN] result counts as
    [0] in [sort]. *)
Definition compareTotals (a b : option Q) : Q :=
  match b, a with
  | Some y, Some x => y - x
  | _, _ => 0
  end.

(** [a >= b] where [a] may be [NaN]. *)
Definition optGe (a : option Q) (b : Q) : bool :=
  match a with Some x => Qle_bool b x | None => false end.

Definition matchAgainstRequirements (now : Z) (jobs : list Job) (skills : SkillsData)
    (requirements : JobRequirements) (options : MatchOptions) : Result MatchResult :=
  let config := mergeConfig (opt_config options) in
  normalizedJobs <- mapM normalizeJob jobs ;;
  let scoredJobs :=
    jsSort (fun a b => compareTotals (totalScore (snd a)) (totalScore (snd b)))
           (map (fun job => (job, scoreJob now job requirements config)) normalizedJobs) in
  let filteredJobs :=
    match opt_minJobScore options with
    | Some minJobScore =>
        if Qeq_bool minJobScore 0 then scoredJobs
        else filter (fun j => optGe (totalScore (snd j)) minJobScore) scoredJobs
    | None => scoredJobs
    end in
  let rankedJobs := map snd filteredJobs in
  let relevantNormalizedJobs := map fst filteredJobs in
  let selectedProjects := selectProjects relevantNormalizedJobs requirements config in
  let selectedAchievements := selectAchievements relevantNormalizedJobs requirements config in
  let selectedSkills := selectSkills now skills requirements config in
  let technologyCoverage := analyzeTechnologyCoverage skills normalizedJobs requirements in
  let summary :=
    generateMatchSummary (coveragePercent technologyCoverage) rankedJobs requirements in
  Ok {| mr_requirements := requirements;
        rankedJobs := rankedJobs;
        selectedProjects := selectedProjects;
        selectedAchievements := selectedAchievements;
        selectedSkills := selectedSkills;
        technologyCoverage := technologyCoverage;
        summary := summary |}.

Record MinimumRequirements := {
  meets : bool;
  mr_coveragePercent : Z;
  mr_gaps : list string
}.

Definition meetsMinimumRequirements (jobs : list Job) (requirements : JobRequirements)
    (minCoveragePercent : Z) : Result MinimumRequirements :=
  normalizedJobs <- mapM normalizeJob jobs ;;
  let allTechs := getAllTechnologies normalizedJobs in
  let '(coveredCount, gaps) :=
    fold_left
      (fun (acc : nat * list string) reqTech =>
         let found :=
           existsb (fun t => Js.includes (Js.toLowerCase t) (Js.toLowerCase reqTech)
                             || Js.includes (Js.toLowerCase reqTech) (Js.toLowerCase t))
                   allTechs in
         if found then (S (fst acc), snd acc) else (fst acc, (snd acc ++ [reqTech])%list))
      (req_requiredTechnologies requirements)
      (0%nat, []) in
  let coveragePercent :=
    if (0 <? List.length (req_requiredTechnologies requirements))%nat
    then mathRound ((Qnat coveredCount / Qlen (req_requiredTechnologies requirements)) * 100)
    else 100%Z in
  Ok {| meets := (minCoveragePercent <=? coveragePercent)%Z;
        mr_coveragePercent := coveragePercent;
        mr_gaps := gaps |}.

(* ================================================================= *)
(** ** The seniority scale as the specification words it *)

(** junior < mid < senior < staff < lead < principal < manager < director *)
Inductive Level := Junior | Mid | Senior | Staff | Lead | Principal | Manager | Director.

Definition levelName (l : Level) : string :=
  match l with
  | Junior => "junior" | Mid => "mid" | Senior => "senior" | Staff => "staff"
  | Lead => "lead" | Principal => "principal" | Manager => "manager"
  | Director => "director"
  end.

Definition levelRank (l : Level) : Z :=
  match l with
  | Junior => 0 | Mid => 1 | Senior => 2 | Staff => 3
  | Lead => 4 | Principal => 5 | Manager => 6 | Director => 7
  end.

(* ================================================================= *)
(** ** The relevance-weight score as the specification words it *)

Definition mobileRole (requirements : JobRequirements) : bool :=
  existsb (fun t => Js.arrIncludes mobileTechnologies t) (req_requiredTechnologies requirements).

Definition leadershipRole (requirements : JobRequirements) : bool :=
  req_leadershipRequired requirements
  || String.eqb (req_seniority requirements) "lead"
  || String.eqb (req_seniority requirements) "manager".

Definition startupRole (requirements : JobRequirements) : bool :=
  optEq (req_companyType requirements) "startup" || optEq (req_companyType requirements) "scaleup".

Definition enterpriseRole (requirements : JobRequirements) : bool :=
  optEq (req_companyType requirements) "enterprise" || optEq (req_companyType requirements) "faang".

(** The weights of a job that the requirements make applicable. *)
Definition applicableWeights (w : RelevanceWeights) (requirements : JobRequirements)
  : list (option Q) :=
  ((if mobileRole requirements then [rw_mobile w] else []) ++
   (if leadershipRole requirements then [rw_leadership w] else []) ++
   (if startupRole requirements then [rw_startup w]
    else if enterpriseRole requirements then [rw_enterprise w]
    else []))%list.

(** The weights that are present and not zero. *)
Definition nonZeroWeights (ws : list (option Q)) : list Q :=
  flat_map (fun o => match o with
                     | Some q => if Qeq_bool q 0 then [] else [q]
                     | None => []
                     end) ws.

Definition Qsum (l : list Q) : Q := fold_right Qplus 0 l.

(** The average of a list of weights, the neutral 0.5 if there is none. *)
Definition averageOrNeutral (l : list Q) : Q :=
  match l with
  | [] => 0.5
  | _ => Qsum l / Qlen l
  end.

Definition zeroOrAbsent (o : option Q) : Prop :=
  match o with Some q => q == 0 | None => True end.

(** A weight of exactly zero replaced by an absent weight. *)
Definition nonZero (o : option Q) : option Q :=
  match o with
  | Some q => if Qeq_bool q 0 then None else Some q
  | None => None
  end.

Definition withoutZeros (w : RelevanceWeights) : RelevanceWeights :=
  {| rw_mobile := nonZero (rw_mobile w);
     rw_web := nonZero (rw_web w);
     rw_backend := nonZero (rw_backend w);
     rw_frontend := nonZero (rw_frontend w);
     rw_fullstack := nonZero (rw_fullstack w);
     rw_leadership := nonZero (rw_leadership w);
     rw_startup := nonZero (rw_startup w);
     rw_enterprise := nonZero (rw_enterprise w) |}.

(* ================================================================= *)
(** ** The candidate pools and the orders of the selector *)

(** The candidates of [selectProjects] and [selectAchievements]: every
    project, respectively achievement, of every job. *)
Definition projectPool (jobs : list NormalizedJob) : list Project :=
  flat_map job_projects jobs.

Definition achievementPool (jobs : list NormalizedJob) : list Achievement :=
  flat_map job_achievements jobs.

(** The candidates of [selectSkills]: the skills of the inventory that match
    a required or a preferred technology, and the other skills that are not
    deprecated and are featured, expert or wanted. *)
Definition eligibleSkill (skills : SkillsData) (requirements : JobRequirements)
    (skill : Skill) : bool :=
  existsb (skillMatchesTech skill) (req_requiredTechnologies requirements)
  || existsb (skillMatchesTech skill) (req_preferredTechnologies requirements)
  || (negb (isDeprecated (skill_name skill) skills)
      && (isFeatured (skill_name skill) skills
          || String.eqb (skill_level skill) "expert"
          || skill_wantToUse skill)).

Definition skillPool (skills : SkillsData) (requirements : JobRequirements) : list Skill :=
  filter (eligibleSkill skills requirements) (getAllSkills skills).

(** Required skills come first, then preferred ones, then the others. *)
Definition skillClass (s : ScoredSkill) : nat :=
  if isRequired s then 0 else if isPreferred s then 1 else 2.

(** [a] may stand before [b]: an earlier class, or the same class and a
    score at least as high. *)
Definition skillOrder (a b : ScoredSkill) : Prop :=
  (skillClass a < skillClass b)%nat \/
  (skillClass a = skillClass b /\ ss_score b <= ss_score a).

(* ================================================================= *)
(** ** The two shapes of a job record *)



(** A well-formed [BasicJob] has a company name. *)
Definition wellFormedBasic (job : Job) : Prop :=
  exists name, company job = CompanyString name.

(** A well-formed [EnhancedJob] has a company record, a role and a
    duration, the three fields its type requires. *)
Definition wellFormedEnhanced (job : Job) : Prop :=
  (exists c, company job = CompanyObject c) /\ role job <> None /\ duration job <> None.

(* ================================================================= *)
(** ** Valid inputs of the scorers *)

Definition inUnit (x : Q) : Prop := 0 <= x <= 1.



Definition weightsSumToOne (w : Weights) : Prop :=
  w_technology w + w_domain w + w_seniority w + w_recency w + w_relevance w == 1.

Definition weightsNonNegative (w : Weights) : Prop :=
  0 <= w_technology w /\ 0 <= w_domain w /\ 0 <= w_seniority w /\
  0 <= w_recency w /\ 0 <= w_relevance w.

(* ================================================================= *)
(** ** Sample records, used to run the definitions *)

Module Sample.

Definition requirements : JobRequirements :=
  {| req_title := "Engineer"; req_seniority := "senior";
     req_department := None; req_companyName := None; req_companyType := None;
     req_domain := None; req_location := None; req_workArrangement := None;
     req_requiredTechnologies := []; req_preferredTechnologies := [];
     req_yearsExperience := None; req_keyResponsibilities := [];
     req_leadershipRequired := false; req_teamSize := None;
     req_mentorshipExpected := false; req_keywords := []; req_buzzwords := [] |}.

(** The sample requirements with another seniority and other required
    technologies. *)
Definition requiring (seniority : string) (required : list string) : JobRequirements :=
  {| req_title := "Engineer"; req_seniority := seniority;
     req_department := None; req_companyName := None; req_companyType := None;
     req_domain := None; req_location := None; req_workArrangement := None;
     req_requiredTechnologies := required; req_preferredTechnologies := [];
     req_yearsExperience := None; req_keyResponsibilities := [];
     req_leadershipRequired := false; req_teamSize := None;
     req_mentorshipExpected := false; req_keywords := []; req_buzzwords := [] |}.

(** A normalized job at "Acme" with the given level, end date,
    technologies and relevance weights. *)
Definition job (level endDate : option string) (technologies : list string)
    (relevance : option RelevanceWeights) : NormalizedJob :=
  {| job_companyName := "Acme"; job_companyDescription := None; job_companyInfo := None;
     job_title := "Developer"; job_level := level; job_location := "Remote";
     job_startDate := "2015-01"; job_endDate := endDate;
     job_technologies := technologies; job_projects := []; job_achievements := [];
     job_responsibilities := []; job_relevanceWeights := relevance;
     job_keywords := None; job_workStyle := None |}.

Definition skills : SkillsData := {| categories := []; featured := []; deprecated := [] |}.


(** A senior Swift job, ongoing, and requirements it meets exactly. *)
Definition swiftJob : NormalizedJob :=
  job (Some "senior") None ["Swift"] None.

Definition swiftRequirements : JobRequirements :=
  requiring "senior" ["Swift"].

(** A job with one project and one achievement, an inventory with one
    featured skill, and a configuration that shows one to two items. *)
Definition portfolioJob : NormalizedJob :=
  {| job_companyName := "Acme"; job_companyDescription := None; job_companyInfo := None;
     job_title := "Developer"; job_level := Some "senior"; job_location := "Remote";
     job_startDate := "2015-01"; job_endDate := None;
     job_technologies := ["Swift"];
     job_projects :=
       [ {| proj_name := "Wallet"; proj_description := None; proj_role := None;
            proj_duration := None; proj_technologies := Some ["Swift"];
            proj_impact := Some "Cut crashes by 40%"; proj_teamSize := Some 4%nat;
            proj_challenges := None; proj_solutions := None |} ];
     job_achievements :=
       [ {| ach_description := "Led the migration to SwiftUI";
            ach_impact := None; ach_metrics := None;
            ach_category := Some "team"; ach_quantifiable := None |} ];
     job_responsibilities := []; job_relevanceWeights := None;
     job_keywords := None; job_workStyle := None |}.

Definition inventory : SkillsData :=
  {| categories :=
       [ ("languages",
          [ {| skill_name := "Swift"; skill_level := "expert"; skill_yearsUsed := 8;
               skill_lastUsed := 2026; skill_wantToUse := true; skill_keywords := None |} ]) ];
     featured := ["Swift"];
     deprecated := [] |}.

(** An inventory of eight advanced skills that are not featured, not
    wanted, and match no mobile technology. *)
Definition legacySkill (name : string) : Skill :=
  {| skill_name := name; skill_level := "advanced"; skill_yearsUsed := 10;
     skill_lastUsed := 2020; skill_wantToUse := false; skill_keywords := None |}.

Definition legacyInventory : SkillsData :=
  {| categories :=
       [ ("languages",
          map legacySkill
              ["Cobol"; "Fortran"; "Pascal"; "Ada"; "Perl"; "Lisp"; "Prolog"; "Haskell"]) ];
     featured := [];
     deprecated := [] |}.

Definition smallConfig : MatchConfig :=
  {| weights := weights DEFAULT_MATCH_CONFIG;
     recencyDecay := 0.1;
     minProjectsToShow := 1; maxProjectsToShow := 2;
     minAchievementsToShow := 1; maxAchievementsToShow := 2;
     minSkillsToShow := 1; maxSkillsToShow := 2 |}.

(** A raw record with the given [company] field, an optional role and
    duration, and nothing else. *)
Definition rawJob (c : CompanyField) (r : option Role) (d : option Duration) : Job :=
  {| company := c; role := r; duration := d; responsibilities := None; projects := None;
     technologies := None; achievements := None; context := None; keywords := None;
     relevanceWeights := None; companyDescription := None; position := "Developer";
     location := None; startDate := Some "May 2017"; endDate := None;
     basicTechnologies := Some ["Swift"]; basicAchievements := None; description := None |}.

Definition acme : Company :=
  {| co_name := "Acme"; co_industry := Some "fintech"; co_size := None; co_stage := None;
     co_description := None; co_website := None; co_location := None |}.

Definition seniorRole : Role :=
  {| role_title := "Developer"; role_level := Some "senior"; role_type := None;
     role_department := None; role_reportingTo := None; role_teamSize := None;
     role_directReports := None |}.

Definition since2017 : Duration :=
  {| dur_start := "2017-05"; dur_end := None; dur_totalMonths := None |}.

Definition basicJob : Job := rawJob (CompanyString "Acme") None None.

Definition enhancedJob : Job := rawJob (CompanyObject acme) (Some seniorRole) (Some since2017).

(** Relevance weights with the given mobile and leadership weights only. *)
Definition relevance (mobile leadership : option Q) : RelevanceWeights :=
  {| rw_mobile := mobile; rw_web := None; rw_backend := None; rw_frontend := None;
     rw_fullstack := None; rw_leadership := leadership; rw_startup := None;
     rw_enterprise := None |}.

End Sample.

(* ================================================================= *)
(** ** Auxiliary definitions for the further properties *)

(** The test [normalizeTechName] runs on each entry of the alias table. *)
Definition aliasEntryMatches (lower : string) (entry : string * list string) : bool :=
  let (canonical, aliases) := entry in
  Js.arrIncludes aliases lower || String.eqb (Js.toLowerCase canonical) lower.

(** Whether some candidate matches a technology, as [findMatchingTechs]
    asks for each required entry. *)
Definition foundAmong (candidateTechs : list string) (required : string) : bool :=
  existsb (fun c => techMatches c required) candidateTechs.

(** Whether a skill matches one of the technologies, by its name or by one
    of its keywords, as [findMatchingSkills] asks. *)
Definition skillMatchesAny (techs : list string) (skill : Skill) : bool :=
  existsb (skillMatchesTech skill) techs.

(** The technologies an enhanced job declares: its eight categories, in the
    order [collectTechnologies] reads them, then those of its projects. *)
Definition categoryTechnologies (t : Technologies) : list string :=
  orEmpty (tech_languages t) ++ orEmpty (tech_frameworks t) ++
  orEmpty (tech_databases t) ++ orEmpty (tech_cloud t) ++
  orEmpty (tech_devops t) ++ orEmpty (tech_tools t) ++
  orEmpty (tech_mobile t) ++ orEmpty (tech_testing t).

Definition declaredTechnologies (job : Job) : list string :=
  match technologies job with
  | Some t => categoryTechnologies t
  | None => []
  end ++
  flat_map (fun p => orEmpty (proj_technologies p)) (orEmpty (projects job)).

(** A date in the form YYYY-MM, and nothing more. *)
Definition isYearMonth (s : string) : bool :=
  Re.startsYearMonth s && (String.length s =? 7)%nat.

(** Whether a string holds ASCII characters only. On these strings the
    [toLowerCase], [toUpperCase] and [trim] of the embedding are the ones of
    JavaScript, which change letters and white space outside ASCII too. *)
Fixpoint asciiOnly (s : string) : bool :=
  match s with
  | EmptyString => true
  | String c r => (nat_of_ascii c <? 128)%nat && asciiOnly r
  end.

(** The property names every object literal inherits from
    [Object.prototype]: [table[key]] finds a value for them too, which
    [lookup] (own keys only) leaves out. *)
Definition objectPrototypeKeys : list string :=
  ["constructor"; "__defineGetter__"; "__defineSetter__"; "hasOwnProperty";
   "__lookupGetter__"; "__lookupSetter__"; "isPrototypeOf"; "propertyIsEnumerable";
   "toString"; "valueOf"; "__proto__"; "toLocaleString"].

(** Whether a date of two words names such a property as its month: for
    these dates [months[parts[0]]] is an inherited object, not a month
    number. *)
Definition inheritedMonth (dateStr : string) : bool :=
  match Re.splitSpaces (Js.toLowerCase dateStr) with
  | [month; _] => Js.arrIncludes objectPrototypeKeys month
  | _ => false
  end.

(** The end date [normalizeBasicJob] reads: the flat field, else the one of
    the nested duration. *)
Definition basicEndDate (job : Job) : option string :=
  match endDate job with
  | Some e => Some e
  | None => match duration job with Some d => dur_end d | None => None end
  end.

(** A candidate of a selector whose score is above the threshold. *)
Definition relevant {A} (score : A -> Q) (threshold : Q) (a : A) : bool :=
  Qgt_bool (score a) threshold.

(* ================================================================= *)
(** ** index.ts: the other entry points *)

Definition quickMatch (now : Z) (jobs : list Job) (requirements : JobRequirements)
    (config : MatchConfig) : Result (list JobScore) :=
  scored <-
    mapM (fun job =>
            normalized <- normalizeJob job ;;
            Ok (scoreJob now normalized requirements config))
         jobs ;;
  Ok (jsSort (fun a b => compareTotals (totalScore a) (totalScore b)) scored).

Definition recommendSummaryTemplate (requirements : JobRequirements) : string :=
  if req_leadershipRequired requirements
     || String.eqb (req_seniority requirements) "lead"
     || String.eqb (req_seniority requirements) "manager"
     || String.eqb (req_seniority requirements) "director"
  then "leadership"
  else
    let mobileTechs :=
      ["Swift"; "Kotlin"; "iOS"; "Android"; "React Native"; "Flutter"; "UIKit"; "SwiftUI"] in
    if existsb (fun t => Js.arrIncludes mobileTechs t) (req_requiredTechnologies requirements)
    then "mobile"
    else if optEq (req_companyType requirements) "startup"
            || optEq (req_companyType requirements) "scaleup"
    then "startup"
    else if optEq (req_companyType requirements) "enterprise"
            || optEq (req_companyType requirements) "faang"
    then "enterprise"
    else
      let frontendTechs := ["React"; "Vue"; "Angular"; "Next.js"] in
      let backendTechs := ["Node.js"; "Python"; "Go"; "PostgreSQL"; "MongoDB"] in
      let hasFrontend :=
        existsb (fun t => Js.arrIncludes frontendTechs t)
                (req_requiredTechnologies requirements) in
      let hasBackend :=
        existsb (fun t => Js.arrIncludes backendTechs t)
                (req_requiredTechnologies requirements) in
      if hasFrontend && hasBackend then "fullstack" else "default".

(** [a] may stand before [b] in the ranking: both totals are numbers and the
    one of [a] is at least the one of [b]. *)
Definition totalDescending (a b : JobScore) : Prop :=
  match totalScore a, totalScore b with
  | Some x, Some y => y <= x
  | _, _ => False
  end.

(** The minimum score of the options, when it is set and not zero. *)
Definition minimumScore (options : MatchOptions) : option Q :=
  match opt_minJobScore options with
  | Some m => if Qeq_bool m 0 then None else Some m
  | None => None
  end.

(** Whether a job technology covers a required one for
    [meetsMinimumRequirements]: one contains the other, letter case aside. *)
Definition containsEitherWay (allTechs : list string) (reqTech : string) : bool :=
  existsb (fun t => Js.includes (Js.toLowerCase t) (Js.toLowerCase reqTech)
                    || Js.includes (Js.toLowerCase reqTech) (Js.toLowerCase t))
          allTechs.

(** The fit buckets, from the weakest to the best. *)
Definition fitRank (f : Fit) : nat :=
  match f with
  | weak => 0
  | moderate => 1
  | good => 2
  | excellent => 3
  end.

(** Whether a technology is covered for [analyzeTechnologyCoverage]: the
    name of one of the matched skills matches it, or a technology of one of
    the jobs does. *)
Definition coveredBy (matchedSkills : list Skill) (jobs : list NormalizedJob) (t : string)
  : bool :=
  existsb (fun s => techMatches (skill_name s) t) matchedSkills
  || existsb (fun job => foundAmong (job_technologies job) t) jobs.

(** The entries [scoreTechnologyMatch] counts as required: the required
    technologies and the keywords that are not buzzwords. *)
Definition allRequiredOf (requirements : JobRequirements) : list string :=
  req_requiredTechnologies requirements ++
  filter (fun k => negb (Js.arrIncludes (req_buzzwords requirements) k))
         (req_keywords requirements).

(* ================================================================= *)
(** ** analyzer/parser.ts: validation of the extracted requirements *)

Definition VALID_SENIORITY : list string :=
  ["junior"; "mid"; "senior"; "staff"; "principal"; "lead"; "manager"; "director"].

Definition VALID_DOMAINS : list string :=
  ["fintech"; "healthcare"; "ecommerce"; "gaming"; "enterprise"; "consumer"; "saas";
   "crypto"; "ai-ml"; "social"; "media"; "education"; "other"].

Definition VALID_COMPANY_TYPES : list string :=
  ["startup"; "scaleup"; "enterprise"; "agency"; "consulting"; "faang"].

Definition VALID_WORK_ARRANGEMENTS : list string := ["remote"; "hybrid"; "onsite"].

(** [if (!value) return ...]: an absent and an empty string are falsy. *)
Definition normalizeSeniority (value : option string) : string :=
  match truthy value with
  | None => "mid"
  | Some value =>
      let normalized := Js.trim (Js.toLowerCase value) in
      if Js.arrIncludes VALID_SENIORITY normalized then normalized
      else if Js.includes normalized "sr" || Js.includes normalized "senior" then "senior"
      else if Js.includes normalized "jr" || Js.includes normalized "junior" then "junior"
      else if Js.includes normalized "staff" then "staff"
      else if Js.includes normalized "principal" || Js.includes normalized "architect"
      then "principal"
      else if Js.includes normalized "lead" then "lead"
      else if Js.includes normalized "manager" then "manager"
      else if Js.includes normalized "director" then "director"
      else "mid"
  end.

Definition normalizeDomain (value : option string) : option string :=
  match truthy value with
  | None => None
  | Some value =>
      let normalized := Js.trim (Js.toLowerCase value) in
      if Js.arrIncludes VALID_DOMAINS normalized then Some normalized
      else if Js.includes normalized "finance" || Js.includes normalized "banking"
              || Js.includes normalized "payment"
      then Some "fintech"
      else if Js.includes normalized "health" || Js.includes normalized "medical"
      then Some "healthcare"
      else if Js.includes normalized "game" || Js.includes normalized "gaming"
      then Some "gaming"
      else if Js.includes normalized "crypto" || Js.includes normalized "blockchain"
              || Js.includes normalized "web3"
      then Some "crypto"
      else if Js.includes normalized "ai" || Js.includes normalized "ml"
              || Js.includes normalized "machine learning"
      then Some "ai-ml"
      else Some "other"
  end.

Definition normalizeCompanyType (value : option string) : option string :=
  match truthy value with
  | None => None
  | Some value =>
      let normalized := Js.trim (Js.toLowerCase value) in
      if Js.arrIncludes VALID_COMPANY_TYPES normalized then Some normalized
      else if Js.includes normalized "startup" || Js.includes normalized "early stage"
      then Some "startup"
      else if Js.includes normalized "scale" || Js.includes normalized "growth"
      then Some "scaleup"
      else if Js.includes normalized "enterprise" || Js.includes normalized "corporate"
      then Some "enterprise"
      else if Js.includes normalized "faang" || Js.includes normalized "big tech"
      then Some "faang"
      else None
  end.

Definition normalizeWorkArrangement (value : option string) : option string :=
  match truthy value with
  | None => None
  | Some value =>
      let normalized := Js.trim (Js.toLowerCase value) in
      if Js.arrIncludes VALID_WORK_ARRANGEMENTS normalized then Some normalized
      else if Js.includes normalized "remote" then Some "remote"
      else if Js.includes normalized "hybrid" then Some "hybrid"
      else if Js.includes normalized "onsite" || Js.includes normalized "office"
              || Js.includes normalized "in-person"
      then Some "onsite"
      else None
  end.

(** An element of an array read from JSON: a string, or a value of another
    type. *)
Inductive JsonItem :=
| ItemString (s : string)
| ItemOther.

(** [typeof item === 'string' && item.trim().length > 0] *)
Definition isNonBlankString (item : JsonItem) : bool :=
  match item with
  | ItemString s => (0 <? String.length (Js.trim s))%nat
  | ItemOther => false
  end.

(** The strings among the items. *)
Definition stringsOf (items : list JsonItem) : list string :=
  flat_map (fun item => match item with ItemString s => [s] | ItemOther => [] end) items.

(** [normalizeArray]: the argument is [None] when the field does not hold
    an array ([Array.isArray] fails: the field is absent or of another
    type). *)
Definition normalizeArray (arr : option (list JsonItem)) : list string :=
  match arr with
  | None => []
  | Some items => stringsOf (filter isNonBlankString items)
  end.

Definition keywordMappings : list (string * string) :=
  [ ("react.js", "React"); ("reactjs", "React"); ("react native", "React Native");
    ("node.js", "Node.js"); ("nodejs", "Node.js"); ("typescript", "TypeScript");
    ("javascript", "JavaScript"); ("ios", "iOS"); ("android", "Android");
    ("swift", "Swift"); ("kotlin", "Kotlin"); ("aws", "AWS"); ("gcp", "GCP");
    ("postgres", "PostgreSQL"); ("postgresql", "PostgreSQL"); ("mongodb", "MongoDB");
    ("redis", "Redis"); ("docker", "Docker"); ("kubernetes", "Kubernetes");
    ("k8s", "Kubernetes") ].

(** What [mappings[lower] ?? normalized] evaluates to: a string, or the
    object that the table inherits under the key when the key names a
    property of [Object.prototype]. *)
Inductive KeywordValue :=
| KeywordString (s : string)
| InheritedObject (key : string).

Definition normalizeKeyword (keyword : string) : KeywordValue :=
  let normalized := Js.trim keyword in
  let lower := Js.toLowerCase normalized in
  match lookup keywordMappings lower with
  | Some mapped => KeywordString mapped
  | None =>
      if Js.arrIncludes objectPrototypeKeys lower then InheritedObject lower
      else KeywordString normalized
  end.

(** The [keywords] field of the validated requirements:
    [normalizeArray(raw.keywords).map(normalizeKeyword)]. *)
Definition normalizedKeywords (keywords : option (list JsonItem)) : list KeywordValue :=
  map normalizeKeyword (normalizeArray keywords).

(* ================================================================= *)
(** ** generator/technology-filter.ts: cleaning up a technology list *)

Definition OBVIOUS_TOOLS : list string :=
  ["Git"; "VS Code"; "Visual Studio Code"; "Xcode"; "Android Studio"; "npm"; "yarn";
   "pnpm"; "ESLint"; "Prettier"; "Slack"; "Jira"; "Confluence"; "Notion"; "Figma";
   "Postman"].

(** The pairs [keep, remove]. *)
Definition REDUNDANT_PAIRS : list (string * string) :=
  [ ("Self-hosted runners", "Self-hosted infrastructure");
    ("Jest", "Unit Testing");
    ("Jest", "Automated testing");
    ("Detox", "E2E Testing");
    ("Cypress", "E2E Testing");
    ("React Native", "Mobile development");
    ("Expo", "Expo CLI");
    ("TypeScript", "JavaScript");
    ("GitHub Actions", "CI/CD");
    ("Fastlane", "App deployment");
    ("iOS", "UIKit");
    ("Android", "Android SDK");
    ("PostgreSQL", "SQL");
    ("MySQL", "SQL");
    ("SQLite", "SQL");
    ("AWS", "Cloud");
    ("GCP", "Cloud");
    ("Azure", "Cloud");
    ("React Testing Library", "Testing");
    ("XCTest", "Testing") ].

Definition VAGUE_TERMS : list string :=
  ["Mobile development"; "Web development"; "Software development"; "App development";
   "Programming"; "Coding"; "Development"; "Testing"; "Cloud"; "CI/CD"; "Agile"; "Scrum"].

(** The options after [{ ...DEFAULT_OPTIONS, ...options }]. [maxCount] is
    an integer; a negative one counts from the end of the list in
    [slice]. *)
Record FilterOptions := {
  maxCount : Z;
  removeObvious : bool;
  removeVague : bool;
  removeRedundant : bool
}.

(** The options as a caller gives them: each field may be left out. *)
Record PartialFilterOptions := {
  pf_maxCount : option Z;
  pf_removeObvious : option bool;
  pf_removeVague : option bool;
  pf_removeRedundant : option bool
}.

Definition DEFAULT_OPTIONS : FilterOptions :=
  {| maxCount := 8; removeObvious := true; removeVague := true; removeRedundant := true |}.

Definition mergeFilterOptions (options : PartialFilterOptions) : FilterOptions :=
  {| maxCount := orElse (pf_maxCount options) (maxCount DEFAULT_OPTIONS);
     removeObvious := orElse (pf_removeObvious options) (removeObvious DEFAULT_OPTIONS);
     removeVague := orElse (pf_removeVague options) (removeVague DEFAULT_OPTIONS);
     removeRedundant :=
       orElse (pf_removeRedundant options) (removeRedundant DEFAULT_OPTIONS) |}.

(** [a.toLowerCase() === b.toLowerCase()] *)
Definition sameIgnoringCase (a b : string) : bool :=
  String.eqb (Js.toLowerCase a) (Js.toLowerCase b).

Definition shouldFilter (tech : string) (allTechs : list string) (options : FilterOptions)
  : bool :=
  let techLower := Js.toLowerCase tech in
  if removeObvious options
     && existsb (fun t => String.eqb (Js.toLowerCase t) techLower) OBVIOUS_TOOLS
  then true
  else if removeVague options
          && existsb (fun t => String.eqb (Js.toLowerCase t) techLower) VAGUE_TERMS
  then true
  else if removeRedundant options
  then existsb (fun pair : string * string =>
                  let (keep, remove) := pair in
                  sameIgnoringCase tech remove
                  && existsb (fun t => sameIgnoringCase t keep) allTechs)
               REDUNDANT_PAIRS
  else false.

(** The filter that drops the technologies seen before, letter case aside;
    [seen] is the set of the lower-case names met so far. *)
Fixpoint uniqueFrom (seen : list string) (technologies : list string) : list string :=
  match technologies with
  | [] => []
  | tech :: rest =>
      let lower := Js.toLowerCase tech in
      if Js.arrIncludes seen lower then uniqueFrom seen rest
      else tech :: uniqueFrom (setAdd seen lower) rest
  end.

(** [arr.slice(0, end)] for an integer [end]. *)
Definition sliceTo {A} (finish : Z) (arr : list A) : list A :=
  if (finish <? 0)%Z
  then firstn (Z.to_nat (Z.max (Z.of_nat (List.length arr) + finish) 0)) arr
  else firstn (Z.to_nat finish) arr.

Definition filterTechnologies (technologies : list string) (options : PartialFilterOptions)
  : list string :=
  let opts := mergeFilterOptions options in
  let unique := uniqueFrom [] technologies in
  let filtered := filter (fun tech => negb (shouldFilter tech unique opts)) unique in
  sliceTo (maxCount opts) filtered.

Definition priority : list (string * Z) :=
  [ ("expo", 10); ("react native", 10); ("react", 9); ("next.js", 9); ("node.js", 9);
    ("swift", 9); ("kotlin", 9);
    ("typescript", 8); ("javascript", 7); ("python", 8); ("rust", 8); ("go", 8);
    ("graphql", 7); ("rest api", 7); ("grpc", 7);
    ("redux", 6); ("redux toolkit", 6); ("mobx", 6);
    ("github actions", 6); ("fastlane", 6); ("bitbucket pipelines", 6); ("eas build", 6);
    ("postgresql", 5); ("mongodb", 5); ("firebase", 5);
    ("aws", 5); ("gcp", 5);
    ("jest", 4); ("detox", 4);
    ("ios", 3); ("android", 3) ]%Z.

(** [priority[tech.toLowerCase()] ?? 0] as a number: [None] when the key
    names a property the table inherits from [Object.prototype]; the value
    is an object then, and a difference with it is [NaN]. *)
Definition priorityOf (tech : string) : option Z :=
  let key := Js.toLowerCase tech in
  match lookup priority key with
  | Some p => Some p
  | None => if Js.arrIncludes objectPrototypeKeys key then None else Some 0%Z
  end.

(** The comparator [bPriority - aPriority]; a [NaN] result counts as [0] in
    [sort]. *)
Definition comparePriority (a b : string) : Q :=
  match priorityOf b, priorityOf a with
  | Some y, Some x => inject_Z (y - x)
  | _, _ => 0
  end.

Definition prioritizeTechnologies (technologies : list string) : list string :=
  jsSort comparePriority technologies.

Definition processTechnologies (technologies : list string) (options : PartialFilterOptions)
  : list string :=
  let prioritized := prioritizeTechnologies technologies in
  filterTechnologies prioritized options.

(** [a] may stand before [b] in a list sorted by priority: both priorities
    are numbers and the one of [a] is at least the one of [b]. *)
Definition priorityDescending (a b : string) : Prop :=
  match priorityOf a, priorityOf b with
  | Some x, Some y => (y <= x)%Z
  | _, _ => False
  end.

(** No option given: the defaults apply. *)
Definition noFilterOptions : PartialFilterOptions :=
  {| pf_maxCount := None; pf_removeObvious := None; pf_removeVague := None;
     pf_removeRedundant := None |}.

(* ================================================================= *)
(** ** generator/transformer.ts: the skills of the resume template *)

(** The [skills] part of the template data; [additional] and [categories]
    are present in one layout each. *)
Record TemplateSkills := {
  highlighted : list string;
  additional : option (list string);
  grouped : bool;
  ts_categories : option (list (string * string))
}.

Definition getSkillCategory (skill : ScoredSkill) : string :=
  let languages :=
    ["JavaScript"; "TypeScript"; "Swift"; "Kotlin"; "Python"; "Go"; "Rust"; "Java"; "Ruby"] in
  let mobile :=
    ["React Native"; "UIKit"; "SwiftUI"; "Jetpack Compose"; "Expo"; "iOS"; "Android"] in
  let cloud := ["AWS"; "GCP"; "Azure"; "Firebase"; "Supabase"] in
  let devops :=
    ["Docker"; "Kubernetes"; "GitHub Actions"; "GitLab CI"; "Fastlane"; "CI/CD"] in
  let name := skill_name (ss_skill skill) in
  if Js.arrIncludes languages name then "Languages"
  else if Js.arrIncludes mobile name then "Mobile"
  else if Js.arrIncludes cloud name then "Cloud"
  else if Js.arrIncludes devops name then "DevOps"
  else "Tools".

(** [if (!categories[category]) categories[category] = [];
    categories[category].push(name)] on an object whose keys are kept in the
    order they were added. *)
Fixpoint pushInto (categories : list (string * list string)) (category name : string)
  : list (string * list string) :=
  match categories with
  | [] => [(category, [name])]
  | (label, items) :: rest =>
      if String.eqb label category then (label, items ++ [name]) :: rest
      else (label, items) :: pushInto rest category name
  end.

Definition transformSkills (skills : list ScoredSkill) (isGrouped : bool) (maxHighlighted : Z)
  : TemplateSkills :=
  if isGrouped then
    let categories :=
      fold_left (fun categories skill =>
                   pushInto categories (getSkillCategory skill) (skill_name (ss_skill skill)))
                skills [] in
    {| highlighted := [];
       additional := None;
       grouped := true;
       ts_categories :=
         Some (map (fun entry : string * list string =>
                      let (label, items) := entry in (label, Js.join ", " items))
                   categories) |}
  else
    let sortedSkills := jsSort compareSkills skills in
    let requiredOrPreferred :=
      filter (fun s => isRequired s || isPreferred s) sortedSkills in
    let highlighted :=
      map (fun s => skill_name (ss_skill s)) (sliceTo maxHighlighted requiredOrPreferred) in
    let additional :=
      map (fun s => skill_name (ss_skill s))
          (slice0 8 (filter (fun s => negb (Js.arrIncludes highlighted (skill_name (ss_skill s))))
                            sortedSkills)) in
    {| highlighted := highlighted;
       additional := Some additional;
       grouped := false;
       ts_categories := None |}.

(** Further sample records. *)
Module Fixture.

(** A basic record that ended in June 2021. *)
Definition endedJob : Job :=
  {| company := CompanyString "Acme"; role := None; duration := None;
     responsibilities := None; projects := None; technologies := None;
     achievements := None; context := None; keywords := None; relevanceWeights := None;
     companyDescription := None; position := "Developer"; location := None;
     startDate := Some "May 2017"; endDate := Some "June 2021";
     basicTechnologies := Some ["Swift"]; basicAchievements := None; description := None |}.

(** An achievement with a figure, and a job that holds it. *)
Definition fasterBuilds : Achievement :=
  {| ach_description := "Cut build time by 30%";
     ach_impact := None; ach_metrics := None;
     ach_category := None; ach_quantifiable := None |}.

Definition buildJob : NormalizedJob :=
  {| job_companyName := "Acme"; job_companyDescription := None; job_companyInfo := None;
     job_title := "Developer"; job_level := Some "senior"; job_location := "Remote";
     job_startDate := "2015-01"; job_endDate := None;
     job_technologies := ["Swift"]; job_projects := [];
     job_achievements := [fasterBuilds];
     job_responsibilities := []; job_relevanceWeights := None;
     job_keywords := None; job_workStyle := None |}.

(** An enhanced record with a project and an achievement. *)
Definition wallet : Project :=
  {| proj_name := "Wallet"; proj_description := None; proj_role := None;
     proj_duration := None; proj_technologies := Some ["Swift"];
     proj_impact := Some "Cut crashes by 40%"; proj_teamSize := Some 4%nat;
     proj_challenges := None; proj_solutions := None |}.

Definition walletJob : Job :=
  {| company := CompanyObject Sample.acme; role := Some Sample.seniorRole;
     duration := Some Sample.since2017;
     responsibilities := None; projects := Some [wallet]; technologies := None;
     achievements := Some [fasterBuilds]; context := None; keywords := None;
     relevanceWeights := None;
     companyDescription := None; position := "Developer"; location := None;
     startDate := None; endDate := None;
     basicTechnologies := None; basicAchievements := None; description := None |}.

(** Options that ask for a minimum job score. *)
Definition atLeast (minJobScore : Q) : MatchOptions :=
  {| opt_config := None; opt_minJobScore := Some minJobScore; opt_includeBreakdown := None |}.

End Fixture.

(* ================================================================= *)
(** * Properties *)

(** ** Arithmetic of [Math.min], [Math.max] and lengths *)

Lemma Qle_bool_true (a b : Q) : Qle_bool a b = true -> a <= b.
Proof. apply Qle_bool_iff. Qed.

Lemma Qle_bool_false (a b : Q) : Qle_bool a b = false -> b < a.
Proof.
  intros H. apply Qnot_le_lt. intros Hle.
  apply Qle_bool_iff in Hle. congruence.
Qed.

(** Case analysis on every comparison of the goal, with the order facts
    put in the context. *)
Ltac qcases :=
  repeat match goal with
         | |- context [Qle_bool ?a ?b] =>
             let E := fresh "E" in
             destruct (Qle_bool a b) eqn:E;
             [apply Qle_bool_true in E | apply Qle_bool_false in E]
         end.

Lemma mathMin_spec (a b : Q) :
  (a <= b /\ mathMin a b = a) \/ (b < a /\ mathMin a b = b).
Proof. unfold mathMin. qcases; auto. Qed.

Lemma mathMax_spec (a b : Q) :
  (a <= b /\ mathMax a b = b) \/ (b < a /\ mathMax a b = a).
Proof. unfold mathMax. qcases; auto. Qed.

Lemma mathMin_unit (x : Q) : 0 <= x -> 0 <= mathMin 1 x <= 1.
Proof.
  intros Hx. destruct (mathMin_spec 1 x) as [[H ->] | [H ->]]; lra.
Qed.


Lemma Qnat_nonneg (n : nat) : 0 <= Qnat n.
Proof.
  unfold Qnat. change 0 with (inject_Z 0). rewrite <- Zle_Qle. lia.
Qed.

Lemma Qnat_le (n m : nat) : (n <= m)%nat -> Qnat n <= Qnat m.
Proof. intros H. unfold Qnat. rewrite <- Zle_Qle. lia. Qed.

Lemma Qnat_pos (n : nat) : (0 < n)%nat -> 0 < Qnat n.
Proof.
  intros H. unfold Qnat. change 0 with (inject_Z 0). rewrite <- Zlt_Qlt. lia.
Qed.

Lemma Qlen_Qnat {A} (l : list A) : Qlen l = Qnat (List.length l).
Proof. reflexivity. Qed.

(** A ratio of two counts, the first at most the second, is in the unit
    interval. *)
Lemma ratio_unit (n m : nat) :
  (n <= m)%nat -> (0 < m)%nat -> 0 <= Qnat n / Qnat m <= 1.
Proof.
  intros Hle Hpos.
  pose proof (Qnat_pos m Hpos) as Hm.
  pose proof (Qnat_nonneg n) as Hn.
  pose proof (Qnat_le n m Hle) as Hnm.
  split.
  - apply Qle_shift_div_l; lra.
  - apply Qle_shift_div_r; lra.
Qed.

(* ----------------------------------------------------------------- *)
(** ** The technology normalizer *)

Lemma canonical_names_are_fixed_points :
  forallb (fun x => String.eqb (normalizeTechName x) x) canonicalNames = true.
Proof. vm_compute. reflexivity. Qed.

Lemma normalizeTechName_canonical (x : string) :
  In x canonicalNames -> normalizeTechName x = x.
Proof.
  intros Hin.
  pose proof canonical_names_are_fixed_points as H.
  rewrite forallb_forall in H.
  apply String.eqb_eq. apply H. exact Hin.
Qed.

(** C9. For every technology string [x] that is equal to a canonical name
    of the alias table, [normalizeTechName] is idempotent:
    [normalizeTechName (normalizeTechName x) = normalizeTechName x]. *)
Theorem normalizeTechName_idempotent_on_canonical (x : string) :
  In x canonicalNames ->
  normalizeTechName (normalizeTechName x) = normalizeTechName x.
Proof.
  intros Hin.
  rewrite (normalizeTechName_canonical x Hin).
  apply normalizeTechName_canonical. exact Hin.
Qed.

Lemma normalizeTechName_idempotent_on_canonical_witness :
  In "JavaScript" canonicalNames /\
  normalizeTechName (normalizeTechName "JavaScript") = normalizeTechName "JavaScript".
Proof.
  assert (H : In "JavaScript" canonicalNames) by (vm_compute; left; reflexivity).
  split; [exact H | apply (normalizeTechName_idempotent_on_canonical "JavaScript" H)].
Defined.

(** Scenario 4: "node.js" and "Node" match through the alias table. *)
Example techMatches_node : techMatches "node.js" "Node" = true.
Proof. reflexivity. Qed.

Example normalizeTechName_postgres : normalizeTechName " Postgres " = "PostgreSQL"%string.
Proof. reflexivity. Qed.

(** Scenario 1: two required technologies out of two, the same level. *)
Example scenario_swift_uikit :
  let job := Sample.job (Some "senior"%string) None
               ["Swift"; "UIKit"; "SwiftUI"]%string None in
  let requirements := Sample.requiring "senior" ["Swift"; "UIKit"]%string in
  scoreTechnologyMatch job requirements == 1 /\
  scoreSeniorityMatch job requirements == 1.
Proof. split; reflexivity. Qed.

(* ----------------------------------------------------------------- *)
(** ** Seniority *)

Lemma indexOf_absent (arr : list string) (x : string) :
  ~ In x arr -> indexOf arr x = (-1)%Z.
Proof.
  induction arr as [| y rest IH]; intros Hnot; simpl.
  - reflexivity.
  - destruct (String.eqb y x) eqn:E.
    + apply String.eqb_eq in E. exfalso. apply Hnot. left. exact E.
    + rewrite IH.
      * reflexivity.
      * intros Hin. apply Hnot. right. exact Hin.
Qed.

Lemma indexOf_levelName (l : Level) : indexOf levelOrder (levelName l) = levelRank l.
Proof. destruct l; reflexivity. Qed.

(** The score depends on the job through its level only. *)
Lemma scoreSeniorityMatch_level (job job' : NormalizedJob) (requirements : JobRequirements) :
  job_level job = job_level job' ->
  scoreSeniorityMatch job requirements = scoreSeniorityMatch job' requirements.
Proof. intros H. unfold scoreSeniorityMatch. rewrite H. reflexivity. Qed.

(** C4, as the code has it. A job whose level is present and is not one of
    the eight values of the scale scores the neutral 0.5 against every
    requirement; a job whose level is absent is scored as a job of level
    "mid". *)
Theorem scoreSeniorityMatch_unknown_level
    (job : NormalizedJob) (requirements : JobRequirements) :
  (forall l, job_level job = Some l -> ~ In l levelOrder ->
             scoreSeniorityMatch job requirements = 0.5) /\
  (forall job', job_level job = None -> job_level job' = Some "mid"%string ->
                scoreSeniorityMatch job requirements =
                scoreSeniorityMatch job' requirements).
Proof.
  split.
  - intros l Hl Hnot. unfold scoreSeniorityMatch. rewrite Hl.
    rewrite (indexOf_absent levelOrder l Hnot). reflexivity.
  - intros job' Hnone Hmid. unfold scoreSeniorityMatch.
    rewrite Hnone, Hmid. reflexivity.
Qed.

Lemma scoreSeniorityMatch_unknown_level_witness :
  scoreSeniorityMatch (Sample.job (Some "intern"%string) None [] None) Sample.requirements = 0.5 /\
  scoreSeniorityMatch (Sample.job None None [] None) Sample.requirements =
  scoreSeniorityMatch (Sample.job (Some "mid"%string) None [] None) Sample.requirements.
Proof.
  destruct (scoreSeniorityMatch_unknown_level
              (Sample.job (Some "intern"%string) None [] None) Sample.requirements)
    as [Hunknown _].
  destruct (scoreSeniorityMatch_unknown_level
              (Sample.job None None [] None) Sample.requirements)
    as [_ Habsent].
  split.
  - apply (Hunknown "intern"%string).
    + reflexivity.
    + vm_compute. intuition discriminate.
  - apply Habsent; reflexivity.
Defined.

(** C4, as the claim words it, fails: a job without a level is not unknown
    to the scorer, it is taken for "mid" and scores 1.0 against a "mid"
    requirement. *)
Lemma scoreSeniorityMatch_absent_level_not_neutral :
  job_level (Sample.job None None [] None) = None /\
  scoreSeniorityMatch (Sample.job None None [] None) (Sample.requiring "mid" []) = 1.0 /\
  ~ scoreSeniorityMatch (Sample.job None None [] None) (Sample.requiring "mid" []) == 0.5.
Proof.
  split; [reflexivity | split; [reflexivity |]].
  vm_compute. discriminate.
Qed.

(** C5. On the scale junior < mid < senior < staff < lead < principal <
    manager < director, with [gap] the number of levels the job sits below
    the requirement, and in the double arithmetic of the code: an exact
    match scores 1.0, a job one level above 0.9, one level below 0.7, more
    than one level below [max 0.3 (0.7 - (gap - 1) * 0.15)], which is
    0.5499999999999999 for a gap of 2, 0.39999999999999997 for a gap of 3
    and 0.3 beyond, and more than one level above 0.8; a junior job against
    a senior requirement scores 0.5499999999999999. *)
Theorem scoreSeniorityMatch_scale
    (job : NormalizedJob) (requirements : JobRequirements) (jobLevel reqLevel : Level) :
  job_level job = Some (levelName jobLevel) ->
  req_seniority requirements = levelName reqLevel ->
  let gap := (levelRank reqLevel - levelRank jobLevel)%Z in
  let score := scoreSeniorityMatchDouble job requirements in
  (gap = 0%Z -> score = 1.0%float) /\
  (gap = (-1)%Z -> score = 0.9%float) /\
  (gap = 1%Z -> score = 0.7%float) /\
  ((1 < gap)%Z ->
   score = mathMaxDouble 0.3%float
             (PrimFloat.sub 0.7%float (PrimFloat.mul (doubleOfZ (gap - 1)) 0.15%float))) /\
  (gap = 2%Z -> score = 0.5499999999999999%float) /\
  (gap = 3%Z -> score = 0.39999999999999997%float) /\
  ((3 < gap)%Z -> score = 0.3%float) /\
  ((gap < -1)%Z -> score = 0.8%float) /\
  (jobLevel = Junior -> reqLevel = Senior -> score = 0.5499999999999999%float).
Proof.
  intros Hjob Hreq gap score. subst gap score.
  unfold scoreSeniorityMatchDouble. rewrite Hjob, Hreq.
  rewrite !indexOf_levelName.
  destruct jobLevel, reqLevel; cbn [levelRank];
    repeat split; intros; try lia; try discriminate; vm_compute; reflexivity.
Qed.

Lemma scoreSeniorityMatch_scale_witness :
  scoreSeniorityMatchDouble (Sample.job (Some "junior"%string) None [] None)
    Sample.requirements
  = 0.5499999999999999%float.
Proof.
  apply (scoreSeniorityMatch_scale
           (Sample.job (Some "junior"%string) None [] None) Sample.requirements
           Junior Senior); reflexivity.
Defined.

(** C5, as the claim words it, fails in the last digit: a junior job
    against a senior requirement scores [0.7 - 1 * 0.15] in doubles, which
    is 0.5499999999999999 and lies below the double 0.55. *)
Lemma scoreSeniorityMatch_junior_senior_below_055 :
  job_level (Sample.job (Some "junior"%string) None [] None) = Some "junior"%string /\
  req_seniority Sample.requirements = "senior"%string /\
  scoreSeniorityMatchDouble (Sample.job (Some "junior"%string) None [] None)
    Sample.requirements <> 0.55%float /\
  PrimFloat.ltb
    (scoreSeniorityMatchDouble (Sample.job (Some "junior"%string) None [] None)
       Sample.requirements)
    0.55%float = true.
Proof.
  split; [reflexivity | split; [reflexivity | split]].
  - vm_compute. discriminate.
  - vm_compute. reflexivity.
Qed.

(* ----------------------------------------------------------------- *)
(** ** Recency *)



(** An end date that does not start with a number has no year: the recency
    score and the total are [NaN]. *)
Example scoreRecency_of_present :
  let job := Sample.job None (Some "Present"%string) [] None in
  getJobEndYear 2026 job = None /\
  scoreRecency 2026 job DEFAULT_MATCH_CONFIG = None /\
  totalScore (scoreJob 2026 job Sample.requirements DEFAULT_MATCH_CONFIG) = None.
Proof. repeat split. Qed.

(* ----------------------------------------------------------------- *)
(** ** Relevance weights *)

Lemma addWeight_nonZero (o : option Q) (acc : Q * nat) :
  addWeight (nonZero o) acc = addWeight o acc.
Proof.
  destruct o as [q |]; simpl; [| reflexivity].
  destruct (Qeq_bool q 0) eqn:E; simpl; rewrite ?E; reflexivity.
Qed.

Lemma addWeight_zeroOrAbsent (o : option Q) (acc : Q * nat) :
  zeroOrAbsent o -> addWeight o acc = acc.
Proof.
  destruct o as [q |]; simpl; [| reflexivity].
  intros Hz. apply Qeq_bool_iff in Hz. rewrite Hz. reflexivity.
Qed.

(** The accumulation of [scoreRelevanceWeights], as a fold over the
    applicable weights. *)
Definition accumulate (ws : list (option Q)) (acc : Q * nat) : Q * nat :=
  fold_left (fun acc w => addWeight w acc) ws acc.

Lemma scoreRelevanceWeights_accumulate
    (job : NormalizedJob) (requirements : JobRequirements) (w : RelevanceWeights) :
  job_relevanceWeights job = Some w ->
  scoreRelevanceWeights job requirements =
  let (score, factors) := accumulate (applicableWeights w requirements) (0, 0%nat) in
  if (factors =? 0)%nat then 0.5 else score / inject_Z (Z.of_nat factors).
Proof.
  intros Hw. unfold scoreRelevanceWeights. rewrite Hw.
  unfold applicableWeights, mobileRole, leadershipRole, startupRole, enterpriseRole,
    accumulate.
  destruct (existsb _ (req_requiredTechnologies requirements));
    destruct (req_leadershipRequired requirements
              || String.eqb (req_seniority requirements) "lead"
              || String.eqb (req_seniority requirements) "manager");
    destruct (optEq (req_companyType requirements) "startup"
              || optEq (req_companyType requirements) "scaleup");
    destruct (optEq (req_companyType requirements) "enterprise"
              || optEq (req_companyType requirements) "faang");
    reflexivity.
Qed.

Lemma accumulate_spec (ws : list (option Q)) (s : Q) (n : nat) :
  fst (accumulate ws (s, n)) == s + Qsum (nonZeroWeights ws) /\
  snd (accumulate ws (s, n)) = (n + List.length (nonZeroWeights ws))%nat.
Proof.
  revert s n. induction ws as [| o ws IH]; intros s n.
  - simpl. split; [lra | lia].
  - unfold accumulate in *. simpl fold_left.
    destruct o as [q |]; simpl addWeight.
    + destruct (Qeq_bool q 0) eqn:E.
      * simpl nonZeroWeights. rewrite E. simpl. apply IH.
      * destruct (IH (s + q) (S n)) as [IHs IHn].
        simpl nonZeroWeights. rewrite E.
        change ([q] ++ nonZeroWeights ws)%list with (q :: nonZeroWeights ws).
        simpl Qsum. simpl List.length. split.
        -- rewrite IHs. unfold Qsum. lra.
        -- rewrite IHn. lia.
    + simpl nonZeroWeights. apply IH.
Qed.

Lemma accumulate_zeroOrAbsent (ws : list (option Q)) (acc : Q * nat) :
  Forall zeroOrAbsent ws -> accumulate ws acc = acc.
Proof.
  intros H. revert acc. induction H as [| o ws Ho _ IH]; intros acc.
  - reflexivity.
  - unfold accumulate in *. simpl. rewrite (addWeight_zeroOrAbsent o acc Ho). apply IH.
Qed.

(** C10. In [scoreRelevanceWeights] an applicable weight of exactly 0 is
    treated as absent: the result is the average of the applicable weights
    that are present and not zero (0.5 if there is none), it does not change
    when the zero weights are removed from the record, and it is the neutral
    0.5, not 0, when every applicable weight is zero or absent. *)
Theorem scoreRelevanceWeights_zero_weight_is_absent
    (job : NormalizedJob) (requirements : JobRequirements) (w : RelevanceWeights) :
  job_relevanceWeights job = Some w ->
  scoreRelevanceWeights job requirements
  == averageOrNeutral (nonZeroWeights (applicableWeights w requirements)) /\
  (forall job', job_relevanceWeights job' = Some (withoutZeros w) ->
                scoreRelevanceWeights job' requirements =
                scoreRelevanceWeights job requirements) /\
  (Forall zeroOrAbsent (applicableWeights w requirements) ->
   scoreRelevanceWeights job requirements = 0.5).
Proof.
  intros Hw. repeat split.
  - rewrite (scoreRelevanceWeights_accumulate job requirements w Hw).
    destruct (accumulate_spec (applicableWeights w requirements) 0 0) as [Hs Hn].
    destruct (accumulate (applicableWeights w requirements) (0, 0%nat)) as [score factors].
    simpl in Hs, Hn. subst factors.
    destruct (nonZeroWeights (applicableWeights w requirements)) as [| q rest] eqn:E.
    + reflexivity.
    + cbn [List.length Nat.eqb averageOrNeutral].
      rewrite Hs. unfold Qlen. cbn [List.length].
      apply Qdiv_comp; [lra | reflexivity].
  - intros job' Hw'.
    unfold scoreRelevanceWeights. rewrite Hw, Hw'. cbn [withoutZeros rw_mobile rw_leadership
      rw_startup rw_enterprise].
    rewrite !addWeight_nonZero. reflexivity.
  - intros Hzero.
    rewrite (scoreRelevanceWeights_accumulate job requirements w Hw).
    rewrite (accumulate_zeroOrAbsent _ _ Hzero). reflexivity.
Qed.

Lemma scoreRelevanceWeights_zero_weight_is_absent_witness :
  scoreRelevanceWeights
    (Sample.job None None [] (Some (Sample.relevance (Some 0) None)))
    (Sample.requiring "senior" ["Swift"%string]) = 0.5.
Proof.
  apply (scoreRelevanceWeights_zero_weight_is_absent
           (Sample.job None None [] (Some (Sample.relevance (Some 0) None)))
           (Sample.requiring "senior" ["Swift"%string])
           (Sample.relevance (Some 0) None)).
  - reflexivity.
  - vm_compute. repeat constructor.
Defined.

(* ----------------------------------------------------------------- *)
(** ** Score bounds *)

(** Case analysis on the innermost scrutinee of the goal. *)
Ltac break_match :=
  match goal with
  | |- context [match ?x with _ => _ end] =>
      lazymatch x with
      | context [match _ with _ => _ end] => fail
      | _ => destruct x eqn:?
      end
  end.

Lemma findMatchingTechs_fold_lengths (candidates required : list string) (acc : MatchingTechs) :
  let step :=
    fun acc required =>
      let found := existsb (fun c => techMatches c required) candidates in
      if found
      then {| matched := matched acc ++ [normalizeTechName required]; missing := missing acc |}
      else {| matched := matched acc; missing := missing acc ++ [normalizeTechName required] |} in
  (List.length (matched (fold_left step required acc)) +
   List.length (missing (fold_left step required acc)) =
   List.length (matched acc) + List.length (missing acc) + List.length required)%nat.
Proof.
  intros step. revert acc. induction required as [| r rest IH]; intros acc.
  - simpl. lia.
  - simpl fold_left. rewrite IH. unfold step at 1 2.
    destruct (existsb _ candidates); simpl; rewrite length_app; simpl; lia.
Qed.

Lemma findMatchingTechs_matched_le (candidates required : list string) :
  (List.length (matched (findMatchingTechs candidates required)) <= List.length required)%nat.
Proof.
  pose proof (findMatchingTechs_fold_lengths candidates required
                {| matched := []; missing := [] |}) as H.
  unfold findMatchingTechs. simpl in H. lia.
Qed.

Lemma matched_ratio_unit (candidates required : list string) :
  (0 < List.length required)%nat ->
  0 <= Qlen (matched (findMatchingTechs candidates required)) / Qlen required <= 1.
Proof.
  intros Hpos. rewrite !Qlen_Qnat.
  apply ratio_unit; [apply findMatchingTechs_matched_le | exact Hpos].
Qed.

Lemma scoreTechnologyMatch_unit (job : NormalizedJob) (requirements : JobRequirements) :
  inUnit (scoreTechnologyMatch job requirements).
Proof.
  unfold scoreTechnologyMatch, inUnit.
  set (allRequired := (req_requiredTechnologies requirements ++ _)%list).
  destruct (List.length allRequired =? 0)%nat eqn:Hzero.
  - lra.
  - apply Nat.eqb_neq in Hzero.
    assert (Hpos : (0 < List.length allRequired)%nat) by lia.
    pose proof (matched_ratio_unit (job_technologies job) allRequired Hpos) as Hbase.
    apply mathMin_unit.
    destruct (0 <? List.length (req_preferredTechnologies requirements))%nat eqn:Hpref.
    + apply Nat.ltb_lt in Hpref.
      pose proof (matched_ratio_unit (job_technologies job)
                    (req_preferredTechnologies requirements) Hpref) as Hbonus.
      lra.
    + lra.
Qed.








Lemma weighted_term (s w : Q) : inUnit s -> 0 <= w -> 0 <= s * w <= w.
Proof.
  unfold inUnit. intros [Hs0 Hs1] Hw. split.
  - apply Qmult_le_0_compat; assumption.
  - setoid_replace w with (1 * w) at 2 by ring.
    apply Qmult_le_compat_r; assumption.
Qed.

Lemma Qlen_nonneg {A} (l : list A) : 0 <= Qlen l.
Proof. apply Qnat_nonneg. Qed.

(** Puts in the context that the lengths of the goal are not negative. *)
Ltac qlen_facts :=
  repeat match goal with
         | |- context [Qlen ?l] =>
             lazymatch goal with
             | _ : 0 <= Qlen l |- _ => fail
             | _ => pose proof (Qlen_nonneg l)
             end
         end.

(** Runs through the branches of a scorer that starts from a base score and
    adds bonuses. *)
Ltac score_cases := repeat (cbv beta iota zeta; break_match).





(** In exact arithmetic a weighted sum of numbers of [0,1], with weights
    that are not negative and sum to 1, lies in [0,1]. *)
Lemma weighted_sum_unit (t d s r rel : Q) (w : Weights) :
  inUnit t -> inUnit d -> inUnit s -> inUnit r -> inUnit rel ->
  weightsNonNegative w -> weightsSumToOne w ->
  inUnit (t * w_technology w + d * w_domain w + s * w_seniority w
          + r * w_recency w + rel * w_relevance w).
Proof.
  intros Ht Hd Hs Hr Hrel (Hw1 & Hw2 & Hw3 & Hw4 & Hw5) Hsum.
  unfold weightsSumToOne in Hsum.
  pose proof (weighted_term _ _ Ht Hw1).
  pose proof (weighted_term _ _ Hd Hw2).
  pose proof (weighted_term _ _ Hs Hw3).
  pose proof (weighted_term _ _ Hr Hw4).
  pose proof (weighted_term _ _ Hrel Hw5).
  unfold inUnit. lra.
Qed.

(** The code adds doubles, and nothing caps the total: with the weights
    0.05, 0.1, 0.45, 0.3 and 0.1, which are not negative, and five
    sub-scores of 1 the total is 1.0000000000000002. *)
Lemma composite_above_one_in_doubles :
  weightedTotalDouble 1 1 1 1 1 0.05 0.1 0.45 0.3 0.1 = 1.0000000000000002%float /\
  PrimFloat.ltb 1 (weightedTotalDouble 1 1 1 1 1 0.05 0.1 0.45 0.3 0.1) = true.
Proof. split; vm_compute; reflexivity. Qed.




(* ----------------------------------------------------------------- *)
(** ** Technology coverage *)

(** With no required and no preferred technology the two ratios are 0/1,
    not 1. *)
Lemma coverage_without_technologies
    (skills : SkillsData) (jobs : list NormalizedJob) (requirements : JobRequirements) :
  req_requiredTechnologies requirements = [] ->
  req_preferredTechnologies requirements = [] ->
  coveragePercent (analyzeTechnologyCoverage skills jobs requirements) = 0%Z.
Proof.
  intros Hreq Hpref. unfold analyzeTechnologyCoverage.
  rewrite Hreq, Hpref. reflexivity.
Qed.

(** The coverage the orchestrator returns is the one of
    [analyzeTechnologyCoverage] on the normalized jobs. *)
Lemma matchAgainstRequirements_coverage
    (now : Z) (jobs : list Job) (skills : SkillsData) (requirements : JobRequirements)
    (options : MatchOptions) (result : MatchResult) :
  matchAgainstRequirements now jobs skills requirements options = Ok result ->
  exists normalizedJobs,
    mapM normalizeJob jobs = Ok normalizedJobs /\
    technologyCoverage result = analyzeTechnologyCoverage skills normalizedJobs requirements.
Proof.
  unfold matchAgainstRequirements, bind.
  destruct (mapM normalizeJob jobs) as [normalizedJobs | e]; [| discriminate].
  intros H. injection H as <-. exists normalizedJobs. split; reflexivity.
Qed.

Lemma matchAgainstRequirements_empty_requirements
    (now : Z) (jobs : list Job) (skills : SkillsData) (requirements : JobRequirements)
    (options : MatchOptions) (result : MatchResult) :
  req_requiredTechnologies requirements = [] ->
  req_preferredTechnologies requirements = [] ->
  matchAgainstRequirements now jobs skills requirements options = Ok result ->
  coveragePercent (technologyCoverage result) = 0%Z /\ overallFit (summary result) = weak.
Proof.
  intros Hreq Hpref Hrun.
  pose proof Hrun as Hcov.
  apply matchAgainstRequirements_coverage in Hcov. destruct Hcov as (njs & Hnjs & Hcov).
  assert (Hzero : coveragePercent (technologyCoverage result) = 0%Z).
  { rewrite Hcov. apply coverage_without_technologies; assumption. }
  split; [exact Hzero |].
  unfold matchAgainstRequirements, bind in Hrun. rewrite Hnjs in Hrun.
  injection Hrun as <-.
  cbv beta iota zeta delta [summary generateMatchSummary overallFit
                            analyzeTechnologyCoverage coveragePercent].
  rewrite Hreq, Hpref. reflexivity.
Qed.

(** The sibling [calculateTechCoverage] does take an empty list as fully
    covered. *)
Lemma calculateTechCoverage_empty_requirements (candidateTechs : list string) :
  overallCoverage (calculateTechCoverage candidateTechs [] []) == 1.
Proof. reflexivity. Qed.

(** So does [meetsMinimumRequirements] for an empty required list. *)
Lemma meetsMinimumRequirements_empty_requirements
    (jobs : list Job) (requirements : JobRequirements) (minCoveragePercent : Z)
    (normalizedJobs : list NormalizedJob) :
  req_requiredTechnologies requirements = [] ->
  mapM normalizeJob jobs = Ok normalizedJobs ->
  exists result,
    meetsMinimumRequirements jobs requirements minCoveragePercent = Ok result /\
    mr_coveragePercent result = 100%Z.
Proof.
  intros Hreq Hjobs. unfold meetsMinimumRequirements, bind.
  rewrite Hjobs, Hreq. eexists. split; reflexivity.
Qed.

(** C1 fails on the code: with no required and no preferred technology
    [analyzeTechnologyCoverage] reports a coverage of 0 percent, not 100,
    whatever the skills and the jobs, and so does the result of the
    orchestrator, whose summary then calls the fit weak. *)
Theorem analyzeTechnologyCoverage_empty_requirements
    (skills : SkillsData) (jobs : list NormalizedJob) (requirements : JobRequirements) :
  req_requiredTechnologies requirements = [] ->
  req_preferredTechnologies requirements = [] ->
  coveragePercent (analyzeTechnologyCoverage skills jobs requirements) = 0%Z /\
  (forall now rawJobs options result,
     matchAgainstRequirements now rawJobs skills requirements options = Ok result ->
     coveragePercent (technologyCoverage result) = 0%Z /\
     overallFit (summary result) = weak).
Proof.
  intros Hreq Hpref. split.
  - apply coverage_without_technologies; assumption.
  - intros now rawJobs options result Hrun.
    apply (matchAgainstRequirements_empty_requirements now rawJobs skills requirements
             options result Hreq Hpref Hrun).
Qed.

Lemma analyzeTechnologyCoverage_empty_requirements_witness :
  coveragePercent (analyzeTechnologyCoverage Sample.skills [] Sample.requirements) = 0%Z.
Proof.
  apply (analyzeTechnologyCoverage_empty_requirements Sample.skills [] Sample.requirements);
    reflexivity.
Defined.

(** A job that covers the only required technology, with no preferred
    technology: 70 percent. *)
Example coverage_with_no_preferred_technology :
  coveragePercent
    (analyzeTechnologyCoverage Sample.skills [Sample.swiftJob] Sample.swiftRequirements)
  = 70%Z.
Proof. reflexivity. Qed.

(** The orchestrator run on no job, no skill and empty requirements. *)
Example matchAgainstRequirements_on_nothing :
  exists result,
    matchAgainstRequirements 2026 [] Sample.skills Sample.requirements noOptions = Ok result /\
    coveragePercent (technologyCoverage result) = 0%Z /\
    overallFit (summary result) = weak /\
    selectedSkills result = [].
Proof. eexists. repeat split. Qed.

Lemma find_app {A} (f : A -> bool) (l l' : list A) :
  find f (l ++ l') = match find f l with Some x => Some x | None => find f l' end.
Proof.
  induction l as [| a l IH]; simpl; [reflexivity |].
  destruct (f a); [reflexivity | exact IH].
Qed.

(** A technology covered with some jobs stays covered with one more. *)
Lemma coverageOf_more_jobs
    (matchedSkills : list Skill) (jobs : list NormalizedJob) (job : NormalizedJob) (t : string) :
  covered (coverageOf matchedSkills jobs t) = true ->
  covered (coverageOf matchedSkills (jobs ++ [job]) t) = true.
Proof.
  unfold coverageOf.
  destruct (find _ matchedSkills); [reflexivity |].
  rewrite find_app.
  destruct (find _ jobs); [reflexivity |].
  simpl. discriminate.
Qed.

Lemma covered_count_mono (f g : string -> Coverage) (techs : list string) :
  (forall t, covered (f t) = true -> covered (g t) = true) ->
  (List.length (filter covered (map f techs)) <=
   List.length (filter covered (map g techs)))%nat.
Proof.
  intros Hfg. induction techs as [| t rest IH]; simpl; [lia |].
  destruct (covered (f t)) eqn:Hf.
  - rewrite (Hfg t Hf). simpl. lia.
  - destruct (covered (g t)); simpl; lia.
Qed.

Lemma ratio_mono (a b total : nat) :
  (a <= b)%nat -> Qnat a / Qnat (orOne total) <= Qnat b / Qnat (orOne total).
Proof.
  intros Hab.
  assert (Hpos : 0 < Qnat (orOne total)).
  { apply Qnat_pos. unfold orOne. destruct (total =? 0)%nat eqn:E; [lia |].
    apply Nat.eqb_neq in E. lia. }
  unfold Qdiv. apply Qmult_le_compat_r.
  - apply Qnat_le. exact Hab.
  - apply Qlt_le_weak. apply Qinv_lt_0_compat. exact Hpos.
Qed.

Lemma mathRound_mono (x y : Q) : x <= y -> (mathRound x <= mathRound y)%Z.
Proof. intros H. unfold mathRound. apply Qfloor_resp_le. lra. Qed.

(** C6. Appending a job to the job list never decreases the coverage
    percentage returned by [analyzeTechnologyCoverage]. *)
Theorem coveragePercent_monotone_in_jobs
    (skills : SkillsData) (jobs : list NormalizedJob) (job : NormalizedJob)
    (requirements : JobRequirements) :
  (coveragePercent (analyzeTechnologyCoverage skills jobs requirements) <=
   coveragePercent (analyzeTechnologyCoverage skills (jobs ++ [job]) requirements))%Z.
Proof.
  unfold analyzeTechnologyCoverage. cbv zeta. cbn [coveragePercent].
  set (found := findMatchingSkills skills _ _).
  apply mathRound_mono.
  rewrite !length_map.
  pose proof (covered_count_mono
                (coverageOf (ms_required found) jobs)
                (coverageOf (ms_required found) (jobs ++ [job]))
                (req_requiredTechnologies requirements)
                (coverageOf_more_jobs (ms_required found) jobs job)) as Hreq.
  pose proof (covered_count_mono
                (coverageOf (ms_preferred found) jobs)
                (coverageOf (ms_preferred found) (jobs ++ [job]))
                (req_preferredTechnologies requirements)
                (coverageOf_more_jobs (ms_preferred found) jobs job)) as Hpref.
  pose proof (ratio_mono _ _ (List.length (req_requiredTechnologies requirements)) Hreq).
  pose proof (ratio_mono _ _ (List.length (req_preferredTechnologies requirements)) Hpref).
  lra.
Qed.

(* ----------------------------------------------------------------- *)
(** ** Sorting *)

Section SortFacts.
Context {A : Type} (compare : A -> A -> Q).
(** [P] holds of the elements that are sorted, [R] is the order the
    comparator stands for on them. *)
Variables (P : A -> Prop) (R : A -> A -> Prop).
Hypothesis after_true : forall x y, P x -> P y -> after compare x y = true -> R y x.
Hypothesis after_false : forall x y, P x -> P y -> after compare x y = false -> R x y.
Hypothesis R_trans : forall x y z, R x y -> R y z -> R x z.

Lemma insertSorted_In (x z : A) (l : list A) :
  In z (insertSorted compare x l) <-> z = x \/ In z l.
Proof.
  induction l as [| y rest IH]; simpl.
  - intuition.
  - destruct (after compare x y); simpl; rewrite ?IH; intuition.
Qed.

Lemma insertSorted_length (x : A) (l : list A) :
  List.length (insertSorted compare x l) = S (List.length l).
Proof.
  induction l as [| y rest IH]; simpl; [reflexivity |].
  destruct (after compare x y); simpl; [rewrite IH |]; reflexivity.
Qed.

Lemma jsSort_In (z : A) (l : list A) : In z (jsSort compare l) <-> In z l.
Proof.
  induction l as [| x rest IH]; simpl; [reflexivity |].
  rewrite insertSorted_In, IH. intuition.
Qed.

Lemma jsSort_length (l : list A) : List.length (jsSort compare l) = List.length l.
Proof.
  induction l as [| x rest IH]; simpl; [reflexivity |].
  rewrite insertSorted_length, IH. reflexivity.
Qed.

Lemma insertSorted_Permutation (x : A) (l : list A) :
  Permutation (x :: l) (insertSorted compare x l).
Proof.
  induction l as [| y rest IH]; simpl; [reflexivity |].
  destruct (after compare x y); [| reflexivity].
  rewrite perm_swap. apply perm_skip. exact IH.
Qed.

Lemma jsSort_Permutation (l : list A) : Permutation l (jsSort compare l).
Proof.
  induction l as [| x rest IH]; simpl; [reflexivity |].
  rewrite <- insertSorted_Permutation. apply perm_skip. exact IH.
Qed.

Lemma insertSorted_sorted (x : A) (l : list A) :
  P x -> Forall P l -> StronglySorted R l -> StronglySorted R (insertSorted compare x l).
Proof.
  intros Hx Hl Hsorted. induction Hsorted as [| y rest Hrest IH Hy]; simpl.
  - repeat constructor.
  - inversion Hl as [| ? ? Py Prest]; subst.
    destruct (after compare x y) eqn:E.
    + constructor; [apply IH; exact Prest |].
      apply Forall_forall. intros z Hz. apply (proj1 (insertSorted_In x z rest)) in Hz.
      destruct Hz as [-> | Hz].
      * apply after_true; assumption.
      * rewrite Forall_forall in Hy. apply Hy. exact Hz.
    + constructor; [constructor; assumption |].
      pose proof (after_false x y Hx Py E) as Hxy.
      constructor; [exact Hxy |].
      apply Forall_forall. intros z Hz. rewrite Forall_forall in Hy.
      apply (R_trans x y z Hxy). apply Hy. exact Hz.
Qed.

Lemma jsSort_sorted (l : list A) : Forall P l -> StronglySorted R (jsSort compare l).
Proof.
  intros Hl. induction Hl as [| x rest Hx Hrest IH]; simpl.
  - constructor.
  - apply insertSorted_sorted; [exact Hx | | exact IH].
    apply Forall_forall. intros z Hz. apply (proj1 (jsSort_In z rest)) in Hz.
    rewrite Forall_forall in Hrest. apply Hrest. exact Hz.
Qed.
End SortFacts.

Lemma In_firstn {A} (n : nat) (l : list A) (z : A) : In z (firstn n l) -> In z l.
Proof.
  revert n. induction l as [| x rest IH]; intros n Hz.
  - rewrite firstn_nil in Hz. exact Hz.
  - destruct n as [| n]; simpl in Hz; [contradiction |].
    destruct Hz as [-> | Hz]; [left; reflexivity | right; apply (IH n Hz)].
Qed.

Lemma firstn_StronglySorted {A} (R : A -> A -> Prop) (n : nat) (l : list A) :
  StronglySorted R l -> StronglySorted R (firstn n l).
Proof.
  intros Hsorted. revert n. induction Hsorted as [| x rest Hrest IH Hx]; intros n.
  - rewrite firstn_nil. constructor.
  - destruct n as [| n]; simpl; [constructor |].
    constructor; [apply IH |].
    apply Forall_forall. intros z Hz. rewrite Forall_forall in Hx.
    apply Hx. apply (In_firstn n rest z Hz).
Qed.


(** The length of what the selectors return: [slice(0, count)] of a sorted
    array at least as long as the minimum. *)
Lemma selection_length {A} (keep : A -> bool) (sorted : list A) (minToShow maxToShow : nat) :
  (minToShow <= maxToShow)%nat ->
  (minToShow <= List.length sorted)%nat ->
  let count := Nat.min (Nat.max minToShow (List.length (filter keep sorted))) maxToShow in
  (minToShow <= List.length (slice0 count sorted) <= maxToShow)%nat.
Proof.
  intros Hminmax Hpool count. subst count. unfold slice0.
  rewrite length_firstn.
  pose proof (filter_length_le keep sorted) as Hkeep.
  lia.
Qed.

(* ----------------------------------------------------------------- *)
(** ** Selector bounds *)

Lemma after_descending {A} (score : A -> Q) (x y : A) :
  (after (fun a b => score b - score a) x y = true -> score x <= score y) /\
  (after (fun a b => score b - score a) x y = false -> score y <= score x).
Proof.
  unfold after. split; intros H.
  - apply negb_true_iff in H. apply Qle_bool_false in H. lra.
  - apply negb_false_iff in H. apply Qle_bool_true in H. lra.
Qed.

Lemma jsSort_descending {A} (score : A -> Q) (l : list A) :
  StronglySorted (fun a b => score b <= score a)
                 (jsSort (fun a b => score b - score a) l).
Proof.
  apply (jsSort_sorted _ (fun _ => True)).
  - intros x y _ _. apply (after_descending score x y).
  - intros x y _ _. apply (after_descending score x y).
  - intros x y z Hxy Hyz. lra.
  - apply Forall_forall. intros; exact I.
Qed.

Lemma allScoredProjects_length (jobs : list NormalizedJob) (requirements : JobRequirements) :
  List.length (allScoredProjects jobs requirements) = List.length (projectPool jobs).
Proof.
  unfold allScoredProjects, projectPool.
  induction jobs as [| job rest IH]; simpl; [reflexivity |].
  rewrite !length_app, length_map, IH. reflexivity.
Qed.

Lemma allScoredAchievements_length (jobs : list NormalizedJob) (requirements : JobRequirements) :
  List.length (allScoredAchievements jobs requirements) = List.length (achievementPool jobs).
Proof.
  unfold allScoredAchievements, achievementPool.
  induction jobs as [| job rest IH]; simpl; [reflexivity |].
  rewrite !length_app, length_map, IH. reflexivity.
Qed.

Lemma selectProjects_bounded_sorted
    (jobs : list NormalizedJob) (requirements : JobRequirements) (config : MatchConfig) :
  (minProjectsToShow config <= maxProjectsToShow config)%nat ->
  (minProjectsToShow config <= List.length (projectPool jobs))%nat ->
  (minProjectsToShow config
   <= List.length (selectProjects jobs requirements config)
   <= maxProjectsToShow config)%nat /\
  StronglySorted (fun a b => sp_score b <= sp_score a)
                 (selectProjects jobs requirements config).
Proof.
  intros Hminmax Hpool. unfold selectProjects. cbv zeta. split.
  - apply selection_length; [exact Hminmax |].
    rewrite jsSort_length, allScoredProjects_length. exact Hpool.
  - apply firstn_StronglySorted. apply jsSort_descending.
Qed.

Lemma selectAchievements_bounded_sorted
    (jobs : list NormalizedJob) (requirements : JobRequirements) (config : MatchConfig) :
  (minAchievementsToShow config <= maxAchievementsToShow config)%nat ->
  (minAchievementsToShow config <= List.length (achievementPool jobs))%nat ->
  (minAchievementsToShow config
   <= List.length (selectAchievements jobs requirements config)
   <= maxAchievementsToShow config)%nat /\
  StronglySorted (fun a b => sa_score b <= sa_score a)
                 (selectAchievements jobs requirements config).
Proof.
  intros Hminmax Hpool. unfold selectAchievements. cbv zeta. split.
  - apply selection_length; [exact Hminmax |].
    rewrite jsSort_length, allScoredAchievements_length. exact Hpool.
  - apply firstn_StronglySorted. apply jsSort_descending.
Qed.

(** [findMatchingSkills] splits the inventory with three filters. *)
Lemma findMatchingSkills_fold
    (requiredTechs preferredTechs : list string) (inventory : list Skill) (acc : MatchingSkills) :
  let matchesRequired := fun skill => existsb (skillMatchesTech skill) requiredTechs in
  let matchesPreferred := fun skill => existsb (skillMatchesTech skill) preferredTechs in
  let step :=
    fun acc skill =>
      if matchesRequired skill then
        {| ms_required := ms_required acc ++ [skill];
           ms_preferred := ms_preferred acc; ms_other := ms_other acc |}
      else if matchesPreferred skill then
        {| ms_required := ms_required acc;
           ms_preferred := ms_preferred acc ++ [skill]; ms_other := ms_other acc |}
      else
        {| ms_required := ms_required acc;
           ms_preferred := ms_preferred acc; ms_other := ms_other acc ++ [skill] |} in
  let result := fold_left step inventory acc in
  ms_required result = (ms_required acc ++ filter matchesRequired inventory)%list /\
  ms_preferred result =
    (ms_preferred acc ++
     filter (fun s => negb (matchesRequired s) && matchesPreferred s) inventory)%list /\
  ms_other result =
    (ms_other acc ++
     filter (fun s => negb (matchesRequired s) && negb (matchesPreferred s)) inventory)%list.
Proof.
  intros matchesRequired matchesPreferred step. cbv zeta.
  revert acc. induction inventory as [| skill rest IH]; intros acc.
  - simpl. rewrite !app_nil_r. auto.
  - simpl fold_left. destruct (IH (step acc skill)) as (Hr & Hp & Ho).
    rewrite Hr, Hp, Ho. unfold step. simpl filter.
    destruct (matchesRequired skill); [| destruct (matchesPreferred skill)];
      simpl; rewrite <- ?app_assoc; auto.
Qed.

Lemma scoredSkillCandidates_length
    (now : Z) (skills : SkillsData) (requirements : JobRequirements) :
  List.length (scoredSkillCandidates now skills requirements) =
  List.length (skillPool skills requirements).
Proof.
  unfold scoredSkillCandidates, skillPool, findMatchingSkills. cbv zeta.
  destruct (findMatchingSkills_fold
              (req_requiredTechnologies requirements)
              (req_preferredTechnologies requirements)
              (getAllSkills skills)
              {| ms_required := []; ms_preferred := []; ms_other := [] |})
    as (Hr & Hp & Ho).
  cbv zeta in Hr, Hp, Ho. rewrite Hr, Hp, Ho. clear Hr Hp Ho.
  cbn [ms_required ms_preferred ms_other app].
  rewrite !length_app, !length_map.
  unfold eligibleSkill.
  induction (getAllSkills skills) as [| skill rest IH]; [reflexivity |].
  cbn [filter].
  destruct (existsb (skillMatchesTech skill) (req_requiredTechnologies requirements));
    destruct (existsb (skillMatchesTech skill) (req_preferredTechnologies requirements));
    cbn [negb andb orb List.length flat_map]; rewrite ?length_app;
    destruct (isDeprecated (skill_name skill) skills);
    destruct (isFeatured (skill_name skill) skills
              || String.eqb (skill_level skill) "expert"
              || skill_wantToUse skill);
    cbn [negb andb orb List.length]; lia.
Qed.

(** No candidate of [selectSkills] is both required and preferred. *)
Definition oneClass (s : ScoredSkill) : Prop := isRequired s && isPreferred s = false.

Lemma scoredSkillCandidates_oneClass
    (now : Z) (skills : SkillsData) (requirements : JobRequirements) :
  Forall oneClass (scoredSkillCandidates now skills requirements).
Proof.
  unfold scoredSkillCandidates. cbv zeta.
  apply Forall_app; split; [| apply Forall_app; split].
  - apply Forall_forall. intros s Hs. apply in_map_iff in Hs.
    destruct Hs as (skill & <- & _). reflexivity.
  - apply Forall_forall. intros s Hs. apply in_map_iff in Hs.
    destruct Hs as (skill & <- & _). reflexivity.
  - apply Forall_forall. intros s Hs. apply in_flat_map in Hs.
    destruct Hs as (skill & _ & Hs).
    destruct (isDeprecated (skill_name skill) skills); [contradiction |].
    destruct (isFeatured (skill_name skill) skills
              || String.eqb (skill_level skill) "expert"
              || skill_wantToUse skill); [| contradiction].
    destruct Hs as [<- | []]. reflexivity.
Qed.

Lemma compareSkills_after (x y : ScoredSkill) :
  oneClass x -> oneClass y ->
  (after compareSkills x y = true -> skillOrder y x) /\
  (after compareSkills x y = false -> skillOrder x y).
Proof.
  unfold oneClass, after, compareSkills, skillOrder, skillClass.
  destruct (isRequired x), (isPreferred x), (isRequired y), (isPreferred y);
    cbn [andb negb]; intros Hx Hy; try discriminate; split; intros H.
  all: try (apply negb_true_iff in H; apply Qle_bool_false in H).
  all: try (apply negb_false_iff in H; apply Qle_bool_true in H).
  all: try (left; lia).
  all: try (right; split; [reflexivity | lra]).
  all: exfalso; lra.
Qed.

Lemma skillOrder_trans (x y z : ScoredSkill) :
  skillOrder x y -> skillOrder y z -> skillOrder x z.
Proof.
  unfold skillOrder. intros [Hxy | [Hxy Sxy]] [Hyz | [Hyz Syz]].
  - left. lia.
  - left. lia.
  - left. lia.
  - right. split; [lia | lra].
Qed.

Lemma selectSkills_bounded_sorted
    (now : Z) (skills : SkillsData) (requirements : JobRequirements) (config : MatchConfig) :
  (List.length (selectSkills now skills requirements config) <= maxSkillsToShow config)%nat /\
  StronglySorted skillOrder (selectSkills now skills requirements config) /\
  ((minSkillsToShow config <= maxSkillsToShow config)%nat ->
   ((minSkillsToShow config
     <= List.length (selectSkills now skills requirements config))%nat <->
    (minSkillsToShow config <= List.length (skillPool skills requirements))%nat)).
Proof.
  assert (Hlength :
            List.length (selectSkills now skills requirements config) =
            Nat.min
              (Nat.min
                 (Nat.max (minSkillsToShow config)
                    (List.length
                       (filter (fun s => isRequired s || isPreferred s)
                          (jsSort compareSkills
                             (scoredSkillCandidates now skills requirements)))))
                 (maxSkillsToShow config))
              (List.length (skillPool skills requirements))).
  { unfold selectSkills, slice0. cbv zeta.
    rewrite length_firstn, jsSort_length, scoredSkillCandidates_length. reflexivity. }
  pose proof (filter_length_le (fun s => isRequired s || isPreferred s)
                (jsSort compareSkills (scoredSkillCandidates now skills requirements)))
    as Hkeep.
  rewrite jsSort_length, scoredSkillCandidates_length in Hkeep.
  split; [| split].
  - rewrite Hlength. lia.
  - unfold selectSkills. cbv zeta.
    apply firstn_StronglySorted.
    apply (jsSort_sorted compareSkills oneClass skillOrder).
    + intros x y Hx Hy. apply (compareSkills_after x y Hx Hy).
    + intros x y Hx Hy. apply (compareSkills_after x y Hx Hy).
    + apply skillOrder_trans.
    + apply scoredSkillCandidates_oneClass.
  - intros Hminmax. rewrite Hlength. lia.
Qed.

(** C3, as the code has it. When the minimum to show is at most the
    maximum and the candidates are at least the minimum, [selectProjects]
    and [selectAchievements] return between the minimum and the maximum
    number of items, sorted by descending score; their candidates are all
    projects, respectively achievements, of the jobs. [selectSkills] never
    returns more than the maximum and its result is sorted, required
    before preferred before other, then by descending score; it returns at
    least the minimum exactly when that many skills of the inventory are
    eligible: they match a required or preferred technology, or they are
    not deprecated and featured, expert or wanted. The size of the
    inventory does not decide it. *)
Theorem selectors_bounded_and_sorted
    (now : Z) (jobs : list NormalizedJob) (skills : SkillsData)
    (requirements : JobRequirements) (config : MatchConfig) :
  ((minProjectsToShow config <= maxProjectsToShow config)%nat ->
   (minProjectsToShow config <= List.length (projectPool jobs))%nat ->
   (minProjectsToShow config
    <= List.length (selectProjects jobs requirements config)
    <= maxProjectsToShow config)%nat /\
   StronglySorted (fun a b => sp_score b <= sp_score a)
                  (selectProjects jobs requirements config)) /\
  ((minAchievementsToShow config <= maxAchievementsToShow config)%nat ->
   (minAchievementsToShow config <= List.length (achievementPool jobs))%nat ->
   (minAchievementsToShow config
    <= List.length (selectAchievements jobs requirements config)
    <= maxAchievementsToShow config)%nat /\
   StronglySorted (fun a b => sa_score b <= sa_score a)
                  (selectAchievements jobs requirements config)) /\
  ((List.length (selectSkills now skills requirements config)
    <= maxSkillsToShow config)%nat /\
   StronglySorted skillOrder (selectSkills now skills requirements config) /\
   ((minSkillsToShow config <= maxSkillsToShow config)%nat ->
    ((minSkillsToShow config
      <= List.length (selectSkills now skills requirements config))%nat <->
     (minSkillsToShow config
      <= List.length (filter (eligibleSkill skills requirements)
                             (getAllSkills skills)))%nat))).
Proof.
  split; [| split].
  - apply selectProjects_bounded_sorted.
  - apply selectAchievements_bounded_sorted.
  - apply selectSkills_bounded_sorted.
Qed.

Lemma selectors_bounded_and_sorted_witness :
  (1 <= List.length (selectProjects [Sample.portfolioJob] Sample.swiftRequirements
                       Sample.smallConfig) <= 2)%nat /\
  (1 <= List.length (selectAchievements [Sample.portfolioJob] Sample.swiftRequirements
                       Sample.smallConfig) <= 2)%nat /\
  (1 <= List.length (selectSkills 2026 Sample.inventory Sample.swiftRequirements
                       Sample.smallConfig) <= 2)%nat.
Proof.
  destruct (selectors_bounded_and_sorted 2026 [Sample.portfolioJob] Sample.inventory
              Sample.swiftRequirements Sample.smallConfig) as (Hp & Ha & Hmax & _ & Hmin).
  split; [| split].
  - apply Hp; vm_compute; lia.
  - apply Ha; vm_compute; lia.
  - split; [| exact Hmax].
    apply Hmin; vm_compute; lia.
Defined.

(** C3, as the claim words it, fails for skills: an inventory of eight
    skills, with the default minimum of eight and maximum of fifteen, gives
    no skill at all when none of them matches a technology or is featured,
    expert or wanted. *)
Lemma selectSkills_below_minimum_of_inventory :
  (minSkillsToShow DEFAULT_MATCH_CONFIG <= maxSkillsToShow DEFAULT_MATCH_CONFIG)%nat /\
  (minSkillsToShow DEFAULT_MATCH_CONFIG
   <= List.length (getAllSkills Sample.legacyInventory))%nat /\
  selectSkills 2026 Sample.legacyInventory Sample.swiftRequirements DEFAULT_MATCH_CONFIG = [] /\
  ~ (minSkillsToShow DEFAULT_MATCH_CONFIG
     <= List.length (selectSkills 2026 Sample.legacyInventory Sample.swiftRequirements
                       DEFAULT_MATCH_CONFIG))%nat.
Proof.
  split; [vm_compute; lia |].
  split; [vm_compute; lia |].
  split; [vm_compute; reflexivity |].
  vm_compute. lia.
Qed.

(* ----------------------------------------------------------------- *)
(** ** The job normalizer *)



(** A basic record: the company name, the start date put in YYYY-MM form,
    no end date, no level. *)
Example normalizeJob_basic :
  exists normalized,
    normalizeJob Sample.basicJob = Ok normalized /\
    job_companyName normalized = "Acme"%string /\
    job_startDate normalized = "2017-05"%string /\
    job_endDate normalized = None /\
    job_level normalized = None /\
    job_technologies normalized = ["Swift"%string].
Proof. eexists. repeat split. Qed.



(** The records of another unknown shape do get the tagged error, and the
    sample records of the two shapes are normalized. *)
Example normalizeJob_other_shapes :
  normalizeJob (Sample.rawJob (CompanyNumber 7) None None) = Throw UnknownJobFormat /\
  normalizeJob (Sample.rawJob CompanyUndefined None None) = Throw UnknownJobFormat /\
  (exists normalized, normalizeJob Sample.basicJob = Ok normalized) /\
  (exists normalized, normalizeJob Sample.enhancedJob = Ok normalized).
Proof. repeat split; eexists; reflexivity. Qed.

(* ================================================================= *)
(** * Further properties of the matcher *)

(** ** Technology names *)

Lemma lowerChar_upperChar (c : ascii) : Js.lowerChar (Js.upperChar c) = Js.lowerChar c.
Proof. destruct c as [[] [] [] [] [] [] [] []]; reflexivity. Qed.


Lemma lowerChar_idempotent (c : ascii) : Js.lowerChar (Js.lowerChar c) = Js.lowerChar c.
Proof. destruct c as [[] [] [] [] [] [] [] []]; reflexivity. Qed.

Lemma toLowerCase_idempotent (s : string) :
  Js.toLowerCase (Js.toLowerCase s) = Js.toLowerCase s.
Proof.
  unfold Js.toLowerCase. induction s as [| c r IH]; simpl; [reflexivity |].
  rewrite lowerChar_idempotent, IH. reflexivity.
Qed.

Lemma toLowerCase_capitalize (s : string) :
  Js.toLowerCase (Js.capitalize s) = Js.toLowerCase s.
Proof.
  destruct s as [| c r]; [reflexivity |].
  unfold Js.toLowerCase. simpl. rewrite lowerChar_upperChar. reflexivity.
Qed.


Lemma normalizeTechName_find (tech : string) :
  normalizeTechName tech =
  match find (aliasEntryMatches (Js.trim (Js.toLowerCase tech))) TECH_ALIASES with
  | Some (canonical, _) => canonical
  | None => Js.capitalize tech
  end.
Proof. reflexivity. Qed.



(** The lower-case form [techMatches] compares depends on the letters of
    the name only, not on their case. *)
Lemma normalized_lower_case_insensitive (a b : string) :
  Js.toLowerCase a = Js.toLowerCase b ->
  Js.toLowerCase (normalizeTechName a) = Js.toLowerCase (normalizeTechName b).
Proof.
  intros Hab. rewrite !normalizeTechName_find, Hab.
  destruct (find _ TECH_ALIASES) as [[canonical aliases] |]; [reflexivity |].
  rewrite !toLowerCase_capitalize. exact Hab.
Qed.

(** X2. [techMatches] is reflexive and symmetric, two names with the same
    canonical form match, and on ASCII names it ignores the case of the
    letters. *)
Theorem techMatches_relation (a b : string) :
  techMatches a a = true /\
  techMatches a b = techMatches b a /\
  (forall a',
      asciiOnly a = true -> asciiOnly a' = true ->
      Js.toLowerCase a = Js.toLowerCase a' -> techMatches a b = techMatches a' b) /\
  (normalizeTechName a = normalizeTechName b -> techMatches a b = true).
Proof.
  repeat split.
  - unfold techMatches. rewrite String.eqb_refl. reflexivity.
  - unfold techMatches.
    rewrite (String.eqb_sym (Js.toLowerCase (normalizeTechName a))).
    rewrite (orb_comm (Js.includes (Js.toLowerCase (normalizeTechName a)) _)).
    rewrite (String.eqb_sym (Js.filterChars _ (Js.toLowerCase (normalizeTechName a)))).
    reflexivity.
  - intros a' _ _ Ha. unfold techMatches.
    rewrite (normalized_lower_case_insensitive a a' Ha). reflexivity.
  - intros Hab. unfold techMatches. rewrite Hab, String.eqb_refl. reflexivity.
Qed.

Lemma techMatches_relation_witness :
  techMatches "SWIFT" "ios" = techMatches "swift" "ios" /\
  techMatches "postgres" "PSQL" = true.
Proof.
  destruct (techMatches_relation "SWIFT" "ios") as (_ & _ & Hcase & _).
  destruct (techMatches_relation "postgres" "PSQL") as (_ & _ & _ & Hsame).
  split.
  - apply Hcase; reflexivity.
  - apply Hsame. reflexivity.
Defined.

(** ** Matched and missing technologies *)

Lemma findMatchingTechs_fold (candidates required : list string) (acc : MatchingTechs) :
  let step :=
    fun acc required =>
      let found := existsb (fun c => techMatches c required) candidates in
      if found
      then {| matched := matched acc ++ [normalizeTechName required]; missing := missing acc |}
      else {| matched := matched acc; missing := missing acc ++ [normalizeTechName required] |} in
  matched (fold_left step required acc) =
    matched acc ++ map normalizeTechName (filter (foundAmong candidates) required) /\
  missing (fold_left step required acc) =
    missing acc ++
    map normalizeTechName (filter (fun t => negb (foundAmong candidates t)) required).
Proof.
  intros step. revert acc. induction required as [| r rest IH]; intros acc.
  - simpl. rewrite !app_nil_r. auto.
  - simpl fold_left. destruct (IH (step acc r)) as [Hm Hn]. rewrite Hm, Hn.
    unfold step, foundAmong. simpl filter.
    destruct (existsb (fun c => techMatches c r) candidates); simpl;
      rewrite <- ?app_assoc; auto.
Qed.

Lemma foundAmong_same_canonical (candidates : list string) (a b : string) :
  normalizeTechName a = normalizeTechName b ->
  foundAmong candidates a = foundAmong candidates b.
Proof.
  intros Hab. unfold foundAmong. induction candidates as [| c rest IH]; [reflexivity |].
  simpl. rewrite IH. unfold techMatches. rewrite Hab. reflexivity.
Qed.

(** X3. [findMatchingTechs] reports each required entry exactly once, under
    its canonical name and in the order of the list: as matched if some
    candidate matches it, as missing otherwise; no name is reported both
    matched and missing. *)
Theorem findMatchingTechs_partition (candidates required : list string) :
  let result := findMatchingTechs candidates required in
  matched result = map normalizeTechName (filter (foundAmong candidates) required) /\
  missing result =
    map normalizeTechName (filter (fun t => negb (foundAmong candidates t)) required) /\
  (List.length (matched result) + List.length (missing result) = List.length required)%nat /\
  (forall name, In name (matched result) -> ~ In name (missing result)).
Proof.
  cbv zeta.
  destruct (findMatchingTechs_fold candidates required {| matched := []; missing := [] |})
    as [Hm Hn].
  cbv zeta in Hm, Hn. simpl in Hm, Hn.
  unfold findMatchingTechs. rewrite Hm, Hn. repeat split.
  - rewrite !length_map. apply filter_length.
  - intros name Hin Hout.
    apply in_map_iff in Hin. destruct Hin as (a & Ha & Hina).
    apply in_map_iff in Hout. destruct Hout as (b & Hb & Hinb).
    apply filter_In in Hina. destruct Hina as [_ Hfa].
    apply filter_In in Hinb. destruct Hinb as [_ Hfb].
    rewrite (foundAmong_same_canonical candidates a b) in Hfa by congruence.
    rewrite Hfa in Hfb. discriminate.
Qed.

(** ** The three groups of skills *)

Lemma three_way_filter_Permutation {A} (f g : A -> bool) (l : list A) :
  Permutation
    (filter f l ++ filter (fun x => negb (f x) && g x) l ++
     filter (fun x => negb (f x) && negb (g x)) l)
    l.
Proof.
  induction l as [| a rest IH]; simpl; [constructor |].
  destruct (f a); simpl.
  - apply perm_skip. exact IH.
  - destruct (g a); simpl.
    + apply Permutation_sym. apply Permutation_cons_app. apply Permutation_sym. exact IH.
    + rewrite app_assoc. apply Permutation_sym. apply Permutation_cons_app.
      rewrite <- app_assoc. apply Permutation_sym. exact IH.
Qed.

(** X4. [findMatchingSkills] puts every skill of the inventory in exactly
    one group, in the order of the inventory: required if it matches a
    required technology, else preferred if it matches a preferred one, else
    other; no skill is dropped or listed twice. *)
Theorem findMatchingSkills_partition
    (skills : SkillsData) (requiredTechs preferredTechs : list string) :
  let found := findMatchingSkills skills requiredTechs preferredTechs in
  let inventory := getAllSkills skills in
  ms_required found = filter (skillMatchesAny requiredTechs) inventory /\
  ms_preferred found =
    filter (fun s => negb (skillMatchesAny requiredTechs s) && skillMatchesAny preferredTechs s)
           inventory /\
  ms_other found =
    filter (fun s => negb (skillMatchesAny requiredTechs s)
                     && negb (skillMatchesAny preferredTechs s))
           inventory /\
  Permutation (ms_required found ++ ms_preferred found ++ ms_other found) inventory.
Proof.
  cbv zeta.
  destruct (findMatchingSkills_fold requiredTechs preferredTechs (getAllSkills skills)
              {| ms_required := []; ms_preferred := []; ms_other := [] |})
    as (Hr & Hp & Ho).
  cbv zeta in Hr, Hp, Ho. simpl in Hr, Hp, Ho.
  unfold findMatchingSkills. rewrite Hr, Hp, Ho.
  repeat split.
  apply (three_way_filter_Permutation (skillMatchesAny requiredTechs)
           (skillMatchesAny preferredTechs)).
Qed.

(** ** Sets of technologies *)

Lemma arrIncludes_In (arr : list string) (x : string) :
  Js.arrIncludes arr x = true <-> In x arr.
Proof.
  unfold Js.arrIncludes. rewrite existsb_exists. split.
  - intros (y & Hy & Heq). apply String.eqb_eq in Heq. subst. exact Hy.
  - intros Hin. exists x. split; [exact Hin | apply String.eqb_refl].
Qed.

Lemma setAdd_fold (l acc : list string) :
  NoDup acc ->
  NoDup (fold_left setAdd l acc) /\
  (forall x, In x (fold_left setAdd l acc) <-> In x acc \/ In x l).
Proof.
  revert acc. induction l as [| a rest IH]; intros acc Hacc; simpl.
  - split; [exact Hacc | intuition].
  - assert (Hstep : NoDup (setAdd acc a) /\ (forall x, In x (setAdd acc a) <-> In x acc \/ a = x)).
    { unfold setAdd. destruct (Js.arrIncludes acc a) eqn:E.
      - apply arrIncludes_In in E. split; [exact Hacc |].
        intros x. split; [auto | intros [H | <-]; assumption].
      - assert (Hnot : ~ In a acc).
        { intros Hin. apply arrIncludes_In in Hin. congruence. }
        split.
        + apply NoDup_app; [exact Hacc | repeat constructor; intros [] |].
          intros x Hx [<- | []]. exact (Hnot Hx).
        + intros x. rewrite in_app_iff. simpl. intuition. }
    destruct Hstep as [Hnd Hin].
    destruct (IH (setAdd acc a) Hnd) as [Hnd' Hin'].
    split; [exact Hnd' |].
    intros x. rewrite Hin', Hin. intuition.
Qed.

Lemma fold_setAdd_flat_map {A} (f : A -> list string) (l : list A) (acc : list string) :
  fold_left (fun techs a => fold_left setAdd (f a) techs) l acc =
  fold_left setAdd (flat_map f l) acc.
Proof.
  revert acc. induction l as [| a rest IH]; intros acc; simpl; [reflexivity |].
  rewrite fold_left_app. apply IH.
Qed.

Lemma collectTechnologies_declared (job : Job) :
  collectTechnologies job = fold_left setAdd (declaredTechnologies job) [].
Proof.
  unfold collectTechnologies, declaredTechnologies. cbv zeta.
  rewrite fold_setAdd_flat_map, fold_left_app. f_equal.
  destruct (technologies job) as [t |]; [| reflexivity].
  f_equal. unfold categoryTechnologies.
  destruct (tech_languages t), (tech_frameworks t), (tech_databases t), (tech_cloud t),
    (tech_devops t), (tech_tools t), (tech_mobile t), (tech_testing t);
    simpl; rewrite ?app_nil_r; reflexivity.
Qed.

(** X5. The technology list [collectTechnologies] gives an enhanced job has
    no duplicate, and holds exactly the technologies declared in the eight
    categories of the job and in its projects. *)
Theorem collectTechnologies_set (job : Job) :
  NoDup (collectTechnologies job) /\
  (forall t, In t (collectTechnologies job) <-> In t (declaredTechnologies job)).
Proof.
  rewrite collectTechnologies_declared.
  destruct (setAdd_fold (declaredTechnologies job) [] (NoDup_nil _)) as [Hnd Hin].
  split; [exact Hnd |].
  intros t. rewrite Hin. simpl. intuition.
Qed.

(** X6. [getAllTechnologies] returns, without duplicates, exactly the
    technologies that occur in some job of the list. *)
Theorem getAllTechnologies_set (jobs : list NormalizedJob) :
  NoDup (getAllTechnologies jobs) /\
  (forall t, In t (getAllTechnologies jobs) <->
             exists job, In job jobs /\ In t (job_technologies job)).
Proof.
  unfold getAllTechnologies. rewrite fold_setAdd_flat_map.
  destruct (setAdd_fold (flat_map job_technologies jobs) [] (NoDup_nil _)) as [Hnd Hin].
  split; [exact Hnd |].
  intros t. rewrite Hin, in_flat_map. simpl. intuition.
Qed.

(** ** Dates *)

Lemma startsYearMonth_prefix (s : string) :
  Re.startsYearMonth s = true -> isYearMonth (String.substring 0 7 s) = true.
Proof.
  destruct s as [| a [| b [| c [| d [| e [| f [| g rest]]]]]]]; try discriminate.
  unfold isYearMonth. simpl. intros H. rewrite H.
  destruct rest; reflexivity.
Qed.

Lemma isYearMonth_fixed_point (s : string) :
  isYearMonth s = true -> normalizeDate s = s.
Proof.
  unfold isYearMonth. intros H. apply andb_prop in H. destruct H as [Hstart Hlen].
  apply Nat.eqb_eq in Hlen.
  destruct s as [| a [| b [| c [| d [| e [| f [| g rest]]]]]]]; try discriminate.
  destruct rest; [| discriminate].
  unfold normalizeDate. rewrite Hstart. reflexivity.
Qed.

Lemma months_two_digits (month monthNum : string) :
  lookup months month = Some monthNum ->
  exists a b, monthNum = String a (String b EmptyString) /\
              Js.isDigit a = true /\ Js.isDigit b = true.
Proof.
  unfold months. cbn [lookup].
  repeat match goal with
         | |- context [String.eqb ?k month] => destruct (String.eqb k month)
         end;
    intros H; try discriminate; injection H as <-;
    do 2 eexists; repeat split.
Qed.

Lemma month_year_form (year monthNum month : string) :
  Re.isYear year = true ->
  lookup months month = Some monthNum ->
  isYearMonth (year ++ "-" ++ monthNum) = true.
Proof.
  intros Hyear Hmonth.
  destruct (months_two_digits month monthNum Hmonth) as (a & b & -> & Ha & Hb).
  destruct year as [| y1 [| y2 [| y3 [| y4 rest]]]]; try discriminate.
  destruct rest; [| discriminate].
  unfold isYearMonth. simpl in *. rewrite Hyear, Ha, Hb. reflexivity.
Qed.

Lemma firstYear_isYear (s year : string) :
  Re.firstYear s = Some year -> Re.isYear year = true.
Proof.
  induction s as [| c r IH]; [discriminate |].
  cbn [Re.firstYear].
  destruct (Re.isYear (String.substring 0 4 (String c r))) eqn:E.
  - intros H. injection H as <-. exact E.
  - exact IH.
Qed.

Lemma first_year_form (year : string) :
  Re.isYear year = true -> isYearMonth (year ++ "-01") = true.
Proof.
  intros Hyear.
  destruct year as [| y1 [| y2 [| y3 [| y4 rest]]]]; try discriminate.
  destruct rest; [| discriminate].
  unfold isYearMonth. simpl in *. rewrite Hyear. reflexivity.
Qed.

(** What [normalizeDate] returns: a date in the form YYYY-MM, or the string
    it was given when that string holds no run of four digits. *)
Lemma normalizeDate_cases (dateStr : string) :
  isYearMonth (normalizeDate dateStr) = true \/
  (normalizeDate dateStr = dateStr /\ Re.firstYear dateStr = None).
Proof.
  unfold normalizeDate.
  destruct (String.eqb dateStr "") eqn:Hempty.
  - right. apply String.eqb_eq in Hempty. subst. split; reflexivity.
  - destruct (Re.startsYearMonth dateStr) eqn:Hstart.
    + left. apply startsYearMonth_prefix. exact Hstart.
    + destruct (Re.splitSpaces (Js.toLowerCase dateStr)) as [| month [| year [| x rest]]].
      1, 2, 4:
        (destruct (Re.firstYear dateStr) as [y |] eqn:Hfirst;
         [left; apply first_year_form; apply (firstYear_isYear dateStr y Hfirst)
         | right; split; reflexivity]).
      destruct (lookup months month) as [monthNum |] eqn:Hmonth.
      * destruct (negb (String.eqb year "") && Re.isYear year) eqn:Hyear.
        -- left. apply andb_prop in Hyear. destruct Hyear as [_ Hyear].
           apply (month_year_form year monthNum month Hyear Hmonth).
        -- destruct (Re.firstYear dateStr) as [y |] eqn:Hfirst;
             [left; apply first_year_form; apply (firstYear_isYear dateStr y Hfirst)
             | right; split; reflexivity].
      * destruct (Re.firstYear dateStr) as [y |] eqn:Hfirst;
          [left; apply first_year_form; apply (firstYear_isYear dateStr y Hfirst)
          | right; split; reflexivity].
Qed.

(** X7. On every date whose month word is not the name of a property
    inherited from [Object.prototype], [normalizeDate] is idempotent, and a
    date that holds four digits in a row is brought to the form YYYY-MM. *)
Theorem normalizeDate_idempotent (dateStr : string) :
  inheritedMonth dateStr = false ->
  normalizeDate (normalizeDate dateStr) = normalizeDate dateStr /\
  (Re.firstYear dateStr <> None -> isYearMonth (normalizeDate dateStr) = true).
Proof.
  intros _.
  destruct (normalizeDate_cases dateStr) as [Hform | [Hsame Hnone]].
  - split; [apply isYearMonth_fixed_point; exact Hform | intros _; exact Hform].
  - split; [rewrite Hsame; exact Hsame | intros H; contradiction].
Qed.

Lemma normalizeDate_idempotent_witness :
  normalizeDate (normalizeDate "Started in sept. 2019") = normalizeDate "Started in sept. 2019" /\
  isYearMonth (normalizeDate "Started in sept. 2019") = true.
Proof.
  destruct (normalizeDate_idempotent "Started in sept. 2019") as [Hsame Hform];
    [reflexivity |].
  split; [exact Hsame | apply Hform; discriminate].
Defined.

(** ** The end year of a job and its recency *)

Lemma digit_facts (c : ascii) :
  Js.isDigit c = true ->
  Js.isSpace c = false /\ Ascii.eqb c "-" = false /\ (0 <= Js.digitVal c <= 9)%Z.
Proof.
  destruct c as [[] [] [] [] [] [] [] []]; intros H; try discriminate H;
    repeat split; vm_compute; congruence.
Qed.

Lemma digitsPrefix_digit (c : ascii) (r : string) (acc : option Z) :
  Js.isDigit c = true ->
  Js.digitsPrefix (String c r) acc =
  Js.digitsPrefix r (Some (10 * match acc with Some a => a | None => 0 end + Js.digitVal c)%Z).
Proof. intros H. simpl. rewrite H. reflexivity. Qed.

Lemma parseInt_four_digits (a b c d : ascii) :
  Js.isDigit a = true -> Js.isDigit b = true -> Js.isDigit c = true -> Js.isDigit d = true ->
  Js.parseInt (String a (String b (String c (String d EmptyString)))) =
  Some (1000 * Js.digitVal a + 100 * Js.digitVal b + 10 * Js.digitVal c + Js.digitVal d)%Z.
Proof.
  intros Ha Hb Hc Hd.
  assert (Hparse :
            Js.parseInt (String a (String b (String c (String d EmptyString)))) =
            Js.digitsPrefix (String a (String b (String c (String d EmptyString)))) None).
  { destruct a as [[] [] [] [] [] [] [] []]; try discriminate Ha; reflexivity. }
  rewrite Hparse.
  rewrite (digitsPrefix_digit a _ _ Ha), (digitsPrefix_digit b _ _ Hb),
    (digitsPrefix_digit c _ _ Hc), (digitsPrefix_digit d _ _ Hd).
  cbn [Js.digitsPrefix]. f_equal. lia.
Qed.

(** The year of a date in the form YYYY-MM. *)
Lemma yearMonth_end_year (endDate : string) :
  isYearMonth endDate = true ->
  exists year, Js.parseInt (Js.beforeFirst "-" endDate) = Some year /\ (0 <= year <= 9999)%Z.
Proof.
  unfold isYearMonth. intros H. apply andb_prop in H. destruct H as [Hstart _].
  destruct endDate as [| a [| b [| c [| d [| e [| f [| g rest]]]]]]]; try discriminate.
  cbn [Re.startsYearMonth] in Hstart.
  do 6 (apply andb_prop in Hstart; destruct Hstart as [Hstart ?]).
  destruct (digit_facts a Hstart) as (_ & Hda & Hva).
  destruct (digit_facts b) as (_ & Hdb & Hvb); [assumption |].
  destruct (digit_facts c) as (_ & Hdc & Hvc); [assumption |].
  destruct (digit_facts d) as (_ & Hdd & Hvd); [assumption |].
  cbn [Js.beforeFirst]. rewrite Hda, Hdb, Hdc, Hdd.
  match goal with H : Ascii.eqb e "-" = true |- _ => rewrite H end.
  rewrite parseInt_four_digits by assumption.
  eexists. split; [reflexivity | lia].
Qed.

(** X8. A basic job whose end date holds four digits in a row, and does not
    name an inherited property as its month, is normalized to a job with an
    end year between 0 and 9999, so that its recency score is a number in
    [0.2, 1]; a basic job without an end date has the current year as its
    end year and the recency 1. *)
Theorem basic_job_recency_is_a_number
    (now : Z) (job : Job) (config : MatchConfig) :
  0 <= recencyDecay config ->
  let normalized := normalizeBasicJob job in
  (forall e, basicEndDate job = Some e -> Re.firstYear e <> None ->
             inheritedMonth e = false ->
     exists year r,
       getJobEndYear now normalized = Some year /\ (0 <= year <= 9999)%Z /\
       scoreRecency now normalized config = Some r /\ 0.2 <= r <= 1) /\
  (truthy (basicEndDate job) = None ->
     getJobEndYear now normalized = Some now /\
     scoreRecency now normalized config = Some 1.0).
Proof.
  intros Hdecay normalized. subst normalized. split.
  - intros e He Hyear _.
    assert (Hend : job_endDate (normalizeBasicJob job) = Some (normalizeDate e)).
    { unfold normalizeBasicJob. cbn [job_endDate]. fold (basicEndDate job). rewrite He.
      destruct e; [exfalso; apply Hyear; reflexivity | reflexivity]. }
    destruct (normalizeDate_cases e) as [Hform | [_ Hnone]]; [| contradiction].
    destruct (yearMonth_end_year _ Hform) as (year & Hparse & Hrange).
    assert (Hget : getJobEndYear now (normalizeBasicJob job) = Some year).
    { unfold getJobEndYear. rewrite Hend. unfold truthy.
      destruct (String.eqb (normalizeDate e) "") eqn:E; [| exact Hparse].
      apply String.eqb_eq in E. rewrite E in Hform. discriminate. }
    exists year. unfold scoreRecency. rewrite Hget.
    destruct (now - year <=? 2)%Z eqn:Hrecent.
    + exists 1.0. repeat split; try lia; lra.
    + apply Z.leb_gt in Hrecent. eexists. repeat split; try lia.
      * destruct (mathMax_spec 0.2 (1 - recencyDecay config * inject_Z (now - year - 2)))
          as [[H ->] | [H ->]]; lra.
      * assert (Hyears : 0 <= inject_Z (now - year - 2)).
        { change 0 with (inject_Z 0). rewrite <- Zle_Qle. lia. }
        pose proof (Qmult_le_0_compat _ _ Hdecay Hyears).
        destruct (mathMax_spec 0.2 (1 - recencyDecay config * inject_Z (now - year - 2)))
          as [[H' ->] | [H' ->]]; lra.
  - intros Hnone.
    assert (Hend : truthy (job_endDate (normalizeBasicJob job)) = None).
    { unfold normalizeBasicJob. cbn [job_endDate]. fold (basicEndDate job).
      rewrite Hnone. reflexivity. }
    assert (Hget : getJobEndYear now (normalizeBasicJob job) = Some now).
    { unfold getJobEndYear. rewrite Hend. reflexivity. }
    split; [exact Hget |].
    unfold scoreRecency. rewrite Hget.
    replace (now - now <=? 2)%Z with true; [reflexivity |].
    symmetry. apply Z.leb_le. lia.
Qed.

Lemma basic_job_recency_is_a_number_witness :
  exists year r,
    getJobEndYear 2026 (normalizeBasicJob Fixture.endedJob) = Some year /\
    (0 <= year <= 9999)%Z /\
    scoreRecency 2026 (normalizeBasicJob Fixture.endedJob) DEFAULT_MATCH_CONFIG = Some r /\
    0.2 <= r <= 1.
Proof.
  assert (Hdecay : 0 <= recencyDecay DEFAULT_MATCH_CONFIG) by (vm_compute; discriminate).
  destruct (basic_job_recency_is_a_number 2026 Fixture.endedJob DEFAULT_MATCH_CONFIG Hdecay)
    as [Hended _].
  apply (Hended "June 2021"%string); [reflexivity | discriminate | reflexivity].
Defined.

(** X9. The recency score does not decrease with the end year: of two jobs
    with a numeric end year, the one that ended later scores at least as
    high, and no such job scores below 0.2, whatever the decay rate that is
    not negative. *)
Theorem scoreRecency_monotone
    (now : Z) (job1 job2 : NormalizedJob) (config : MatchConfig) (year1 year2 : Z) :
  0 <= recencyDecay config ->
  getJobEndYear now job1 = Some year1 ->
  getJobEndYear now job2 = Some year2 ->
  (year1 <= year2)%Z ->
  exists r1 r2,
    scoreRecency now job1 config = Some r1 /\
    scoreRecency now job2 config = Some r2 /\
    0.2 <= r1 /\ r1 <= r2.
Proof.
  intros Hdecay H1 H2 Hle. unfold scoreRecency. rewrite H1, H2.
  destruct (now - year1 <=? 2)%Z eqn:E1; destruct (now - year2 <=? 2)%Z eqn:E2;
    do 2 eexists; (split; [reflexivity |]); (split; [reflexivity |]).
  - split; lra.
  - apply Z.leb_le in E1. apply Z.leb_gt in E2. lia.
  - apply Z.leb_gt in E1.
    assert (Hyears : 0 <= inject_Z (now - year1 - 2)).
    { change 0 with (inject_Z 0). rewrite <- Zle_Qle. lia. }
    pose proof (Qmult_le_0_compat _ _ Hdecay Hyears).
    destruct (mathMax_spec 0.2 (1 - recencyDecay config * inject_Z (now - year1 - 2)))
      as [[H' ->] | [H' ->]]; split; lra.
  - apply Z.leb_gt in E1. apply Z.leb_gt in E2.
    assert (Hyears : inject_Z (now - year2 - 2) <= inject_Z (now - year1 - 2)).
    { rewrite <- Zle_Qle. lia. }
    assert (Hprod : recencyDecay config * inject_Z (now - year2 - 2) <=
                    recencyDecay config * inject_Z (now - year1 - 2)).
    { rewrite !(Qmult_comm (recencyDecay config)).
      apply Qmult_le_compat_r; assumption. }
    destruct (mathMax_spec 0.2 (1 - recencyDecay config * inject_Z (now - year1 - 2)))
      as [[Ha ->] | [Ha ->]];
      destruct (mathMax_spec 0.2 (1 - recencyDecay config * inject_Z (now - year2 - 2)))
        as [[Hb ->] | [Hb ->]]; split; lra.
Qed.

Lemma scoreRecency_monotone_witness :
  exists r1 r2,
    scoreRecency 2026 (Sample.job None (Some "2015-03"%string) [] None) DEFAULT_MATCH_CONFIG
    = Some r1 /\
    scoreRecency 2026 (Sample.job None (Some "2021-06"%string) [] None) DEFAULT_MATCH_CONFIG
    = Some r2 /\
    0.2 <= r1 /\ r1 <= r2.
Proof.
  apply (scoreRecency_monotone 2026
           (Sample.job None (Some "2015-03"%string) [] None)
           (Sample.job None (Some "2021-06"%string) [] None)
           DEFAULT_MATCH_CONFIG 2015 2021).
  - vm_compute. discriminate.
  - reflexivity.
  - reflexivity.
  - lia.
Defined.

(** ** Scores and their reasons *)

Lemma Qlen_pos {A} (l : list A) : (0 <? List.length l)%nat = true -> 0 < Qlen l.
Proof. intros H. apply Nat.ltb_lt in H. apply Qnat_pos. exact H. Qed.

(** Puts in the context that the lengths known to be positive are. *)
Ltac qlen_pos_facts :=
  repeat match goal with
         | H : (0 <? List.length ?l)%nat = true |- _ => apply Qlen_pos in H
         end.

Lemma mathMin_base (x : Q) :
  0.5 <= x -> 0.5 <= mathMin 1 x <= 1 /\ (mathMin 1 x == 0.5 <-> x == 0.5).
Proof.
  intros Hx. destruct (mathMin_spec 1 x) as [[H ->] | [H ->]]; split; try lra; split; lra.
Qed.

(** X10. A project score stays between the base 0.5 and 1, and it is the
    base 0.5 exactly when no bonus applied, which is exactly when the
    relevance reason is the fallback text "General relevance". *)
Theorem scoreProject_base_and_reason (project : Project) (requirements : JobRequirements) :
  let scored := scoreProject project requirements in
  0.5 <= sp_score scored <= 1 /\
  (sp_score scored == 0.5 <-> sp_relevanceReason scored = "General relevance"%string).
Proof.
  unfold scoreProject. score_cases; cbn [sp_score sp_relevanceReason];
    qlen_pos_facts; qlen_facts;
    match goal with
    | |- context [mathMin 1 ?x] =>
        let Hb := fresh "Hb" in
        assert (Hb : 0.5 <= x) by lra;
        destruct (mathMin_base x Hb) as [Hrange Hiff]
    end;
    (split; [exact Hrange |]);
    rewrite Hiff; unfold joinReasons; simpl;
    (split; [intros Heq; try reflexivity; exfalso; lra | intros Heq; try discriminate; lra]).
Qed.

Lemma achievementCategories_cases (category : string) :
  Js.arrIncludes achievementCategories category = true ->
  category = "performance"%string \/ category = "quality"%string \/
  category = "business"%string.
Proof.
  intros H. apply arrIncludes_In in H. simpl in H. intuition.
Qed.

(** X11. An achievement score stays between the base 0.5 and 1, and it is
    the base 0.5 exactly when no bonus applied, which is exactly when the
    relevance reason is the fallback text "General achievement". *)
Theorem scoreAchievement_base_and_reason
    (achievement : Achievement) (requirements : JobRequirements) :
  let scored := scoreAchievement achievement requirements in
  0.5 <= sa_score scored <= 1 /\
  (sa_score scored == 0.5 <-> sa_relevanceReason scored = "General achievement"%string).
Proof.
  unfold scoreAchievement. score_cases; cbn [sa_score sa_relevanceReason];
    qlen_pos_facts; qlen_facts;
    repeat match goal with
           | H : Js.arrIncludes achievementCategories ?c = true |- _ =>
               apply achievementCategories_cases in H; destruct H as [-> | [-> | ->]]
           end;
    match goal with
    | |- context [mathMin 1 ?x] =>
        let Hb := fresh "Hb" in
        assert (Hb : 0.5 <= x) by lra;
        destruct (mathMin_base x Hb) as [Hrange Hiff]
    end;
    (split; [exact Hrange |]);
    rewrite Hiff; unfold joinReasons; simpl;
    (split; [intros Heq; try reflexivity; exfalso; lra | intros Heq; try discriminate; lra]).
Qed.

(** ** What the selectors keep *)

Section TopK.
Context {A : Type} (score : A -> Q).

Lemma In_skipn (n : nat) (l : list A) (z : A) : In z (skipn n l) -> In z l.
Proof.
  revert n. induction l as [| x rest IH]; intros n Hz.
  - rewrite skipn_nil in Hz. exact Hz.
  - destruct n as [| n]; [exact Hz |]. right. apply (IH n Hz).
Qed.

Lemma sorted_prefix_dominates (n : nat) (l : list A) :
  StronglySorted (fun a b => score b <= score a) l ->
  forall a b, In a (firstn n l) -> In b (skipn n l) -> score b <= score a.
Proof.
  intros Hsorted. revert n. induction Hsorted as [| x rest Hrest IH Hx]; intros n a b Ha Hb.
  - rewrite firstn_nil in Ha. contradiction.
  - destruct n as [| n]; [contradiction |].
    simpl in Ha, Hb. destruct Ha as [<- | Ha].
    + rewrite Forall_forall in Hx. apply Hx. apply (In_skipn n rest b Hb).
    + apply (IH n a b Ha Hb).
Qed.

Lemma filter_none (f : A -> bool) (l : list A) :
  (forall z, In z l -> f z = false) -> filter f l = [].
Proof.
  induction l as [| x rest IH]; intros H; simpl; [reflexivity |].
  rewrite (H x (or_introl eq_refl)). apply IH. intros z Hz. apply H. right. exact Hz.
Qed.

Lemma relevant_are_a_prefix (threshold : Q) (l : list A) :
  StronglySorted (fun a b => score b <= score a) l ->
  filter (relevant score threshold) l = firstn (List.length (filter (relevant score threshold) l)) l.
Proof.
  intros Hsorted. induction Hsorted as [| x rest Hrest IH Hx]; [reflexivity |].
  simpl. destruct (relevant score threshold x) eqn:E.
  - simpl. f_equal. exact IH.
  - assert (Hnone : filter (relevant score threshold) rest = []).
    { apply filter_none. intros z Hz.
      rewrite Forall_forall in Hx. pose proof (Hx z Hz) as Hzx.
      unfold relevant, Qgt_bool in *.
      apply negb_false_iff in E. apply Qle_bool_true in E.
      apply negb_false_iff. apply Qle_bool_iff. lra. }
    rewrite Hnone. reflexivity.
Qed.

Lemma firstn_le_In (k n : nat) (l : list A) (x : A) :
  (k <= n)%nat -> In x (firstn k l) -> In x (firstn n l).
Proof.
  revert k n. induction l as [| y rest IH]; intros k n Hkn Hx.
  - rewrite firstn_nil in Hx. contradiction.
  - destruct k as [| k]; [contradiction |].
    destruct n as [| n]; [lia |].
    simpl in *. destruct Hx as [-> | Hx]; [left; reflexivity | right].
    apply (IH k n); [lia | exact Hx].
Qed.

Lemma filter_length_Permutation (f : A -> bool) (l l' : list A) :
  Permutation l l' -> List.length (filter f l) = List.length (filter f l').
Proof.
  intros H. induction H as [| x l l' _ IH | x y l | l l' l'' _ IH1 _ IH2]; simpl.
  - reflexivity.
  - destruct (f x); simpl; rewrite IH; reflexivity.
  - destruct (f x), (f y); reflexivity.
  - rewrite IH1. exact IH2.
Qed.

(** What [slice(0, count)] of the candidates sorted by descending score
    keeps, for the count the selectors compute. *)
Lemma selection_takes_the_best (all : list A) (minToShow maxToShow : nat) :
  let sorted := jsSort (fun a b => score b - score a) all in
  let count :=
    Nat.min (Nat.max minToShow (List.length (filter (relevant score 0.5) sorted))) maxToShow in
  let selected := slice0 count sorted in
  (exists rest,
     Permutation (selected ++ rest) all /\
     forall a b, In a selected -> In b rest -> score b <= score a) /\
  ((List.length (filter (relevant score 0.5) all) <= maxToShow)%nat ->
   forall a, In a all -> 0.5 < score a -> In a selected).
Proof.
  intros sorted count selected.
  assert (Hsorted : StronglySorted (fun a b => score b <= score a) sorted)
    by apply jsSort_descending.
  assert (Hperm : Permutation all sorted) by apply jsSort_Permutation.
  split.
  - exists (skipn count sorted). split.
    + unfold selected, slice0. rewrite firstn_skipn. apply Permutation_sym. exact Hperm.
    + intros a b Ha Hb. apply (sorted_prefix_dominates count sorted Hsorted a b Ha Hb).
  - intros Hfit a Ha Hscore.
    rewrite (filter_length_Permutation (relevant score 0.5) all sorted Hperm) in Hfit.
    assert (Hin : In a (filter (relevant score 0.5) sorted)).
    { apply filter_In. split.
      - apply (Permutation_in a Hperm Ha).
      - unfold relevant, Qgt_bool. apply negb_true_iff.
        destruct (Qle_bool (score a) 0.5) eqn:E; [| reflexivity].
        apply Qle_bool_true in E. lra. }
    rewrite (relevant_are_a_prefix 0.5 sorted Hsorted) in Hin.
    unfold selected, slice0.
    apply (firstn_le_In (List.length (filter (relevant score 0.5) sorted)) count); [| exact Hin].
    unfold count. lia.
Qed.
End TopK.

Lemma allScoredProjects_origin
    (jobs : list NormalizedJob) (requirements : JobRequirements) (p : ScoredProject) :
  In p (allScoredProjects jobs requirements) <->
  exists job project,
    In job jobs /\ In project (job_projects job) /\ p = scoreProject project requirements.
Proof.
  unfold allScoredProjects. rewrite in_flat_map. split.
  - intros (job & Hjob & Hp). apply in_map_iff in Hp. destruct Hp as (project & <- & Hproject).
    exists job, project. auto.
  - intros (job & project & Hjob & Hproject & ->). exists job. split; [exact Hjob |].
    apply in_map_iff. exists project. auto.
Qed.

Lemma allScoredAchievements_origin
    (jobs : list NormalizedJob) (requirements : JobRequirements) (a : ScoredAchievement) :
  In a (allScoredAchievements jobs requirements) <->
  exists job achievement,
    In job jobs /\ In achievement (job_achievements job) /\
    a = scoreAchievement achievement requirements.
Proof.
  unfold allScoredAchievements. rewrite in_flat_map. split.
  - intros (job & Hjob & Ha). apply in_map_iff in Ha.
    destruct Ha as (achievement & <- & Hachievement).
    exists job, achievement. auto.
  - intros (job & achievement & Hjob & Hachievement & ->). exists job. split; [exact Hjob |].
    apply in_map_iff. exists achievement. auto.
Qed.

(** X12. [selectProjects] keeps the best projects: what it returns and what
    it leaves out make up the scored projects of the jobs, nothing left out
    scores higher than something returned, every returned entry is a project
    of one of the jobs with its score, and when the projects that score
    above 0.5 are no more than the maximum to show, all of them are
    returned. *)
Theorem selectProjects_takes_the_best
    (jobs : list NormalizedJob) (requirements : JobRequirements) (config : MatchConfig) :
  let all := allScoredProjects jobs requirements in
  let selected := selectProjects jobs requirements config in
  (exists rest,
     Permutation (selected ++ rest) all /\
     forall a b, In a selected -> In b rest -> sp_score b <= sp_score a) /\
  (forall p, In p selected ->
     exists job project,
       In job jobs /\ In project (job_projects job) /\
       p = scoreProject project requirements) /\
  ((List.length (filter (fun p => Qgt_bool (sp_score p) 0.5) all)
    <= maxProjectsToShow config)%nat ->
   forall p, In p all -> 0.5 < sp_score p -> In p selected).
Proof.
  intros all selected.
  destruct (selection_takes_the_best sp_score all (minProjectsToShow config)
              (maxProjectsToShow config)) as [Hbest Hall].
  split; [exact Hbest | split; [| exact Hall]].
  intros p Hp. apply allScoredProjects_origin.
  unfold selected, selectProjects, slice0 in Hp. apply In_firstn in Hp.
  apply (proj1 (jsSort_In _ p _)) in Hp. exact Hp.
Qed.

(** X13. [selectAchievements] keeps the best achievements, in the same
    sense: returned and left out make up the scored achievements, nothing
    left out scores higher than something returned, every returned entry is
    an achievement of one of the jobs, and all achievements that score above
    0.5 are returned when they are no more than the maximum to show. *)
Theorem selectAchievements_takes_the_best
    (jobs : list NormalizedJob) (requirements : JobRequirements) (config : MatchConfig) :
  let all := allScoredAchievements jobs requirements in
  let selected := selectAchievements jobs requirements config in
  (exists rest,
     Permutation (selected ++ rest) all /\
     forall a b, In a selected -> In b rest -> sa_score b <= sa_score a) /\
  (forall a, In a selected ->
     exists job achievement,
       In job jobs /\ In achievement (job_achievements job) /\
       a = scoreAchievement achievement requirements) /\
  ((List.length (filter (fun a => Qgt_bool (sa_score a) 0.5) all)
    <= maxAchievementsToShow config)%nat ->
   forall a, In a all -> 0.5 < sa_score a -> In a selected).
Proof.
  intros all selected.
  destruct (selection_takes_the_best sa_score all (minAchievementsToShow config)
              (maxAchievementsToShow config)) as [Hbest Hall].
  split; [exact Hbest | split; [| exact Hall]].
  intros a Ha. apply allScoredAchievements_origin.
  unfold selected, selectAchievements, slice0 in Ha. apply In_firstn in Ha.
  apply (proj1 (jsSort_In _ a _)) in Ha. exact Ha.
Qed.

Lemma selectProjects_takes_the_best_witness :
  In (scoreProject
        {| proj_name := "Wallet"; proj_description := None; proj_role := None;
           proj_duration := None; proj_technologies := Some ["Swift"%string];
           proj_impact := Some "Cut crashes by 40%"%string; proj_teamSize := Some 4%nat;
           proj_challenges := None; proj_solutions := None |}
        Sample.swiftRequirements)
     (selectProjects [Sample.portfolioJob] Sample.swiftRequirements Sample.smallConfig).
Proof.
  destruct (selectProjects_takes_the_best [Sample.portfolioJob] Sample.swiftRequirements
              Sample.smallConfig) as (_ & _ & Hall).
  apply Hall.
  - vm_compute. lia.
  - vm_compute. left. reflexivity.
  - vm_compute. reflexivity.
Defined.

Lemma selectAchievements_takes_the_best_witness :
  In (scoreAchievement Fixture.fasterBuilds Sample.swiftRequirements)
     (selectAchievements [Fixture.buildJob] Sample.swiftRequirements Sample.smallConfig).
Proof.
  destruct (selectAchievements_takes_the_best [Fixture.buildJob] Sample.swiftRequirements
              Sample.smallConfig) as (_ & _ & Hall).
  apply Hall.
  - vm_compute. lia.
  - vm_compute. left. reflexivity.
  - vm_compute. reflexivity.
Defined.

(** ** The skills [selectSkills] returns *)

Lemma findMatchingSkills_filters
    (skills : SkillsData) (requiredTechs preferredTechs : list string) :
  let found := findMatchingSkills skills requiredTechs preferredTechs in
  ms_required found = filter (skillMatchesAny requiredTechs) (getAllSkills skills) /\
  ms_preferred found =
    filter (fun s => negb (skillMatchesAny requiredTechs s) && skillMatchesAny preferredTechs s)
           (getAllSkills skills) /\
  ms_other found =
    filter (fun s => negb (skillMatchesAny requiredTechs s)
                     && negb (skillMatchesAny preferredTechs s))
           (getAllSkills skills).
Proof.
  cbv zeta.
  destruct (findMatchingSkills_fold requiredTechs preferredTechs (getAllSkills skills)
              {| ms_required := []; ms_preferred := []; ms_other := [] |})
    as (Hr & Hp & Ho).
  cbv zeta in Hr, Hp, Ho. simpl in Hr, Hp, Ho.
  unfold findMatchingSkills. rewrite Hr, Hp, Ho. repeat split.
Qed.

(** X14. Every entry [selectSkills] returns is a skill of the inventory,
    flagged required exactly when it matches a required technology and
    preferred exactly when it matches a preferred one and no required one,
    with the score [calculateSkillScore] gives it under these flags; an
    entry that is neither required nor preferred is never deprecated and is
    featured, expert or wanted. *)
Theorem selectSkills_entries
    (now : Z) (skills : SkillsData) (requirements : JobRequirements) (config : MatchConfig)
    (s : ScoredSkill) :
  In s (selectSkills now skills requirements config) ->
  let skill := ss_skill s in
  In skill (getAllSkills skills) /\
  isRequired s = skillMatchesAny (req_requiredTechnologies requirements) skill /\
  isPreferred s =
    negb (skillMatchesAny (req_requiredTechnologies requirements) skill)
    && skillMatchesAny (req_preferredTechnologies requirements) skill /\
  ss_score s = calculateSkillScore now skill skills (isRequired s) (isPreferred s) /\
  (isRequired s = false -> isPreferred s = false ->
   isDeprecated (skill_name skill) skills = false /\
   isFeatured (skill_name skill) skills
   || String.eqb (skill_level skill) "expert"
   || skill_wantToUse skill = true).
Proof.
  intros Hin. cbv zeta.
  unfold selectSkills, slice0 in Hin. apply In_firstn in Hin.
  apply (proj1 (jsSort_In _ s _)) in Hin.
  unfold scoredSkillCandidates in Hin. cbv zeta in Hin.
  destruct (findMatchingSkills_filters skills (req_requiredTechnologies requirements)
              (req_preferredTechnologies requirements)) as (Hr & Hp & Ho).
  cbv zeta in Hr, Hp, Ho. rewrite Hr, Hp, Ho in Hin. clear Hr Hp Ho.
  rewrite !in_app_iff in Hin. destruct Hin as [Hin | [Hin | Hin]].
  - apply in_map_iff in Hin. destruct Hin as (skill & <- & Hskill).
    apply filter_In in Hskill. destruct Hskill as [Hinv Hreq].
    cbn [ss_skill isRequired isPreferred ss_score]. rewrite Hreq.
    repeat split; try assumption; discriminate.
  - apply in_map_iff in Hin. destruct Hin as (skill & <- & Hskill).
    apply filter_In in Hskill. destruct Hskill as [Hinv Hpref].
    apply andb_prop in Hpref. destruct Hpref as [Hnreq Hpref].
    apply negb_true_iff in Hnreq.
    cbn [ss_skill isRequired isPreferred ss_score]. rewrite Hnreq, Hpref.
    repeat split; try assumption; discriminate.
  - apply in_flat_map in Hin. destruct Hin as (skill & Hskill & Hin).
    apply filter_In in Hskill. destruct Hskill as [Hinv Hother].
    apply andb_prop in Hother. destruct Hother as [Hnreq Hnpref].
    apply negb_true_iff in Hnreq. apply negb_true_iff in Hnpref.
    destruct (isDeprecated (skill_name skill) skills) eqn:Hdep; [contradiction |].
    destruct (isFeatured (skill_name skill) skills
              || String.eqb (skill_level skill) "expert"
              || skill_wantToUse skill) eqn:Hshown; [| contradiction].
    destruct Hin as [<- | []].
    cbn [ss_skill isRequired isPreferred ss_score]. rewrite Hnreq, Hnpref, Hdep, Hshown.
    repeat split; assumption.
Qed.

Lemma selectSkills_entries_witness :
  exists s,
    In s (selectSkills 2026 Sample.inventory Sample.swiftRequirements Sample.smallConfig) /\
    In (ss_skill s) (getAllSkills Sample.inventory) /\
    isRequired s = skillMatchesAny (req_requiredTechnologies Sample.swiftRequirements) (ss_skill s).
Proof.
  destruct (selectSkills 2026 Sample.inventory Sample.swiftRequirements Sample.smallConfig)
    as [| s rest] eqn:Hrun; [vm_compute in Hrun; discriminate Hrun |].
  assert (Hin : In s (s :: rest)) by (left; reflexivity).
  rewrite <- Hrun in Hin.
  destruct (selectSkills_entries 2026 Sample.inventory Sample.swiftRequirements
              Sample.smallConfig s Hin) as (Hskill & Hreq & _).
  exists s. split; [left; reflexivity |]. split; [exact Hskill | exact Hreq].
Defined.

(** ** Errors of the orchestrator *)

Lemma normalizeJob_ok_iff (job : Job) :
  (exists normalized, normalizeJob job = Ok normalized) <->
  wellFormedBasic job \/ wellFormedEnhanced job.
Proof.
  unfold wellFormedBasic, wellFormedEnhanced, normalizeJob, isEnhancedJob, isBasicJob,
    normalizeEnhancedJob, bind, deref.
  destruct (company job) as [name | c | | | b | n]; cbn [typeofCompany JsType_eqb].
  - split; [intros _; left; eexists; reflexivity | intros _; eexists; reflexivity].
  - destruct (role job) as [r |], (duration job) as [d |]; split;
      try (intros [x Hx]; discriminate Hx);
      try (intros _; right; repeat split; try discriminate; eexists; reflexivity);
      try (intros _; eexists; reflexivity);
      intros [[x Hx] | (_ & Hr & Hd)]; try discriminate Hx; congruence.
  - split; [intros [x Hx]; discriminate Hx |].
    intros [[x Hx] | ([x Hx] & _)]; discriminate Hx.
  - split; [intros [x Hx]; discriminate Hx |].
    intros [[x Hx] | ([x Hx] & _)]; discriminate Hx.
  - split; [intros [x Hx]; discriminate Hx |].
    intros [[x Hx] | ([x Hx] & _)]; discriminate Hx.
  - split; [intros [x Hx]; discriminate Hx |].
    intros [[x Hx] | ([x Hx] & _)]; discriminate Hx.
Qed.

Lemma mapM_ok_iff {A B} (f : A -> Result B) (l : list A) :
  (exists l', mapM f l = Ok l') <-> Forall (fun a => exists b, f a = Ok b) l.
Proof.
  induction l as [| a rest IH]; simpl.
  - split; [constructor | intros _; eexists; reflexivity].
  - unfold bind. destruct (f a) as [b | e] eqn:Ha.
    + destruct (mapM f rest) as [bs | e].
      * split; [| intros _; eexists; reflexivity].
        intros _. constructor; [exists b; exact Ha |]. apply IH. eexists. reflexivity.
      * split; [intros [l' H]; discriminate H |].
        intros H. inversion H as [| ? ? _ Hrest]; subst.
        apply IH in Hrest. destruct Hrest as [l' H']. discriminate H'.
    + split; [intros [l' H]; discriminate H |].
      intros H. inversion H as [| ? ? [b Hb] _]; subst. congruence.
Qed.

Lemma mapM_throw {A B} (f : A -> Result B) (l : list A) (e : JsError) :
  mapM f l = Throw e ->
  exists before a after,
    l = before ++ a :: after /\
    Forall (fun x => exists b, f x = Ok b) before /\
    f a = Throw e.
Proof.
  induction l as [| a rest IH]; simpl; [discriminate |].
  unfold bind. destruct (f a) as [b | e'] eqn:Ha.
  - destruct (mapM f rest) as [bs | e''] eqn:Hrest; [discriminate |].
    intros H. injection H as ->.
    destruct (IH eq_refl) as (before & x & after & -> & Hbefore & Hx).
    exists (a :: before), x, after. repeat split; [| exact Hx].
    constructor; [eexists; exact Ha | exact Hbefore].
  - intros H. injection H as ->. exists [], a, rest. repeat split; [constructor | exact Ha].
Qed.

Lemma mapM_first_throw {A B} (f : A -> Result B) (before after : list A) (a : A)
    (e : JsError) :
  Forall (fun x => exists b, f x = Ok b) before ->
  f a = Throw e ->
  mapM f (before ++ a :: after) = Throw e.
Proof.
  intros Hbefore Ha. induction Hbefore as [| x rest [b Hx] _ IH]; simpl; unfold bind.
  - rewrite Ha. reflexivity.
  - rewrite Hx. fold (mapM f (rest ++ a :: after)). rewrite IH. reflexivity.
Qed.

(** X15. When a job of the list is not a well-formed basic or enhanced
    record, [matchAgainstRequirements] throws the error that [normalizeJob]
    throws on the first such job of the list, whatever the jobs after it,
    the skills, the requirements and the options; so it returns a result
    only if every job of the list is well formed. *)
Theorem matchAgainstRequirements_first_error
    (now : Z) (jobs : list Job) (skills : SkillsData) (requirements : JobRequirements)
    (options : MatchOptions) :
  (forall before job after e,
     jobs = before ++ job :: after ->
     Forall (fun j => wellFormedBasic j \/ wellFormedEnhanced j) before ->
     normalizeJob job = Throw e ->
     matchAgainstRequirements now jobs skills requirements options = Throw e) /\
  ((exists result, matchAgainstRequirements now jobs skills requirements options = Ok result)
   -> Forall (fun job => wellFormedBasic job \/ wellFormedEnhanced job) jobs).
Proof.
  assert (Hforall :
            forall l, Forall (fun a => exists b, normalizeJob a = Ok b) l <->
                      Forall (fun job => wellFormedBasic job \/ wellFormedEnhanced job) l).
  { intros l. rewrite !Forall_forall. split; intros H j Hj; apply normalizeJob_ok_iff;
      apply H; exact Hj. }
  split.
  - intros before job after e -> Hbefore Hjob.
    unfold matchAgainstRequirements, bind.
    rewrite (mapM_first_throw normalizeJob before after job e); [reflexivity | | exact Hjob].
    apply Hforall. exact Hbefore.
  - intros [result Hrun]. apply Hforall, mapM_ok_iff.
    unfold matchAgainstRequirements, bind in Hrun.
    destruct (mapM normalizeJob jobs) as [njs | e]; [| discriminate Hrun].
    eexists. reflexivity.
Qed.

Lemma matchAgainstRequirements_first_error_witness :
  matchAgainstRequirements 2026
    [Sample.basicJob; Sample.rawJob CompanyNull None None;
     Sample.rawJob (CompanyNumber 7) None None]
    Sample.skills Sample.swiftRequirements noOptions
  = Throw TypeError.
Proof.
  destruct (matchAgainstRequirements_first_error 2026
              [Sample.basicJob; Sample.rawJob CompanyNull None None;
               Sample.rawJob (CompanyNumber 7) None None]
              Sample.skills Sample.swiftRequirements noOptions) as [Hfirst _].
  apply (Hfirst [Sample.basicJob] (Sample.rawJob CompanyNull None None)
                [Sample.rawJob (CompanyNumber 7) None None]).
  - reflexivity.
  - constructor; [| constructor]. left. exists "Acme"%string. reflexivity.
  - reflexivity.
Defined.

(** ** The ranking of the jobs *)

Lemma insertSorted_map {A B} (f : A -> B) (compare : B -> B -> Q) (x : A) (l : list A) :
  map f (insertSorted (fun a b => compare (f a) (f b)) x l) =
  insertSorted compare (f x) (map f l).
Proof.
  induction l as [| y rest IH]; simpl; [reflexivity |].
  unfold after.
  destruct (negb (Qle_bool (compare (f x) (f y)) 0)); simpl; [rewrite IH |]; reflexivity.
Qed.

Lemma jsSort_map {A B} (f : A -> B) (compare : B -> B -> Q) (l : list A) :
  map f (jsSort (fun a b => compare (f a) (f b)) l) = jsSort compare (map f l).
Proof.
  induction l as [| x rest IH]; simpl; [reflexivity |].
  rewrite insertSorted_map, IH. reflexivity.
Qed.

Lemma filter_split_Permutation {A} (f : A -> bool) (l : list A) :
  Permutation (filter f l ++ filter (fun x => negb (f x)) l) l.
Proof.
  induction l as [| a rest IH]; simpl; [constructor |].
  destruct (f a); simpl.
  - apply perm_skip. exact IH.
  - apply Permutation_sym. apply Permutation_cons_app. apply Permutation_sym. exact IH.
Qed.

Lemma StronglySorted_filter {A} (R : A -> A -> Prop) (f : A -> bool) (l : list A) :
  StronglySorted R l -> StronglySorted R (filter f l).
Proof.
  intros H. induction H as [| x rest Hrest IH Hx]; simpl; [constructor |].
  destruct (f x); [| exact IH].
  constructor; [exact IH |].
  apply Forall_forall. intros z Hz. apply filter_In in Hz.
  rewrite Forall_forall in Hx. apply Hx. apply Hz.
Qed.

Lemma compareTotals_after (a b : JobScore) :
  totalScore a <> None -> totalScore b <> None ->
  (after (fun x y => compareTotals (totalScore x) (totalScore y)) a b = true ->
   totalDescending b a) /\
  (after (fun x y => compareTotals (totalScore x) (totalScore y)) a b = false ->
   totalDescending a b).
Proof.
  unfold after, compareTotals, totalDescending.
  destruct (totalScore a) as [x |], (totalScore b) as [y |]; try congruence.
  intros _ _. split; intros H.
  - apply negb_true_iff in H. apply Qle_bool_false in H. lra.
  - apply negb_false_iff in H. apply Qle_bool_true in H. lra.
Qed.

Lemma totalDescending_trans (a b c : JobScore) :
  totalDescending a b -> totalDescending b c -> totalDescending a c.
Proof.
  unfold totalDescending.
  destruct (totalScore a), (totalScore b), (totalScore c); try contradiction.
  intros. lra.
Qed.

Lemma scoreJob_total_is_number
    (now : Z) (job : NormalizedJob) (requirements : JobRequirements) (config : MatchConfig) :
  getJobEndYear now job <> None ->
  totalScore (scoreJob now job requirements config) <> None.
Proof.
  intros Hyear. unfold scoreJob. cbn [totalScore]. unfold scoreRecency.
  destruct (getJobEndYear now job) as [year |]; [| contradiction].
  destruct (now - year <=? 2)%Z; discriminate.
Qed.

Lemma ranking_sorted (scored : list JobScore) :
  Forall (fun s => totalScore s <> None) scored ->
  StronglySorted totalDescending
    (jsSort (fun a b => compareTotals (totalScore a) (totalScore b)) scored).
Proof.
  intros Hnumbers.
  apply (jsSort_sorted _ (fun s => totalScore s <> None) totalDescending).
  - intros x y Hx Hy. apply (compareTotals_after x y Hx Hy).
  - intros x y Hx Hy. apply (compareTotals_after x y Hx Hy).
  - apply totalDescending_trans.
  - exact Hnumbers.
Qed.

(** What [matchAgainstRequirements] ranks: the scores of the normalized
    jobs, sorted, then filtered by the minimum score. *)
Lemma rankedJobs_spec
    (now : Z) (jobs : list Job) (skills : SkillsData) (requirements : JobRequirements)
    (options : MatchOptions) (result : MatchResult) (normalizedJobs : list NormalizedJob) :
  matchAgainstRequirements now jobs skills requirements options = Ok result ->
  mapM normalizeJob jobs = Ok normalizedJobs ->
  let config := mergeConfig (opt_config options) in
  let sorted :=
    jsSort (fun a b => compareTotals (totalScore a) (totalScore b))
           (map (fun job => scoreJob now job requirements config) normalizedJobs) in
  rankedJobs result =
  match minimumScore options with
  | Some m => filter (fun s => optGe (totalScore s) m) sorted
  | None => sorted
  end.
Proof.
  intros Hrun Hmap. cbv zeta.
  unfold matchAgainstRequirements, bind in Hrun. rewrite Hmap in Hrun.
  injection Hrun as <-. cbn [rankedJobs].
  rewrite <- (map_map (fun job => (job, scoreJob now job requirements
                                         (mergeConfig (opt_config options)))) snd).
  rewrite <- (jsSort_map snd (fun a b => compareTotals (totalScore a) (totalScore b))).
  unfold minimumScore.
  destruct (opt_minJobScore options) as [m |]; [| reflexivity].
  destruct (Qeq_bool m 0); [reflexivity |].
  generalize (jsSort
       (fun a b : NormalizedJob * JobScore =>
        compareTotals (totalScore (snd a)) (totalScore (snd b)))
       (map (fun job : NormalizedJob =>
             (job, scoreJob now job requirements (mergeConfig (opt_config options))))
          normalizedJobs)).
  intros l. induction l as [| p rest IH]; simpl; [reflexivity |].
  destruct (optGe (totalScore (snd p)) m); simpl; rewrite IH; reflexivity.
Qed.

(** X16. The ranked jobs of a match are scores of the normalized jobs,
    none twice: all of them when no minimum score is set, and otherwise
    exactly those with a total of at least the minimum, the scores that are
    dropped having a total below the minimum or no numeric total; when
    every job has a numeric end year, they are sorted by descending
    total. *)
Theorem rankedJobs_sorted_and_filtered
    (now : Z) (jobs : list Job) (skills : SkillsData) (requirements : JobRequirements)
    (options : MatchOptions) (result : MatchResult) (normalizedJobs : list NormalizedJob) :
  matchAgainstRequirements now jobs skills requirements options = Ok result ->
  mapM normalizeJob jobs = Ok normalizedJobs ->
  let scored :=
    map (fun job => scoreJob now job requirements (mergeConfig (opt_config options)))
        normalizedJobs in
  (exists dropped, Permutation (rankedJobs result ++ dropped) scored) /\
  (minimumScore options = None -> Permutation (rankedJobs result) scored) /\
  (forall m, minimumScore options = Some m ->
     Forall (fun s => exists total, totalScore s = Some total /\ m <= total)
            (rankedJobs result) /\
     exists dropped,
       Permutation (rankedJobs result ++ dropped) scored /\
       Forall (fun s => forall total, totalScore s = Some total -> total < m) dropped) /\
  (Forall (fun job => getJobEndYear now job <> None) normalizedJobs ->
   StronglySorted totalDescending (rankedJobs result)).
Proof.
  intros Hrun Hmap scored.
  pose proof (rankedJobs_spec now jobs skills requirements options result normalizedJobs
                Hrun Hmap) as Hranked.
  cbv zeta in Hranked. fold scored in Hranked.
  set (sorted := jsSort (fun a b => compareTotals (totalScore a) (totalScore b)) scored) in *.
  assert (Hperm : Permutation sorted scored).
  { apply Permutation_sym. apply jsSort_Permutation. }
  assert (Hsplit : forall m,
             Permutation
               (filter (fun s => optGe (totalScore s) m) sorted
                ++ filter (fun s => negb (optGe (totalScore s) m)) sorted)
               scored).
  { intros m.
    rewrite (filter_split_Permutation (fun s => optGe (totalScore s) m) sorted).
    exact Hperm. }
  split; [| split; [| split]].
  - rewrite Hranked. destruct (minimumScore options) as [m |].
    + exists (filter (fun s => negb (optGe (totalScore s) m)) sorted). apply Hsplit.
    + exists []. rewrite app_nil_r. exact Hperm.
  - intros Hnone. rewrite Hranked, Hnone. exact Hperm.
  - intros m Hm. rewrite Hranked, Hm. split.
    + apply Forall_forall. intros s Hs.
      apply filter_In in Hs. destruct Hs as [_ Hge]. unfold optGe in Hge.
      destruct (totalScore s) as [total |]; [| discriminate].
      exists total. split; [reflexivity | apply Qle_bool_true; exact Hge].
    + exists (filter (fun s => negb (optGe (totalScore s) m)) sorted).
      split; [apply Hsplit |].
      apply Forall_forall. intros s Hs total Htotal.
      apply filter_In in Hs. destruct Hs as [_ Hlt]. apply negb_true_iff in Hlt.
      unfold optGe in Hlt. rewrite Htotal in Hlt.
      apply Qle_bool_false in Hlt. exact Hlt.
  - intros Hyears.
    assert (Hsorted : StronglySorted totalDescending sorted).
    { apply ranking_sorted. unfold scored. apply Forall_forall. intros s Hs.
      apply in_map_iff in Hs. destruct Hs as (job & <- & Hjob).
      apply scoreJob_total_is_number.
      rewrite Forall_forall in Hyears. apply Hyears. exact Hjob. }
    rewrite Hranked. destruct (minimumScore options) as [m |]; [| exact Hsorted].
    apply StronglySorted_filter. exact Hsorted.
Qed.

Lemma mapM_compose {A B C} (f : A -> Result B) (g : B -> C) (l : list A) :
  mapM (fun a => b <- f a ;; Ok (g b)) l = (bs <- mapM f l ;; Ok (map g bs)).
Proof.
  induction l as [| a rest IH]; simpl; [reflexivity |].
  unfold bind in *. destruct (f a) as [b | e]; [| reflexivity].
  rewrite IH. destruct (mapM f rest); reflexivity.
Qed.

(** X17. [quickMatch] gives the ranking of a full match: it throws on the
    same job lists as [matchAgainstRequirements], and otherwise returns the
    ranked jobs of a match run with the same configuration and no minimum
    score. *)
Theorem quickMatch_is_the_ranking
    (now : Z) (jobs : list Job) (skills : SkillsData) (requirements : JobRequirements)
    (options : MatchOptions) :
  minimumScore options = None ->
  match matchAgainstRequirements now jobs skills requirements options with
  | Ok result =>
      quickMatch now jobs requirements (mergeConfig (opt_config options))
      = Ok (rankedJobs result)
  | Throw e =>
      quickMatch now jobs requirements (mergeConfig (opt_config options)) = Throw e
  end.
Proof.
  intros Hmin.
  destruct (matchAgainstRequirements now jobs skills requirements options)
    as [result | e] eqn:Hrun.
  - destruct (mapM normalizeJob jobs) as [njs | e] eqn:Hmap.
    + pose proof (rankedJobs_spec now jobs skills requirements options result njs Hrun Hmap)
        as Hranked.
      cbv zeta in Hranked. rewrite Hmin in Hranked. rewrite Hranked.
      unfold quickMatch. rewrite mapM_compose. unfold bind. rewrite Hmap. reflexivity.
    + unfold matchAgainstRequirements, bind in Hrun. rewrite Hmap in Hrun. discriminate.
  - unfold matchAgainstRequirements, bind in Hrun.
    destruct (mapM normalizeJob jobs) as [njs | e'] eqn:Hmap; [discriminate |].
    injection Hrun as ->.
    unfold quickMatch. rewrite mapM_compose. unfold bind. rewrite Hmap. reflexivity.
Qed.

Lemma rankedJobs_sorted_and_filtered_witness :
  exists result,
    matchAgainstRequirements 2026 [Fixture.endedJob; Sample.basicJob] Sample.skills
      Sample.swiftRequirements (Fixture.atLeast 0.75) = Ok result /\
    List.length (rankedJobs result) = 1%nat /\
    Forall (fun s => exists total, totalScore s = Some total /\ 0.75 <= total)
           (rankedJobs result) /\
    exists dropped,
      List.length dropped = 1%nat /\
      Forall (fun s => forall total, totalScore s = Some total -> total < 0.75) dropped.
Proof.
  destruct (matchAgainstRequirements 2026 [Fixture.endedJob; Sample.basicJob] Sample.skills
              Sample.swiftRequirements (Fixture.atLeast 0.75)) as [result | e] eqn:Hrun;
    [| vm_compute in Hrun; discriminate Hrun].
  destruct (mapM normalizeJob [Fixture.endedJob; Sample.basicJob]) as [njs | e] eqn:Hmap;
    [| vm_compute in Hmap; discriminate Hmap].
  pose proof (rankedJobs_sorted_and_filtered 2026 [Fixture.endedJob; Sample.basicJob]
                Sample.skills Sample.swiftRequirements (Fixture.atLeast 0.75) result njs
                Hrun Hmap) as Hranked.
  cbv zeta in Hranked. destruct Hranked as (_ & _ & Hminimum & _).
  destruct (Hminimum 0.75 eq_refl) as (Hkept & dropped & Hperm & Hdropped).
  assert (Hone : List.length (rankedJobs result) = 1%nat).
  { vm_compute in Hrun. injection Hrun as <-. reflexivity. }
  exists result. split; [reflexivity |]. split; [exact Hone |]. split; [exact Hkept |].
  exists dropped. split; [| exact Hdropped].
  apply Permutation_length in Hperm. rewrite length_app, length_map, Hone in Hperm.
  vm_compute in Hmap. injection Hmap as <-. simpl in Hperm. lia.
Defined.

Lemma quickMatch_is_the_ranking_witness :
  match
    matchAgainstRequirements 2026 [Sample.basicJob] Sample.skills Sample.swiftRequirements
      noOptions
  with
  | Ok result =>
      quickMatch 2026 [Sample.basicJob] Sample.swiftRequirements (mergeConfig None)
      = Ok (rankedJobs result)
  | Throw e =>
      quickMatch 2026 [Sample.basicJob] Sample.swiftRequirements (mergeConfig None) = Throw e
  end.
Proof.
  apply (quickMatch_is_the_ranking 2026 [Sample.basicJob] Sample.skills
           Sample.swiftRequirements noOptions).
  reflexivity.
Defined.

(** ** Minimum requirements *)

Lemma mathRound_percent (n m : nat) :
  (n <= m)%nat -> (0 < m)%nat ->
  (0 <= mathRound ((Qnat n / Qnat m) * 100) <= 100)%Z.
Proof.
  intros Hle Hpos. destruct (ratio_unit n m Hle Hpos) as [H0 H1].
  set (ratio := Qnat n / Qnat m) in *.
  split.
  - apply (Z.le_trans _ (mathRound 0)); [apply Z.leb_le; reflexivity |].
    apply mathRound_mono. lra.
  - apply (Z.le_trans _ (mathRound 100)); [| apply Z.leb_le; reflexivity].
    apply mathRound_mono. lra.
Qed.

Lemma meetsMinimumRequirements_fold (allTechs required : list string) (n : nat)
    (gaps : list string) :
  fold_left
    (fun (acc : nat * list string) reqTech =>
       let found :=
         existsb (fun t => Js.includes (Js.toLowerCase t) (Js.toLowerCase reqTech)
                           || Js.includes (Js.toLowerCase reqTech) (Js.toLowerCase t))
                 allTechs in
       if found then (S (fst acc), snd acc) else (fst acc, (snd acc ++ [reqTech])%list))
    required (n, gaps) =
  ((n + List.length (filter (containsEitherWay allTechs) required))%nat,
   gaps ++ filter (fun t => negb (containsEitherWay allTechs t)) required).
Proof.
  revert n gaps. induction required as [| r rest IH]; intros n gaps; simpl.
  - rewrite Nat.add_0_r, app_nil_r. reflexivity.
  - change (existsb
              (fun t => Js.includes (Js.toLowerCase t) (Js.toLowerCase r)
                        || Js.includes (Js.toLowerCase r) (Js.toLowerCase t))
              allTechs)
      with (containsEitherWay allTechs r).
    destruct (containsEitherWay allTechs r); cbn [fst snd negb]; rewrite IH; simpl;
      rewrite <- ?app_assoc; f_equal; lia.
Qed.

(** X18. When every job normalizes, [meetsMinimumRequirements] returns a
    coverage between 0 and 100 percent, the required technologies that no
    job technology contains or is contained in as its gaps, in their order,
    and [meets] exactly when the coverage reaches the minimum; without gaps
    the coverage is 100. *)
Theorem meetsMinimumRequirements_result
    (jobs : list Job) (requirements : JobRequirements) (minCoveragePercent : Z)
    (normalizedJobs : list NormalizedJob) :
  mapM normalizeJob jobs = Ok normalizedJobs ->
  exists result,
    meetsMinimumRequirements jobs requirements minCoveragePercent = Ok result /\
    (0 <= mr_coveragePercent result <= 100)%Z /\
    mr_gaps result =
      filter (fun t => negb (containsEitherWay (getAllTechnologies normalizedJobs) t))
             (req_requiredTechnologies requirements) /\
    (meets result = true <-> (minCoveragePercent <= mr_coveragePercent result)%Z) /\
    (mr_gaps result = [] -> mr_coveragePercent result = 100%Z).
Proof.
  intros Hmap. unfold meetsMinimumRequirements, bind. rewrite Hmap.
  rewrite meetsMinimumRequirements_fold. cbn [Nat.add app].
  set (required := req_requiredTechnologies requirements).
  set (allTechs := getAllTechnologies normalizedJobs).
  eexists. split; [reflexivity |]. cbn [mr_coveragePercent mr_gaps meets].
  pose proof (filter_length (containsEitherWay allTechs) required) as Hsum.
  pose proof (filter_length_le (containsEitherWay allTechs) required) as Hle.
  repeat split.
  - destruct (0 <? List.length required)%nat eqn:Hpos; [| lia].
    apply Nat.ltb_lt in Hpos. rewrite Qlen_Qnat.
    apply (mathRound_percent _ _ Hle Hpos).
  - destruct (0 <? List.length required)%nat eqn:Hpos; [| lia].
    apply Nat.ltb_lt in Hpos. rewrite Qlen_Qnat.
    apply (mathRound_percent _ _ Hle Hpos).
  - apply Z.leb_le.
  - apply Z.leb_le.
  - intros Hnogap. rewrite Hnogap in Hsum. simpl in Hsum.
    destruct (0 <? List.length required)%nat eqn:Hpos; [| reflexivity].
    apply Nat.ltb_lt in Hpos. rewrite Qlen_Qnat.
    assert (Hfull : Qnat (List.length (filter (containsEitherWay allTechs) required)) /
                    Qnat (List.length required) * 100 == 100).
    { replace (List.length (filter (containsEitherWay allTechs) required))
        with (List.length required) by lia.
      pose proof (Qnat_pos _ Hpos). field. lra. }
    unfold mathRound. rewrite Hfull. reflexivity.
Qed.

Lemma meetsMinimumRequirements_result_witness :
  exists result,
    meetsMinimumRequirements [Sample.basicJob] Sample.swiftRequirements 50 = Ok result /\
    (0 <= mr_coveragePercent result <= 100)%Z.
Proof.
  destruct (mapM normalizeJob [Sample.basicJob]) as [njs | e] eqn:Hmap;
    [| vm_compute in Hmap; discriminate Hmap].
  destruct (meetsMinimumRequirements_result [Sample.basicJob] Sample.swiftRequirements 50 njs
              Hmap) as (result & Hrun & Hrange & _).
  exists result. split; [exact Hrun | exact Hrange].
Defined.

(** ** The coverage analysis *)

Lemma find_existsb {A} (f : A -> bool) (l : list A) :
  match find f l with Some _ => true | None => false end = existsb f l.
Proof.
  induction l as [| a rest IH]; simpl; [reflexivity |].
  destruct (f a); [reflexivity | exact IH].
Qed.

Lemma coverageOf_spec (matchedSkills : list Skill) (jobs : list NormalizedJob) (t : string) :
  let c := coverageOf matchedSkills jobs t in
  tech c = t /\
  covered c = coveredBy matchedSkills jobs t /\
  (covered c = true <-> source c <> None).
Proof.
  cbv zeta. unfold coverageOf, coveredBy.
  rewrite <- (find_existsb (fun s => techMatches (skill_name s) t) matchedSkills).
  rewrite <- (find_existsb (fun job => foundAmong (job_technologies job) t) jobs).
  unfold foundAmong.
  destruct (find _ matchedSkills); [| destruct (find _ jobs)];
    cbn [tech covered source orb]; repeat split;
    try reflexivity; try discriminate; intros H; try congruence.
Qed.

Lemma covered_count (f : string -> Coverage) (g : string -> bool) (techs : list string) :
  (forall t, covered (f t) = g t) ->
  List.length (filter covered (map f techs)) = List.length (filter g techs).
Proof.
  intros H. induction techs as [| t rest IH]; simpl; [reflexivity |].
  rewrite H. destruct (g t); simpl; rewrite IH; reflexivity.
Qed.

Lemma orOne_spec (n : nat) : (0 < orOne n)%nat /\ (n <= orOne n)%nat.
Proof.
  unfold orOne. destruct (n =? 0)%nat eqn:E.
  - apply Nat.eqb_eq in E. lia.
  - apply Nat.eqb_neq in E. lia.
Qed.

Lemma coverage_formula_range (a b n m : nat) :
  (a <= n)%nat -> (b <= m)%nat ->
  (0 <= mathRound ((Qnat a / Qnat (orOne n) * 0.7 + Qnat b / Qnat (orOne m) * 0.3) * 100)
   <= 100)%Z.
Proof.
  intros Ha Hb.
  destruct (orOne_spec n) as [Hn0 Hn1]. destruct (orOne_spec m) as [Hm0 Hm1].
  assert (Hra : 0 <= Qnat a / Qnat (orOne n) <= 1) by (apply ratio_unit; lia).
  assert (Hrb : 0 <= Qnat b / Qnat (orOne m) <= 1) by (apply ratio_unit; lia).
  set (ra := Qnat a / Qnat (orOne n)) in *.
  set (rb := Qnat b / Qnat (orOne m)) in *.
  split.
  - apply (Z.le_trans _ (mathRound 0)); [apply Z.leb_le; reflexivity |].
    apply mathRound_mono. lra.
  - apply (Z.le_trans _ (mathRound 100)); [| apply Z.leb_le; reflexivity].
    apply mathRound_mono. lra.
Qed.

(** X19. [analyzeTechnologyCoverage] reports one entry per required and per
    preferred technology, in the order of the lists; an entry is covered
    exactly when a matched skill's name or a technology of some job matches
    the technology, and exactly then it has a source; the coverage is
    between 0 and 100 percent. *)
Theorem analyzeTechnologyCoverage_entries
    (skills : SkillsData) (jobs : list NormalizedJob) (requirements : JobRequirements) :
  let result := analyzeTechnologyCoverage skills jobs requirements in
  let found :=
    findMatchingSkills skills (req_requiredTechnologies requirements)
                       (req_preferredTechnologies requirements) in
  map tech (tc_required result) = req_requiredTechnologies requirements /\
  map tech (tc_preferred result) = req_preferredTechnologies requirements /\
  map covered (tc_required result) =
    map (coveredBy (ms_required found) jobs) (req_requiredTechnologies requirements) /\
  map covered (tc_preferred result) =
    map (coveredBy (ms_preferred found) jobs) (req_preferredTechnologies requirements) /\
  Forall (fun c => covered c = true <-> source c <> None)
         (tc_required result ++ tc_preferred result) /\
  (0 <= coveragePercent result <= 100)%Z.
Proof.
  cbv zeta. unfold analyzeTechnologyCoverage. cbv zeta.
  cbn [tc_required tc_preferred coveragePercent].
  set (found := findMatchingSkills skills _ _).
  rewrite !map_map.
  assert (Hmap : forall ms l,
             map (fun t => tech (coverageOf ms jobs t)) l = l /\
             map (fun t => covered (coverageOf ms jobs t)) l = map (coveredBy ms jobs) l /\
             Forall (fun c => covered c = true <-> source c <> None)
                    (map (coverageOf ms jobs) l)).
  { intros ms l. induction l as [| t rest (IH1 & IH2 & IH3)]; simpl.
    - repeat split. constructor.
    - destruct (coverageOf_spec ms jobs t) as (Ht & Hc & Hs). cbv zeta in Ht, Hc, Hs.
      rewrite Ht, Hc, IH1, IH2. repeat split. constructor; assumption. }
  destruct (Hmap (ms_required found) (req_requiredTechnologies requirements)) as (R1 & R2 & R3).
  destruct (Hmap (ms_preferred found) (req_preferredTechnologies requirements))
    as (P1 & P2 & P3).
  split; [exact R1 |]. split; [exact P1 |]. split; [exact R2 |]. split; [exact P2 |].
  split; [apply Forall_app; split; assumption |].
  rewrite !length_map.
  apply coverage_formula_range.
  - rewrite <- (length_map (coverageOf (ms_required found) jobs)
                  (req_requiredTechnologies requirements)).
    apply filter_length_le.
  - rewrite <- (length_map (coverageOf (ms_preferred found) jobs)
                  (req_preferredTechnologies requirements)).
    apply filter_length_le.
Qed.

(** ** The technology score and the candidate technologies *)

Lemma foundAmong_incl (candidates1 candidates2 : list string) (t : string) :
  incl candidates1 candidates2 ->
  foundAmong candidates1 t = true -> foundAmong candidates2 t = true.
Proof.
  unfold foundAmong. intros Hincl H.
  apply existsb_exists in H. destruct H as (c & Hin & Hc).
  apply existsb_exists. exists c. split; [apply Hincl; exact Hin | exact Hc].
Qed.

Lemma filter_length_mono {A} (f g : A -> bool) (l : list A) :
  (forall x, f x = true -> g x = true) ->
  (List.length (filter f l) <= List.length (filter g l))%nat.
Proof.
  intros Hfg. induction l as [| a rest IH]; simpl; [lia |].
  destruct (f a) eqn:Hf.
  - rewrite (Hfg a Hf). simpl. lia.
  - destruct (g a); simpl; lia.
Qed.

Lemma filter_all {A} (f : A -> bool) (l : list A) :
  forallb f l = true -> filter f l = l.
Proof.
  induction l as [| a rest IH]; simpl; [reflexivity |].
  intros H. apply andb_prop in H. destruct H as [Ha Hrest].
  rewrite Ha, (IH Hrest). reflexivity.
Qed.

Lemma matched_length (candidates required : list string) :
  List.length (matched (findMatchingTechs candidates required)) =
  List.length (filter (foundAmong candidates) required).
Proof.
  unfold findMatchingTechs.
  destruct (findMatchingTechs_fold candidates required {| matched := []; missing := [] |})
    as [Hm _].
  cbv zeta in Hm. rewrite Hm. cbn [matched app]. apply length_map.
Qed.

Lemma matched_ratio_mono (candidates1 candidates2 required : list string) :
  incl candidates1 candidates2 -> (0 < List.length required)%nat ->
  Qlen (matched (findMatchingTechs candidates1 required)) / Qlen required <=
  Qlen (matched (findMatchingTechs candidates2 required)) / Qlen required.
Proof.
  intros Hincl Hpos. rewrite !Qlen_Qnat, !matched_length.
  pose proof (Qnat_pos _ Hpos) as Hq.
  unfold Qdiv. apply Qmult_le_compat_r.
  - apply Qnat_le. apply filter_length_mono. intros t. apply foundAmong_incl. exact Hincl.
  - apply Qlt_le_weak. apply Qinv_lt_0_compat. exact Hq.
Qed.

Lemma mathMin_mono (x y : Q) : x <= y -> mathMin 1 x <= mathMin 1 y.
Proof.
  intros Hxy.
  destruct (mathMin_spec 1 x) as [[H1 ->] | [H1 ->]],
           (mathMin_spec 1 y) as [[H2 ->] | [H2 ->]]; lra.
Qed.

(** X20. The technology score of a job does not decrease when the job lists
    more technologies, and it is 1 for a job whose technologies match every
    required technology and every keyword that is not a buzzword, when there
    is at least one of these. *)
Theorem scoreTechnologyMatch_monotone
    (job1 job2 : NormalizedJob) (requirements : JobRequirements) :
  incl (job_technologies job1) (job_technologies job2) ->
  scoreTechnologyMatch job1 requirements <= scoreTechnologyMatch job2 requirements /\
  (allRequiredOf requirements <> [] ->
   forallb (foundAmong (job_technologies job1)) (allRequiredOf requirements) = true ->
   scoreTechnologyMatch job1 requirements == 1 /\
   scoreTechnologyMatch job2 requirements == 1).
Proof.
  intros Hincl.
  assert (Hmono : scoreTechnologyMatch job1 requirements
                  <= scoreTechnologyMatch job2 requirements).
  { unfold scoreTechnologyMatch. cbv zeta.
    fold (allRequiredOf requirements).
    destruct (List.length (allRequiredOf requirements) =? 0)%nat eqn:Hnone; [lra |].
    apply Nat.eqb_neq in Hnone.
    assert (Hreq := matched_ratio_mono _ _ (allRequiredOf requirements) Hincl
                      ltac:(lia)).
    apply mathMin_mono.
    destruct (0 <? List.length (req_preferredTechnologies requirements))%nat eqn:Hpref;
      [| exact Hreq].
    apply Nat.ltb_lt in Hpref.
    assert (Hp := matched_ratio_mono _ _ (req_preferredTechnologies requirements) Hincl Hpref).
    lra. }
  split; [exact Hmono |].
  intros Hsome Hall.
  assert (Hfull : scoreTechnologyMatch job1 requirements == 1).
  { unfold scoreTechnologyMatch. cbv zeta. fold (allRequiredOf requirements).
    destruct (List.length (allRequiredOf requirements) =? 0)%nat eqn:Hnone.
    - apply Nat.eqb_eq in Hnone. apply length_zero_iff_nil in Hnone. contradiction.
    - apply Nat.eqb_neq in Hnone.
      assert (Hone : Qlen (matched (findMatchingTechs (job_technologies job1)
                                      (allRequiredOf requirements)))
                     / Qlen (allRequiredOf requirements) == 1).
      { rewrite !Qlen_Qnat, matched_length, (filter_all _ _ Hall).
        assert (Hq : 0 < Qnat (List.length (allRequiredOf requirements)))
          by (apply Qnat_pos; lia).
        field. lra. }
      destruct (0 <? List.length (req_preferredTechnologies requirements))%nat eqn:Hpref.
      + apply Nat.ltb_lt in Hpref.
        destruct (matched_ratio_unit (job_technologies job1)
                    (req_preferredTechnologies requirements) Hpref) as [Hp0 _].
        match goal with
        | |- mathMin 1 ?x == 1 => destruct (mathMin_spec 1 x) as [[H1 ->] | [H1 ->]]; lra
        end.
      + match goal with
        | |- mathMin 1 ?x == 1 => destruct (mathMin_spec 1 x) as [[H1 ->] | [H1 ->]]; lra
        end. }
  split; [exact Hfull |].
  pose proof (scoreTechnologyMatch_unit job2 requirements) as Hunit.
  unfold inUnit in Hunit. lra.
Qed.

Lemma scoreTechnologyMatch_monotone_witness :
  scoreTechnologyMatch (Sample.job None None ["Swift"] None) Sample.swiftRequirements
  <= scoreTechnologyMatch (Sample.job None None ["UIKit"; "Swift"] None)
       Sample.swiftRequirements.
Proof.
  apply (scoreTechnologyMatch_monotone (Sample.job None None ["Swift"] None)
           (Sample.job None None ["UIKit"; "Swift"] None) Sample.swiftRequirements).
  intros t [<- | []]. right. left. reflexivity.
Defined.

(** ** The coverage of a candidate's technologies *)

Lemma matched_missing_lengths (candidates required : list string) :
  (List.length (matched (findMatchingTechs candidates required)) +
   List.length (missing (findMatchingTechs candidates required)) =
   List.length required)%nat.
Proof.
  pose proof (findMatchingTechs_fold_lengths candidates required
                {| matched := []; missing := [] |}) as H.
  unfold findMatchingTechs. simpl in H. lia.
Qed.

Lemma coverage_ratio_full (candidates techs : list string) :
  let ratio :=
    if (0 <? List.length techs)%nat
    then Qlen (matched (findMatchingTechs candidates techs)) / Qlen techs else 1 in
  0 <= ratio <= 1 /\
  (ratio == 1 <-> missing (findMatchingTechs candidates techs) = []).
Proof.
  cbv zeta. pose proof (matched_missing_lengths candidates techs) as Hsum.
  destruct (0 <? List.length techs)%nat eqn:Hpos.
  - apply Nat.ltb_lt in Hpos.
    split; [apply matched_ratio_unit; exact Hpos |].
    rewrite !Qlen_Qnat.
    pose proof (Qnat_pos _ Hpos) as Hq.
    split.
    + intros Hone.
      assert (Heq : Qnat (List.length (matched (findMatchingTechs candidates techs)))
                    == Qnat (List.length (matched (findMatchingTechs candidates techs)))
                       / Qnat (List.length techs) * Qnat (List.length techs))
        by (field; lra).
      rewrite Hone, Qmult_1_l in Heq.
      unfold Qnat, Qeq in Heq. simpl in Heq.
      apply length_zero_iff_nil. lia.
    + intros Hnil. rewrite Hnil in Hsum. simpl in Hsum. rewrite Nat.add_0_r in Hsum.
      rewrite Hsum. field. lra.
  - apply Nat.ltb_ge in Hpos.
    split; [lra |].
    split; [| reflexivity].
    intros _. apply length_zero_iff_nil. lia.
Qed.

(** X21. The three coverages [calculateTechCoverage] returns lie in [0,1];
    the required (preferred) coverage is 1 exactly when no required
    (preferred) technology is missing, and the overall coverage is 1 exactly
    when both are. *)
Theorem calculateTechCoverage_full
    (candidateTechs requiredTechs preferredTechs : list string) :
  let coverage := calculateTechCoverage candidateTechs requiredTechs preferredTechs in
  let missingRequired := missing (findMatchingTechs candidateTechs requiredTechs) in
  let missingPreferred := missing (findMatchingTechs candidateTechs preferredTechs) in
  0 <= requiredCoverage coverage <= 1 /\
  0 <= preferredCoverage coverage <= 1 /\
  0 <= overallCoverage coverage <= 1 /\
  (requiredCoverage coverage == 1 <-> missingRequired = []) /\
  (preferredCoverage coverage == 1 <-> missingPreferred = []) /\
  (overallCoverage coverage == 1 <-> missingRequired = [] /\ missingPreferred = []).
Proof.
  cbv zeta. unfold calculateTechCoverage. cbv zeta.
  cbn [requiredCoverage preferredCoverage overallCoverage].
  destruct (coverage_ratio_full candidateTechs requiredTechs) as [Hr Hrfull].
  destruct (coverage_ratio_full candidateTechs preferredTechs) as [Hp Hpfull].
  cbv zeta in Hr, Hrfull, Hp, Hpfull.
  set (r := if (0 <? List.length requiredTechs)%nat then _ else _) in *.
  set (p := if (0 <? List.length preferredTechs)%nat then _ else _) in *.
  repeat split; try lra; try tauto.
  - apply Hrfull. lra.
  - apply Hpfull. lra.
  - intros [Hmr Hmp]. apply Hrfull in Hmr. apply Hpfull in Hmp. lra.
Qed.

(** ** The match summary *)

Lemma empty_iff_no_member {A} (l : list A) : l = [] <-> forall x, ~ In x l.
Proof.
  split.
  - intros -> x [].
  - intros H. destruct l as [| a rest]; [reflexivity |].
    exfalso. apply (H a). left. reflexivity.
Qed.

Lemma allMissing_empty (scoredJobs : list JobScore) :
  fold_left (fun set j => fold_left setAdd (missingTechnologies j) set) scoredJobs [] = [] <->
  forall j, In j scoredJobs -> missingTechnologies j = [].
Proof.
  rewrite (fold_setAdd_flat_map missingTechnologies scoredJobs []).
  destruct (setAdd_fold (flat_map missingTechnologies scoredJobs) [] (NoDup_nil _))
    as [_ Hin].
  rewrite empty_iff_no_member. split.
  - intros Hnone j Hj. apply empty_iff_no_member. intros x Hx.
    apply (Hnone x). apply Hin. right. apply in_flat_map. exists j. split; assumption.
  - intros Hall x Hx. apply Hin in Hx. destruct Hx as [[] | Hx].
    apply in_flat_map in Hx. destruct Hx as (j & Hj & Hx).
    rewrite (Hall j Hj) in Hx. exact Hx.
Qed.

(** X22. The summary is consistent with the fit it reports: the fit is
    excellent exactly when the coverage is at least 85 percent, and exactly
    then the summary recommends to emphasize achievements; it recommends to
    highlight transferable skills exactly when the fit is moderate or weak,
    so never both; a higher coverage never gives a lower fit; the gaps are
    empty exactly when no ranked job misses a technology, and hold one line
    otherwise. *)
Theorem generateMatchSummary_consistent
    (coveragePercent : Z) (scoredJobs : list JobScore) (requirements : JobRequirements) :
  let s := generateMatchSummary coveragePercent scoredJobs requirements in
  (overallFit s = excellent <-> (85 <= coveragePercent)%Z) /\
  (In "Strong fit - emphasize achievements and impact" (recommendations s)
   <-> overallFit s = excellent) /\
  (In "Highlight transferable skills and learning agility" (recommendations s)
   <-> overallFit s = moderate \/ overallFit s = weak) /\
  (forall higher,
      (coveragePercent <= higher)%Z ->
      (fitRank (overallFit s) <=
       fitRank (overallFit (generateMatchSummary higher scoredJobs requirements)))%nat) /\
  (gaps s = [] <-> forall j, In j scoredJobs -> missingTechnologies j = []) /\
  (List.length (gaps s) <= 1)%nat.
Proof.
  cbv zeta. unfold generateMatchSummary. cbv zeta.
  cbn [overallFit recommendations gaps].
  pose proof (allMissing_empty scoredJobs) as Hmissing.
  set (allMissing := fold_left (fun set j => fold_left setAdd (missingTechnologies j) set)
                               scoredJobs []) in *.
  split; [| split; [| split; [| split; [| split]]]].
  - destruct (85 <=? coveragePercent)%Z eqn:H85; [apply Z.leb_le in H85; tauto |].
    apply Z.leb_gt in H85.
    destruct (70 <=? coveragePercent)%Z, (50 <=? coveragePercent)%Z;
      split; try discriminate; lia.
  - destruct (85 <=? coveragePercent)%Z eqn:H85, (70 <=? coveragePercent)%Z eqn:H70,
      (50 <=? coveragePercent)%Z eqn:H50, (coveragePercent <? 70)%Z eqn:Hlt,
      (3 <? List.length allMissing)%nat;
      simpl; split; intros H; try reflexivity; try discriminate H;
      repeat (destruct H as [H | H]; try discriminate H); try contradiction; auto.
  - destruct (85 <=? coveragePercent)%Z eqn:H85, (70 <=? coveragePercent)%Z eqn:H70,
      (50 <=? coveragePercent)%Z eqn:H50, (coveragePercent <? 70)%Z eqn:Hlt,
      (3 <? List.length allMissing)%nat;
      try (apply Z.leb_le in H85); try (apply Z.leb_gt in H85);
      try (apply Z.leb_le in H70); try (apply Z.leb_gt in H70);
      try (apply Z.leb_le in H50); try (apply Z.leb_gt in H50);
      try (apply Z.ltb_lt in Hlt); try (apply Z.ltb_ge in Hlt);
      try lia;
      simpl; split; intros H;
      repeat (destruct H as [H | H]; try discriminate H); try contradiction; auto.
  - intros higher Hle.
    destruct (85 <=? coveragePercent)%Z eqn:H85, (70 <=? coveragePercent)%Z eqn:H70,
      (50 <=? coveragePercent)%Z eqn:H50,
      (85 <=? higher)%Z eqn:G85, (70 <=? higher)%Z eqn:G70, (50 <=? higher)%Z eqn:G50;
      simpl; try lia;
      try (apply Z.leb_le in H85); try (apply Z.leb_gt in H85);
      try (apply Z.leb_le in H70); try (apply Z.leb_gt in H70);
      try (apply Z.leb_le in H50); try (apply Z.leb_gt in H50);
      try (apply Z.leb_le in G85); try (apply Z.leb_gt in G85);
      try (apply Z.leb_le in G70); try (apply Z.leb_gt in G70);
      try (apply Z.leb_le in G50); try (apply Z.leb_gt in G50); lia.
  - rewrite <- Hmissing.
    destruct allMissing as [| t rest]; simpl; split; intros H;
      try reflexivity; discriminate H.
  - destruct (0 <? List.length allMissing)%nat; simpl; lia.
Qed.

(** ** The summary template and the relevance weights *)

Lemma not_a_mobile_technology (t : string) :
  Js.arrIncludes ["Swift"; "Kotlin"; "iOS"; "Android"; "React Native"; "Flutter";
                  "UIKit"; "SwiftUI"] t = false ->
  Js.arrIncludes mobileTechnologies t = false.
Proof.
  unfold Js.arrIncludes, mobileTechnologies. cbn [existsb]. intros Ht.
  repeat (apply orb_false_iff in Ht; destruct Ht as [? Ht]).
  repeat (apply orb_false_iff; split; try assumption).
Qed.

Lemma no_mobile_technology (techs : list string) :
  existsb (fun t => Js.arrIncludes
                      ["Swift"; "Kotlin"; "iOS"; "Android"; "React Native"; "Flutter";
                       "UIKit"; "SwiftUI"] t) techs = false ->
  existsb (fun t => Js.arrIncludes mobileTechnologies t) techs = false.
Proof.
  induction techs as [| t rest IH]; cbn [existsb]; [reflexivity |].
  intros H. apply orb_false_iff in H. destruct H as [Ht Hrest].
  rewrite (IH Hrest), (not_a_mobile_technology t Ht). reflexivity.
Qed.

(** X23. [recommendSummaryTemplate] always names one of the six templates,
    and it falls back to "fullstack" or "default" only for requirements
    under which no relevance weight of a job applies: every job then gets
    the neutral relevance score 0.5. *)
Theorem recommendSummaryTemplate_fallback (requirements : JobRequirements) :
  let template := recommendSummaryTemplate requirements in
  In template ["mobile"; "leadership"; "startup"; "enterprise"; "fullstack"; "default"] /\
  (template = "fullstack" \/ template = "default" ->
   forall job, scoreRelevanceWeights job requirements == 0.5).
Proof.
  cbv zeta. unfold recommendSummaryTemplate. cbv zeta.
  destruct (req_leadershipRequired requirements
            || String.eqb (req_seniority requirements) "lead"
            || String.eqb (req_seniority requirements) "manager"
            || String.eqb (req_seniority requirements) "director") eqn:Hlead.
  { split; [simpl; tauto | intros [H | H]; discriminate H]. }
  destruct (existsb _ (req_requiredTechnologies requirements)) eqn:Hmobile.
  { split; [simpl; tauto | intros [H | H]; discriminate H]. }
  destruct (optEq (req_companyType requirements) "startup"
            || optEq (req_companyType requirements) "scaleup") eqn:Hstartup.
  { split; [simpl; tauto | intros [H | H]; discriminate H]. }
  destruct (optEq (req_companyType requirements) "enterprise"
            || optEq (req_companyType requirements) "faang") eqn:Henterprise.
  { split; [simpl; tauto | intros [H | H]; discriminate H]. }
  split.
  - destruct (existsb _ _ && existsb _ _); simpl; tauto.
  - intros _ job. unfold scoreRelevanceWeights.
    destruct (job_relevanceWeights job) as [weights |]; [| reflexivity].
    cbv zeta. rewrite (no_mobile_technology _ Hmobile), Hstartup, Henterprise.
    apply orb_false_iff in Hlead. destruct Hlead as [Hlead _]. rewrite Hlead.
    reflexivity.
Qed.

Lemma recommendSummaryTemplate_fallback_witness :
  scoreRelevanceWeights
    (Sample.job None None [] (Some (Sample.relevance (Some 0.9) (Some 0.8))))
    (Sample.requiring "senior" ["React"; "Go"])
  == 0.5.
Proof.
  apply (recommendSummaryTemplate_fallback (Sample.requiring "senior" ["React"; "Go"])).
  left. reflexivity.
Defined.

(** ** Where the selected content comes from *)

Lemma relevant_jobs_are_ranked
    (now : Z) (requirements : JobRequirements) (config : MatchConfig)
    (normalizedJobs : list NormalizedJob) (minJobScore : option Q)
    (job : NormalizedJob) :
  let scoredJobs :=
    jsSort (fun a b => compareTotals (totalScore (snd a)) (totalScore (snd b)))
           (map (fun job => (job, scoreJob now job requirements config)) normalizedJobs) in
  let filteredJobs :=
    match minJobScore with
    | Some minJobScore =>
        if Qeq_bool minJobScore 0 then scoredJobs
        else filter (fun j => optGe (totalScore (snd j)) minJobScore) scoredJobs
    | None => scoredJobs
    end in
  In job (map fst filteredJobs) ->
  In job normalizedJobs /\
  In (scoreJob now job requirements config) (map snd filteredJobs).
Proof.
  cbv zeta. intros Hin. apply in_map_iff in Hin. destruct Hin as ([j s] & Hfst & Hpair).
  simpl in Hfst. subst j.
  assert (Hscored : In (job, s)
                       (map (fun job => (job, scoreJob now job requirements config))
                            normalizedJobs)).
  { destruct minJobScore as [m |]; [destruct (Qeq_bool m 0) |];
      try (apply filter_In in Hpair; destruct Hpair as [Hpair _]);
      apply (proj1 (jsSort_In _ _ _)) in Hpair; exact Hpair. }
  apply in_map_iff in Hscored. destruct Hscored as (job' & Heq & Hjob).
  injection Heq as -> <-.
  split; [exact Hjob |].
  apply in_map_iff. exists (job, scoreJob now job requirements config).
  split; [reflexivity | exact Hpair].
Qed.

(** X24. The projects and achievements a match selects come only from jobs
    that are ranked in the result: from jobs that passed the minimum score,
    when one is set. Each selected entry is a project (an achievement) of a
    normalized job whose score is among the ranked jobs. *)
Theorem selected_content_from_ranked_jobs
    (now : Z) (jobs : list Job) (skills : SkillsData) (requirements : JobRequirements)
    (options : MatchOptions) (result : MatchResult) (normalizedJobs : list NormalizedJob) :
  matchAgainstRequirements now jobs skills requirements options = Ok result ->
  mapM normalizeJob jobs = Ok normalizedJobs ->
  let config := mergeConfig (opt_config options) in
  (forall p, In p (selectedProjects result) ->
     exists job project,
       In job normalizedJobs /\
       In (scoreJob now job requirements config) (rankedJobs result) /\
       In project (job_projects job) /\
       p = scoreProject project requirements) /\
  (forall a, In a (selectedAchievements result) ->
     exists job achievement,
       In job normalizedJobs /\
       In (scoreJob now job requirements config) (rankedJobs result) /\
       In achievement (job_achievements job) /\
       a = scoreAchievement achievement requirements).
Proof.
  intros Hrun Hmap. cbv zeta.
  unfold matchAgainstRequirements, bind in Hrun. rewrite Hmap in Hrun.
  cbv zeta in Hrun. injection Hrun as <-.
  cbn [selectedProjects selectedAchievements rankedJobs].
  pose proof (relevant_jobs_are_ranked now requirements (mergeConfig (opt_config options))
                normalizedJobs (opt_minJobScore options)) as Hranked.
  cbv zeta in Hranked.
  split.
  - intros p Hp. unfold selectProjects, slice0 in Hp. cbv zeta in Hp.
    apply In_firstn in Hp. apply (proj1 (jsSort_In _ _ _)) in Hp.
    apply allScoredProjects_origin in Hp. destruct Hp as (job & project & Hjob & Hproject & ->).
    destruct (Hranked job Hjob) as [Hnorm Hscore].
    exists job, project. auto.
  - intros a Ha. unfold selectAchievements, slice0 in Ha. cbv zeta in Ha.
    apply In_firstn in Ha. apply (proj1 (jsSort_In _ _ _)) in Ha.
    apply allScoredAchievements_origin in Ha.
    destruct Ha as (job & achievement & Hjob & Hachievement & ->).
    destruct (Hranked job Hjob) as [Hnorm Hscore].
    exists job, achievement. auto.
Qed.

Lemma selected_content_from_ranked_jobs_witness :
  exists result,
    matchAgainstRequirements 2026 [Fixture.walletJob] Sample.skills Sample.swiftRequirements
      noOptions = Ok result /\
    selectedProjects result <> [] /\
    Forall (fun p =>
              exists job project,
                In (scoreJob 2026 job Sample.swiftRequirements (mergeConfig None))
                   (rankedJobs result) /\
                In project (job_projects job) /\
                p = scoreProject project Sample.swiftRequirements)
           (selectedProjects result).
Proof.
  destruct (matchAgainstRequirements 2026 [Fixture.walletJob] Sample.skills
              Sample.swiftRequirements noOptions) as [result | e] eqn:Hrun;
    [| vm_compute in Hrun; discriminate Hrun].
  destruct (mapM normalizeJob [Fixture.walletJob]) as [njs | e] eqn:Hmap;
    [| vm_compute in Hmap; discriminate Hmap].
  destruct (selected_content_from_ranked_jobs 2026 [Fixture.walletJob] Sample.skills
              Sample.swiftRequirements noOptions result njs Hrun Hmap) as [Hprojects _].
  exists result. split; [reflexivity |]. split.
  - vm_compute in Hrun. injection Hrun as <-. discriminate.
  - apply Forall_forall. intros p Hp.
    destruct (Hprojects p Hp) as (job & project & _ & Hranked & Hproject & Heq).
    exists job, project. auto.
Defined.

(* ================================================================= *)
(** * Properties of the requirements parser *)

Lemma toLowerCase_toUpperCase (s : string) :
  Js.toLowerCase (Js.toUpperCase s) = Js.toLowerCase s.
Proof.
  unfold Js.toLowerCase, Js.toUpperCase.
  induction s as [| c r IH]; simpl; [reflexivity |].
  rewrite lowerChar_upperChar, IH. reflexivity.
Qed.

Lemma truthy_toUpperCase (s : string) :
  truthy (Some (Js.toUpperCase s)) = option_map Js.toUpperCase (truthy (Some s)).
Proof. destruct s; reflexivity. Qed.

(** Each valid value is kept as it is by the normalizer [f]. *)
Lemma valid_values_fixed (f : option string -> option string) (valid : list string) :
  forallb (fun v => match f (Some v) with Some r => String.eqb r v | None => false end) valid
  = true ->
  forall v, In v valid -> f (Some v) = Some v.
Proof.
  intros Hall v Hin. rewrite forallb_forall in Hall. specialize (Hall v Hin).
  destruct (f (Some v)) as [r |]; [| discriminate].
  apply String.eqb_eq in Hall. subst. reflexivity.
Qed.

Lemma normalizeSeniority_valid (value : option string) :
  In (normalizeSeniority value) VALID_SENIORITY.
Proof.
  unfold normalizeSeniority.
  destruct (truthy value) as [v |]; [| simpl; tauto].
  cbv zeta.
  destruct (Js.arrIncludes VALID_SENIORITY (Js.trim (Js.toLowerCase v))) eqn:Hvalid.
  - apply arrIncludes_In. exact Hvalid.
  - repeat match goal with
           | |- context [if ?b then _ else _] => destruct b
           end; simpl; tauto.
Qed.

(** X25. [normalizeSeniority] always returns one of the eight levels of the
    seniority scale the matcher scores on, so the requirement level it
    produces is never unknown to [scoreSeniorityMatch]; it keeps each valid
    level as it is, so it is idempotent, and on ASCII text it ignores the
    case of the letters. *)
Theorem normalizeSeniority_on_scale (value : option string) :
  In (normalizeSeniority value) VALID_SENIORITY /\
  indexOf levelOrder (normalizeSeniority value) <> (-1)%Z /\
  normalizeSeniority (Some (normalizeSeniority value)) = normalizeSeniority value /\
  (forall v, asciiOnly v = true ->
             normalizeSeniority (Some (Js.toUpperCase v)) = normalizeSeniority (Some v)).
Proof.
  pose proof (normalizeSeniority_valid value) as Hvalid.
  assert (Hall : Forall (fun level => indexOf levelOrder level <> (-1)%Z /\
                                      normalizeSeniority (Some level) = level)
                        VALID_SENIORITY).
  { repeat constructor; vm_compute; discriminate. }
  rewrite Forall_forall in Hall. destruct (Hall _ Hvalid) as [Hindex Hfixed].
  split; [exact Hvalid |]. split; [exact Hindex |]. split; [exact Hfixed |].
  intros v _. unfold normalizeSeniority. rewrite truthy_toUpperCase.
  destruct (truthy (Some v)) as [w |] eqn:Hw; [| reflexivity].
  cbn [option_map]. rewrite toLowerCase_toUpperCase. reflexivity.
Qed.

Lemma normalizeSeniority_on_scale_witness :
  normalizeSeniority (Some "SR. ENGINEER") = normalizeSeniority (Some "sr. engineer") /\
  normalizeSeniority (Some "sr. engineer") = "senior" /\
  indexOf levelOrder (normalizeSeniority (Some "wizard")) <> (-1)%Z.
Proof.
  destruct (normalizeSeniority_on_scale (Some "wizard")) as (_ & Hindex & _ & Hcase).
  split; [apply (Hcase "sr. engineer"); reflexivity |].
  split; [reflexivity | exact Hindex].
Defined.

Lemma normalizeDomain_valid (value : option string) (result : string) :
  normalizeDomain value = Some result -> In result VALID_DOMAINS.
Proof.
  unfold normalizeDomain.
  destruct (truthy value) as [v |]; [| discriminate].
  cbv zeta.
  destruct (Js.arrIncludes VALID_DOMAINS (Js.trim (Js.toLowerCase v))) eqn:Hvalid.
  - intros [= <-]. apply arrIncludes_In. exact Hvalid.
  - repeat match goal with
           | |- context [if ?b then _ else _] => destruct b
           end; intros [= <-]; simpl; tauto.
Qed.

Lemma normalizeCompanyType_valid (value : option string) (result : string) :
  normalizeCompanyType value = Some result -> In result VALID_COMPANY_TYPES.
Proof.
  unfold normalizeCompanyType.
  destruct (truthy value) as [v |]; [| discriminate].
  cbv zeta.
  destruct (Js.arrIncludes VALID_COMPANY_TYPES (Js.trim (Js.toLowerCase v))) eqn:Hvalid.
  - intros [= <-]. apply arrIncludes_In. exact Hvalid.
  - repeat match goal with
           | |- context [if ?b then _ else _] => destruct b
           end; try discriminate; intros [= <-]; simpl; tauto.
Qed.

Lemma normalizeWorkArrangement_valid (value : option string) (result : string) :
  normalizeWorkArrangement value = Some result -> In result VALID_WORK_ARRANGEMENTS.
Proof.
  unfold normalizeWorkArrangement.
  destruct (truthy value) as [v |]; [| discriminate].
  cbv zeta.
  destruct (Js.arrIncludes VALID_WORK_ARRANGEMENTS (Js.trim (Js.toLowerCase v))) eqn:Hvalid.
  - intros [= <-]. apply arrIncludes_In. exact Hvalid.
  - repeat match goal with
           | |- context [if ?b then _ else _] => destruct b
           end; try discriminate; intros [= <-]; simpl; tauto.
Qed.

(** X26. What [normalizeDomain], [normalizeCompanyType] and
    [normalizeWorkArrangement] return is absent or one of the valid values
    of its field, and each of them keeps a value it returned, so applying it
    twice changes nothing; the domain is absent only for an absent or empty
    input, every other text falls back to a valid domain. *)
Theorem optional_fields_valid_or_absent (value : option string) :
  (forall result, normalizeDomain value = Some result ->
     In result VALID_DOMAINS /\ normalizeDomain (Some result) = Some result) /\
  (forall result, normalizeCompanyType value = Some result ->
     In result VALID_COMPANY_TYPES /\ normalizeCompanyType (Some result) = Some result) /\
  (forall result, normalizeWorkArrangement value = Some result ->
     In result VALID_WORK_ARRANGEMENTS /\
     normalizeWorkArrangement (Some result) = Some result) /\
  (normalizeDomain value = None <-> truthy value = None).
Proof.
  split; [| split; [| split]].
  - intros result H. apply normalizeDomain_valid in H. split; [exact H |].
    apply (valid_values_fixed normalizeDomain VALID_DOMAINS); [reflexivity | exact H].
  - intros result H. apply normalizeCompanyType_valid in H. split; [exact H |].
    apply (valid_values_fixed normalizeCompanyType VALID_COMPANY_TYPES);
      [reflexivity | exact H].
  - intros result H. apply normalizeWorkArrangement_valid in H. split; [exact H |].
    apply (valid_values_fixed normalizeWorkArrangement VALID_WORK_ARRANGEMENTS);
      [reflexivity | exact H].
  - unfold normalizeDomain. destruct (truthy value) as [v |]; [| tauto].
    cbv zeta.
    repeat match goal with
           | |- context [if ?b then _ else _] => destruct b
           end; split; discriminate.
Qed.

(** ** Keywords *)

Lemma trimEnd_cons (c : ascii) (r : string) :
  Js.trimEnd (String c r) =
  match Js.trimEnd r with
  | EmptyString => if Js.isSpace c then EmptyString else String c EmptyString
  | r' => String c r'
  end.
Proof. reflexivity. Qed.

Lemma trimEnd_idempotent (s : string) : Js.trimEnd (Js.trimEnd s) = Js.trimEnd s.
Proof.
  induction s as [| c r IH]; [reflexivity |].
  rewrite (trimEnd_cons c r). destruct (Js.trimEnd r) as [| c' r'] eqn:Hr.
  - destruct (Js.isSpace c) eqn:Hc; [reflexivity |].
    rewrite trimEnd_cons. cbn [Js.trimEnd]. rewrite Hc. reflexivity.
  - rewrite trimEnd_cons, IH. reflexivity.
Qed.

Lemma trimStart_fixed (c : ascii) (r : string) :
  Js.isSpace c = false -> Js.trimStart (String c r) = String c r.
Proof. intros Hc. cbn [Js.trimStart]. rewrite Hc. reflexivity. Qed.

Lemma trimStart_cases (s : string) :
  Js.trimStart s = EmptyString \/
  exists c r, Js.trimStart s = String c r /\ Js.isSpace c = false.
Proof.
  induction s as [| c r IH]; [left; reflexivity |].
  cbn [Js.trimStart]. destruct (Js.isSpace c) eqn:Hc; [exact IH |].
  right. exists c, r. split; [reflexivity | exact Hc].
Qed.

Lemma trimEnd_head (c : ascii) (r : string) :
  Js.isSpace c = false -> exists r', Js.trimEnd (String c r) = String c r'.
Proof.
  intros Hc. cbn [Js.trimEnd]. destruct (Js.trimEnd r) as [| c' r'].
  - rewrite Hc. exists EmptyString. reflexivity.
  - exists (String c' r'). reflexivity.
Qed.

Lemma trim_idempotent (s : string) : Js.trim (Js.trim s) = Js.trim s.
Proof.
  unfold Js.trim. destruct (trimStart_cases s) as [-> | (c & r & -> & Hc)]; [reflexivity |].
  destruct (trimEnd_head c r Hc) as [r' Hr']. rewrite Hr' at 1.
  rewrite (trimStart_fixed c r' Hc), <- Hr'. apply trimEnd_idempotent.
Qed.

Lemma lower_case_inherited_keys (key : string) :
  Js.arrIncludes objectPrototypeKeys (Js.toLowerCase key) = true ->
  Js.toLowerCase key = "constructor" \/ Js.toLowerCase key = "__proto__".
Proof.
  intros H. apply arrIncludes_In in H.
  assert (Hlower : Js.toLowerCase (Js.toLowerCase key) = Js.toLowerCase key)
    by apply toLowerCase_idempotent.
  unfold objectPrototypeKeys in H. simpl in H.
  repeat (destruct H as [H | H];
          [rewrite <- H in Hlower; try discriminate Hlower; auto |]).
  contradiction.
Qed.

Lemma stringsOf_non_blank (items : list JsonItem) (s : string) :
  In s (stringsOf (filter isNonBlankString items)) <->
  In (ItemString s) items /\ Js.trim s <> EmptyString.
Proof.
  unfold stringsOf. rewrite in_flat_map. split.
  - intros (item & Hitem & Hs). apply filter_In in Hitem. destruct Hitem as [Hin Hkeep].
    destruct item as [t |]; [| contradiction].
    destruct Hs as [<- | []]. split; [exact Hin |].
    simpl in Hkeep. apply Nat.ltb_lt in Hkeep.
    intros Hempty. rewrite Hempty in Hkeep. simpl in Hkeep. lia.
  - intros [Hin Hnonblank]. exists (ItemString s). split; [| left; reflexivity].
    apply filter_In. split; [exact Hin |].
    simpl. apply Nat.ltb_lt. destruct (Js.trim s); [contradiction | simpl; lia].
Qed.

(** X27. The keywords of the validated requirements come from the strings
    of the raw array that are not blank. Each is normalized to a string
    that is not empty and that [normalizeKeyword] keeps as it is, so that
    normalizing twice changes nothing, with one exception: a keyword that
    reads "constructor" or "__proto__", whatever its case and the white
    space around it, is replaced by the object the mappings table inherits
    under that name. *)
Theorem normalizedKeywords_values (keywords : option (list JsonItem)) :
  Forall (fun value =>
            match value with
            | KeywordString s =>
                s <> EmptyString /\ normalizeKeyword s = KeywordString s
            | InheritedObject key => key = "constructor" \/ key = "__proto__"
            end)
         (normalizedKeywords keywords) /\
  List.length (normalizedKeywords keywords) = List.length (normalizeArray keywords) /\
  (forall items s,
      keywords = Some items ->
      (In s (normalizeArray keywords) <-> In (ItemString s) items /\ Js.trim s <> EmptyString)).
Proof.
  split; [| split].
  - unfold normalizedKeywords. apply Forall_forall. intros value Hvalue.
    apply in_map_iff in Hvalue. destruct Hvalue as (keyword & <- & Hkeyword).
    assert (Hnonblank : Js.trim keyword <> EmptyString).
    { destruct keywords as [items |]; [| contradiction].
      apply stringsOf_non_blank in Hkeyword. tauto. }
    unfold normalizeKeyword. cbv zeta.
    destruct (lookup keywordMappings (Js.toLowerCase (Js.trim keyword))) as [mapped |]
      eqn:Hmapped.
    + assert (Hvalues : Forall (fun m => m <> EmptyString /\
                                         normalizeKeyword m = KeywordString m)
                               (map snd keywordMappings)).
      { repeat constructor; vm_compute; discriminate. }
      rewrite Forall_forall in Hvalues. apply Hvalues.
      clear - Hmapped. revert Hmapped.
      generalize (Js.toLowerCase (Js.trim keyword)). intros key.
      induction keywordMappings as [| [k v] rest IH]; [discriminate |].
      cbn [lookup map snd]. destruct (String.eqb k key).
      * intros [= ->]. left. reflexivity.
      * intros H. right. apply IH. exact H.
    + destruct (Js.arrIncludes objectPrototypeKeys (Js.toLowerCase (Js.trim keyword)))
        eqn:Hinherited.
      * apply lower_case_inherited_keys. exact Hinherited.
      * split; [exact Hnonblank |].
        rewrite trim_idempotent, Hmapped, Hinherited. reflexivity.
  - unfold normalizedKeywords. apply length_map.
  - intros items s ->. apply stringsOf_non_blank.
Qed.

(* ================================================================= *)
(** * Properties of the technology filter *)

Lemma In_setAdd (seen : list string) (x y : string) :
  In y (setAdd seen x) <-> In y seen \/ y = x.
Proof.
  unfold setAdd. destruct (Js.arrIncludes seen x) eqn:E.
  - apply arrIncludes_In in E. split; [auto | intros [H | ->]; assumption].
  - rewrite in_app_iff. simpl. intuition.
Qed.

Lemma NoDup_firstn {A} (n : nat) (l : list A) : NoDup l -> NoDup (firstn n l).
Proof.
  revert n. induction l as [| a rest IH]; intros n Hnd.
  - rewrite firstn_nil. constructor.
  - destruct n as [| n]; [constructor |].
    inversion Hnd as [| ? ? Hnot Hrest]; subst.
    simpl. constructor; [| apply IH; exact Hrest].
    intros Hin. apply Hnot. apply (In_firstn n rest a Hin).
Qed.

Lemma In_sliceTo {A} (finish : Z) (l : list A) (x : A) : In x (sliceTo finish l) -> In x l.
Proof. unfold sliceTo. destruct (finish <? 0)%Z; apply In_firstn. Qed.

Lemma sliceTo_length {A} (finish : Z) (l : list A) :
  (0 <= finish)%Z -> (List.length (sliceTo finish l) <= Z.to_nat finish)%nat.
Proof.
  intros Hpos. unfold sliceTo.
  destruct (finish <? 0)%Z eqn:E; [apply Z.ltb_lt in E; lia |].
  apply firstn_le_length.
Qed.

Lemma sliceTo_all {A} (finish : Z) (l : list A) :
  (0 <= finish)%Z -> (List.length l <= Z.to_nat finish)%nat -> sliceTo finish l = l.
Proof.
  intros Hpos Hlen. unfold sliceTo.
  destruct (finish <? 0)%Z eqn:E; [apply Z.ltb_lt in E; lia |].
  apply firstn_all2. exact Hlen.
Qed.

Lemma NoDup_lower_sliceTo (finish : Z) (l : list string) :
  NoDup (map Js.toLowerCase l) -> NoDup (map Js.toLowerCase (sliceTo finish l)).
Proof.
  intros Hnd. unfold sliceTo.
  destruct (finish <? 0)%Z; rewrite <- firstn_map; apply NoDup_firstn; exact Hnd.
Qed.

Lemma NoDup_lower_filter (keep : string -> bool) (l : list string) :
  NoDup (map Js.toLowerCase l) -> NoDup (map Js.toLowerCase (filter keep l)).
Proof.
  induction l as [| a rest IH]; simpl; [auto |].
  intros Hnd. inversion Hnd as [| ? ? Hnot Hrest]; subst.
  destruct (keep a); simpl; [| apply IH; exact Hrest].
  constructor; [| apply IH; exact Hrest].
  intros Hin. apply Hnot. apply in_map_iff in Hin. destruct Hin as (x & Hx & Hin).
  apply filter_In in Hin. apply in_map_iff. exists x. tauto.
Qed.

(** What the filter of duplicates keeps: technologies of the list whose
    lower-case name was not seen, each lower-case name once. *)
Lemma uniqueFrom_In (seen technologies : list string) (t : string) :
  In t (uniqueFrom seen technologies) ->
  In t technologies /\ ~ In (Js.toLowerCase t) seen.
Proof.
  revert seen. induction technologies as [| tech rest IH]; intros seen; simpl; [tauto |].
  destruct (Js.arrIncludes seen (Js.toLowerCase tech)) eqn:E.
  - intros H. destruct (IH seen H). tauto.
  - intros [<- | H].
    + split; [left; reflexivity |]. intros Hin. apply arrIncludes_In in Hin. congruence.
    + destruct (IH _ H) as [Hin Hnot]. split; [right; exact Hin |].
      intros Hseen. apply Hnot. apply In_setAdd. left. exact Hseen.
Qed.

Lemma uniqueFrom_NoDup (seen technologies : list string) :
  NoDup (map Js.toLowerCase (uniqueFrom seen technologies)).
Proof.
  revert seen. induction technologies as [| tech rest IH]; intros seen; simpl;
    [constructor |].
  destruct (Js.arrIncludes seen (Js.toLowerCase tech)); [apply IH |].
  simpl. constructor; [| apply IH].
  intros Hin. apply in_map_iff in Hin. destruct Hin as (x & Hx & Hin).
  apply uniqueFrom_In in Hin. destruct Hin as [_ Hnot]. apply Hnot.
  apply In_setAdd. right. exact Hx.
Qed.

Lemma uniqueFrom_covers (seen technologies : list string) (t : string) :
  In t technologies ->
  In (Js.toLowerCase t) seen \/
  exists t', In t' (uniqueFrom seen technologies) /\ Js.toLowerCase t' = Js.toLowerCase t.
Proof.
  revert seen. induction technologies as [| tech rest IH]; intros seen; simpl; [tauto |].
  destruct (Js.arrIncludes seen (Js.toLowerCase tech)) eqn:E.
  - intros [<- | Hin]; [left; apply arrIncludes_In; exact E | apply IH; exact Hin].
  - intros [<- | Hin].
    + right. exists tech. split; [left; reflexivity | reflexivity].
    + destruct (IH (setAdd seen (Js.toLowerCase tech)) Hin) as [Hseen | (t' & Ht' & Heq)].
      * apply In_setAdd in Hseen. destruct Hseen as [Hseen | Heq]; [left; exact Hseen |].
        right. exists tech. split; [left; reflexivity | symmetry; exact Heq].
      * right. exists t'. split; [right; exact Ht' | exact Heq].
Qed.

Lemma uniqueFrom_fixed (seen technologies : list string) :
  NoDup (map Js.toLowerCase technologies) ->
  (forall t, In t technologies -> ~ In (Js.toLowerCase t) seen) ->
  uniqueFrom seen technologies = technologies.
Proof.
  revert seen. induction technologies as [| tech rest IH]; intros seen Hnd Hnew; simpl;
    [reflexivity |].
  inversion Hnd as [| ? ? Hnot Hrest]; subst.
  destruct (Js.arrIncludes seen (Js.toLowerCase tech)) eqn:E.
  - apply arrIncludes_In in E. exfalso. apply (Hnew tech); [left; reflexivity | exact E].
  - f_equal. apply IH; [exact Hrest |].
    intros t Ht Hseen. apply In_setAdd in Hseen. destruct Hseen as [Hseen | Heq].
    + apply (Hnew t); [right; exact Ht | exact Hseen].
    + apply Hnot. rewrite <- Heq. apply in_map. exact Ht.
Qed.

(** [shouldFilter] reads the list of all technologies only through the
    lower-case names that occur in it. *)
Lemma shouldFilter_more (tech : string) (techs1 techs2 : list string)
    (options : FilterOptions) :
  (forall t, In t techs1 -> exists t', In t' techs2 /\ Js.toLowerCase t' = Js.toLowerCase t) ->
  shouldFilter tech techs1 options = true -> shouldFilter tech techs2 options = true.
Proof.
  intros Hsub. unfold shouldFilter. cbv zeta.
  destruct (removeObvious options && _); [reflexivity |].
  destruct (removeVague options && _); [reflexivity |].
  destruct (removeRedundant options); [| discriminate].
  intros H. apply existsb_exists in H. destruct H as ([keep remove] & Hpair & H).
  apply andb_prop in H. destruct H as [Hremove Hkeep].
  apply existsb_exists in Hkeep. destruct Hkeep as (t & Ht & Hsame).
  destruct (Hsub t Ht) as (t' & Ht' & Heq).
  apply existsb_exists. exists (keep, remove). split; [exact Hpair |].
  rewrite Hremove. apply existsb_exists. exists t'. split; [exact Ht' |].
  unfold sameIgnoringCase in *. rewrite Heq. exact Hsame.
Qed.

Lemma shouldFilter_unique (tech : string) (technologies : list string)
    (options : FilterOptions) :
  shouldFilter tech (uniqueFrom [] technologies) options
  = shouldFilter tech technologies options.
Proof.
  destruct (shouldFilter tech technologies options) eqn:Hall.
  - apply (shouldFilter_more tech technologies); [| exact Hall].
    intros t Ht. destruct (uniqueFrom_covers [] technologies t Ht) as [[] | H]. exact H.
  - destruct (shouldFilter tech (uniqueFrom [] technologies) options) eqn:Hunique;
      [| reflexivity].
    rewrite <- Hall. symmetry.
    apply (shouldFilter_more tech (uniqueFrom [] technologies)); [| exact Hunique].
    intros t Ht. apply uniqueFrom_In in Ht. exists t. tauto.
Qed.

Lemma filter_fixed {A} (keep : A -> bool) (l : list A) :
  (forall x, In x l -> keep x = true) -> filter keep l = l.
Proof.
  induction l as [| a rest IH]; simpl; [reflexivity |].
  intros H. rewrite (H a (or_introl eq_refl)). f_equal. apply IH.
  intros x Hx. apply H. right. exact Hx.
Qed.

Lemma filterTechnologies_In (technologies : list string) (options : PartialFilterOptions)
    (t : string) :
  In t (filterTechnologies technologies options) ->
  In t (uniqueFrom [] technologies) /\
  shouldFilter t technologies (mergeFilterOptions options) = false.
Proof.
  unfold filterTechnologies. cbv zeta. intros H.
  apply In_sliceTo in H. apply filter_In in H. destruct H as [Hin Hkeep].
  split; [exact Hin |].
  apply negb_true_iff in Hkeep. rewrite shouldFilter_unique in Hkeep. exact Hkeep.
Qed.

Lemma filterTechnologies_NoDup (technologies : list string) (options : PartialFilterOptions) :
  NoDup (map Js.toLowerCase (filterTechnologies technologies options)).
Proof.
  unfold filterTechnologies. cbv zeta.
  apply NoDup_lower_sliceTo, NoDup_lower_filter, uniqueFrom_NoDup.
Qed.

(** X28. [filterTechnologies] returns technologies of the list it is given,
    no two of them equal up to the case of the letters, and none that
    [shouldFilter] rejects with respect to the given list (an obvious tool,
    a vague term, or the redundant side of a pair whose other side is in
    the list, as far as the options ask for it); for a maximum count that
    is not negative it returns at most that many technologies, and
    filtering its result again changes nothing. *)
Theorem filterTechnologies_clean
    (technologies : list string) (options : PartialFilterOptions) :
  let opts := mergeFilterOptions options in
  let result := filterTechnologies technologies options in
  (forall t, In t result -> In t technologies) /\
  NoDup (map Js.toLowerCase result) /\
  (forall t, In t result -> shouldFilter t technologies opts = false) /\
  ((0 <= maxCount opts)%Z ->
   (List.length result <= Z.to_nat (maxCount opts))%nat /\
   filterTechnologies result options = result).
Proof.
  cbv zeta.
  split; [| split; [| split]].
  - intros t Ht. apply filterTechnologies_In in Ht. destruct Ht as [Ht _].
    apply uniqueFrom_In in Ht. tauto.
  - apply filterTechnologies_NoDup.
  - intros t Ht. apply filterTechnologies_In in Ht. tauto.
  - intros Hcount.
    assert (Hlen : (List.length (filterTechnologies technologies options)
                    <= Z.to_nat (maxCount (mergeFilterOptions options)))%nat).
    { unfold filterTechnologies. cbv zeta. apply sliceTo_length. exact Hcount. }
    split; [exact Hlen |].
    set (result := filterTechnologies technologies options) in *.
    unfold filterTechnologies at 1. cbv zeta.
    assert (Hunique : uniqueFrom [] result = result).
    { apply uniqueFrom_fixed; [apply filterTechnologies_NoDup | intros t _ []]. }
    rewrite Hunique.
    rewrite filter_fixed.
    + apply sliceTo_all; assumption.
    + intros t Ht. apply negb_true_iff.
      destruct (shouldFilter t result (mergeFilterOptions options)) eqn:Hfilter;
        [| reflexivity].
      apply filterTechnologies_In in Ht. destruct Ht as [_ Hkeep].
      rewrite <- Hkeep. symmetry.
      apply (shouldFilter_more t result); [| exact Hfilter].
      intros x Hx. apply filterTechnologies_In in Hx. destruct Hx as [Hx _].
      apply uniqueFrom_In in Hx. exists x. tauto.
Qed.

(** ** Technologies by priority *)

Lemma comparePriority_after (a b : string) :
  priorityOf a <> None -> priorityOf b <> None ->
  (after comparePriority a b = true -> priorityDescending b a) /\
  (after comparePriority a b = false -> priorityDescending a b).
Proof.
  unfold after, comparePriority, priorityDescending.
  destruct (priorityOf a) as [x |], (priorityOf b) as [y |]; try congruence.
  intros _ _. split; intros H.
  - apply negb_true_iff in H. apply Qle_bool_false in H.
    change 0 with (inject_Z 0) in H. rewrite <- Zlt_Qlt in H. lia.
  - apply negb_false_iff in H. apply Qle_bool_true in H.
    change 0 with (inject_Z 0) in H. rewrite <- Zle_Qle in H. lia.
Qed.

Lemma priorityDescending_trans (a b c : string) :
  priorityDescending a b -> priorityDescending b c -> priorityDescending a c.
Proof.
  unfold priorityDescending.
  destruct (priorityOf a), (priorityOf b), (priorityOf c); try contradiction.
  intros. lia.
Qed.

Lemma prioritizeTechnologies_sorted (technologies : list string) :
  Forall (fun t => priorityOf t <> None) technologies ->
  StronglySorted priorityDescending (prioritizeTechnologies technologies).
Proof.
  intros Hnumbers. unfold prioritizeTechnologies.
  apply (jsSort_sorted _ (fun t => priorityOf t <> None) priorityDescending).
  - intros x y Hx Hy. apply (comparePriority_after x y Hx Hy).
  - intros x y Hx Hy. apply (comparePriority_after x y Hx Hy).
  - apply priorityDescending_trans.
  - exact Hnumbers.
Qed.

Lemma uniqueFrom_StronglySorted (R : string -> string -> Prop) (seen l : list string) :
  StronglySorted R l -> StronglySorted R (uniqueFrom seen l).
Proof.
  intros Hsorted. revert seen. induction Hsorted as [| x rest Hrest IH Hx]; intros seen; simpl.
  - constructor.
  - destruct (Js.arrIncludes seen (Js.toLowerCase x)); [apply IH |].
    constructor; [apply IH |].
    apply Forall_forall. intros z Hz. apply uniqueFrom_In in Hz.
    rewrite Forall_forall in Hx. apply Hx. tauto.
Qed.

Lemma sliceTo_StronglySorted {A} (R : A -> A -> Prop) (finish : Z) (l : list A) :
  StronglySorted R l -> StronglySorted R (sliceTo finish l).
Proof.
  intros Hsorted. unfold sliceTo.
  destruct (finish <? 0)%Z; apply firstn_StronglySorted; exact Hsorted.
Qed.

(** X29. [processTechnologies] sorts before it filters: when no technology
    is named like a property inherited from [Object.prototype],
    [prioritizeTechnologies] returns a permutation of the list sorted by
    descending priority, and the list [processTechnologies] returns is sorted
    by descending priority too; each technology it returns is one of the
    list that [shouldFilter] does not reject with respect to the list. *)
Theorem processTechnologies_by_priority
    (technologies : list string) (options : PartialFilterOptions) :
  Forall (fun t => priorityOf t <> None) technologies ->
  let result := processTechnologies technologies options in
  Permutation technologies (prioritizeTechnologies technologies) /\
  StronglySorted priorityDescending (prioritizeTechnologies technologies) /\
  StronglySorted priorityDescending result /\
  (forall t, In t result ->
     In t technologies /\
     shouldFilter t technologies (mergeFilterOptions options) = false).
Proof.
  intros Hnumbers. cbv zeta.
  pose proof (prioritizeTechnologies_sorted technologies Hnumbers) as Hsorted.
  assert (Hperm : Permutation technologies (prioritizeTechnologies technologies))
    by apply jsSort_Permutation.
  split; [exact Hperm |]. split; [exact Hsorted |]. split.
  - unfold processTechnologies, filterTechnologies. cbv zeta.
    apply sliceTo_StronglySorted, StronglySorted_filter, uniqueFrom_StronglySorted.
    exact Hsorted.
  - intros t Ht. unfold processTechnologies in Ht. cbv zeta in Ht.
    apply filterTechnologies_In in Ht. destruct Ht as [Hin Hkeep].
    apply uniqueFrom_In in Hin. destruct Hin as [Hin _].
    split.
    + apply (Permutation_in t (Permutation_sym Hperm)). exact Hin.
    + destruct (shouldFilter t technologies (mergeFilterOptions options)) eqn:Hfilter;
        [| reflexivity].
      rewrite <- Hkeep. symmetry.
      apply (shouldFilter_more t technologies); [| exact Hfilter].
      intros x Hx. exists x. split; [| reflexivity].
      apply (Permutation_in x Hperm). exact Hx.
Qed.

Lemma processTechnologies_by_priority_witness :
  StronglySorted priorityDescending
    (processTechnologies ["Jest"; "Git"; "JavaScript"; "Expo"; "TypeScript"] noFilterOptions) /\
  processTechnologies ["Jest"; "Git"; "JavaScript"; "Expo"; "TypeScript"] noFilterOptions
  = ["Expo"; "TypeScript"; "Jest"].
Proof.
  split; [| reflexivity].
  apply (processTechnologies_by_priority
           ["Jest"; "Git"; "JavaScript"; "Expo"; "TypeScript"] noFilterOptions).
  repeat constructor; discriminate.
Defined.

(* ================================================================= *)
(** * Properties of the template skills *)

Lemma pushInto_labels (categories : list (string * list string)) (category name : string) :
  map fst (pushInto categories category name) =
  if Js.arrIncludes (map fst categories) category
  then map fst categories
  else map fst categories ++ [category].
Proof.
  induction categories as [| [label items] rest IH]; [reflexivity |].
  cbn [pushInto map fst]. unfold Js.arrIncludes in *. cbn [existsb].
  rewrite (String.eqb_sym category label).
  destruct (String.eqb label category); [reflexivity |].
  cbn [map fst orb]. rewrite IH.
  destruct (existsb (String.eqb category) (map fst rest)); reflexivity.
Qed.

Lemma grouped_labels (skills : list ScoredSkill) (categories : list (string * list string)) :
  NoDup (map fst categories) ->
  let result :=
    fold_left (fun categories skill =>
                 pushInto categories (getSkillCategory skill) (skill_name (ss_skill skill)))
              skills categories in
  NoDup (map fst result) /\
  (forall label, In label (map fst result) ->
     In label (map fst categories) \/
     exists skill, In skill skills /\ getSkillCategory skill = label).
Proof.
  cbv zeta. revert categories.
  induction skills as [| skill rest IH]; intros categories Hnd; cbn [fold_left].
  - split; [exact Hnd | auto].
  - assert (Hstep : NoDup (map fst (pushInto categories (getSkillCategory skill)
                                      (skill_name (ss_skill skill))))).
    { rewrite pushInto_labels.
      destruct (Js.arrIncludes (map fst categories) (getSkillCategory skill)) eqn:E;
        [exact Hnd |].
      apply NoDup_app; [exact Hnd | repeat constructor; intros [] |].
      intros x Hx [<- | []].
      apply arrIncludes_In in Hx. congruence. }
    destruct (IH _ Hstep) as [Hnd' Hlabels]. split; [exact Hnd' |].
    intros label Hlabel. destruct (Hlabels label Hlabel) as [Hin | (s & Hs & Heq)].
    + rewrite pushInto_labels in Hin.
      destruct (Js.arrIncludes (map fst categories) (getSkillCategory skill));
        [left; exact Hin |].
      apply in_app_iff in Hin. destruct Hin as [Hin | [<- | []]]; [left; exact Hin |].
      right. exists skill. split; [left; reflexivity | reflexivity].
    + right. exists s. split; [right; exact Hs | exact Heq].
Qed.

Lemma getSkillCategory_label (skill : ScoredSkill) :
  In (getSkillCategory skill) ["Languages"; "Mobile"; "Cloud"; "DevOps"; "Tools"].
Proof.
  unfold getSkillCategory. cbv zeta.
  repeat match goal with
         | |- context [if ?b then _ else _] => destruct b
         end; simpl; tauto.
Qed.

(** X30. In the inline layout [transformSkills] highlights names of
    required or preferred skills only, at most [maxHighlighted] of them
    when that is not negative, and all of them when they are no more than
    that; it lists at most eight additional names, each the name of a skill
    it was given, and no highlighted name is listed as additional. In the
    grouped layout nothing is highlighted, and the categories carry
    distinct labels among Languages, Mobile, Cloud, DevOps and Tools. *)
Theorem transformSkills_layout (skills : list ScoredSkill) (maxHighlighted : Z) :
  (let result := transformSkills skills false maxHighlighted in
   let name := fun s => skill_name (ss_skill s) in
   exists others,
     additional result = Some others /\
     (List.length others <= 8)%nat /\
     ((0 <= maxHighlighted)%Z ->
      (List.length (highlighted result) <= Z.to_nat maxHighlighted)%nat) /\
     (forall n, In n (highlighted result) ->
        exists s, In s skills /\ name s = n /\ isRequired s || isPreferred s = true) /\
     (forall n, In n others -> exists s, In s skills /\ name s = n) /\
     (forall n, In n (highlighted result) -> ~ In n others) /\
     ((Z.of_nat (List.length (filter (fun s => isRequired s || isPreferred s) skills))
       <= maxHighlighted)%Z ->
      forall s, In s skills -> isRequired s || isPreferred s = true ->
                In (name s) (highlighted result))) /\
  (let result := transformSkills skills true maxHighlighted in
   highlighted result = [] /\
   exists categories,
     ts_categories result = Some categories /\
     NoDup (map fst categories) /\
     (forall label, In label (map fst categories) ->
        In label ["Languages"; "Mobile"; "Cloud"; "DevOps"; "Tools"])).
Proof.
  split.
  - cbv zeta. unfold transformSkills. cbn [additional highlighted].
    set (sortedSkills := jsSort compareSkills skills).
    set (requiredOrPreferred := filter (fun s => isRequired s || isPreferred s) sortedSkills).
    set (names := map (fun s => skill_name (ss_skill s))
                      (sliceTo maxHighlighted requiredOrPreferred)).
    eexists. split; [reflexivity |].
    split; [| split; [| split; [| split; [| split]]]].
    + rewrite length_map. unfold slice0. apply firstn_le_length.
    + intros Hcount. unfold names. rewrite length_map. apply sliceTo_length. exact Hcount.
    + intros n Hn. unfold names in Hn. apply in_map_iff in Hn.
      destruct Hn as (s & Hname & Hs). apply In_sliceTo in Hs.
      apply filter_In in Hs. destruct Hs as [Hs Hkind].
      apply (proj1 (jsSort_In _ _ _)) in Hs. exists s. auto.
    + intros n Hn. apply in_map_iff in Hn. destruct Hn as (s & Hname & Hs).
      apply In_firstn in Hs. apply filter_In in Hs. destruct Hs as [Hs _].
      apply (proj1 (jsSort_In _ _ _)) in Hs. exists s. auto.
    + intros n Hn Hother. apply in_map_iff in Hother. destruct Hother as (s & Hname & Hs).
      apply In_firstn in Hs. apply filter_In in Hs. destruct Hs as [_ Hnot].
      apply negb_true_iff in Hnot. rewrite Hname in Hnot.
      apply arrIncludes_In in Hn. congruence.
    + intros Hroom s Hs Hkind.
      assert (Hlen : List.length requiredOrPreferred
                     = List.length (filter (fun s => isRequired s || isPreferred s) skills)).
      { unfold requiredOrPreferred, sortedSkills.
        apply filter_length_Permutation.
        apply Permutation_sym, jsSort_Permutation. }
      unfold names. rewrite sliceTo_all; [| lia | lia].
      apply in_map_iff. exists s. split; [reflexivity |].
      apply filter_In. split; [| exact Hkind].
      apply (proj2 (jsSort_In _ _ _)). exact Hs.
  - cbv zeta. unfold transformSkills. cbn [highlighted ts_categories].
    split; [reflexivity |]. eexists. split; [reflexivity |].
    destruct (grouped_labels skills [] (NoDup_nil _)) as [Hnd Hlabels]. cbv zeta in Hnd, Hlabels.
    assert (Hfst : forall l : list (string * list string),
               map fst (map (fun entry : string * list string =>
                               let (label, items) := entry in (label, Js.join ", " items)) l)
               = map fst l).
    { intros l. rewrite map_map. apply map_ext. intros [label items]. reflexivity. }
    rewrite Hfst. split; [exact Hnd |].
    intros label Hlabel. destruct (Hlabels label Hlabel) as [[] | (s & _ & <-)].
    apply getSkillCategory_label.
Qed.
